(** * yad2listings: the vehicle-listing normaliser [yad2_parser.py]

    A shallow embedding of [src/yad2_parser.py] and the properties of its
    specification that concern the record normaliser
    ([process_vehicle_data]) and the directory driver ([process_directory]),
    followed by properties read off the code: of [get_month_number] and
    [calculate_years_since_production], of the columns of a row, and of
    what a call and a run write and print.  [extract_json_from_html] is not
    embedded: the parsing of HTML and of JSON is the libraries' work, and
    what it returns or raises for a file is an input of the model.

    The program is Python, so the embedding fixes a model of the part of the
    CPython 3.11 runtime the program touches:

    - a [str] is the list of its code points ([pystr]);
    - a value read from JSON is a [json]: [None], [bool], [int] (unbounded,
      [Z]), [float] (binary64, the kernel's primitive floats), [str], [list]
      and [dict] (a finite map from [str], [gmap]);
    - an operation that can raise returns a [result]; every exception the
      program can meet is a subclass of [Exception], and only [KeyError] is
      told apart by the handlers;
    - the wall clock is read through a [runtime] record; only the calendar
      date of [datetime.now()] is observable by the program, and it is taken
      not to change during a run;
    - the output file is the list of records written to it ([csv_line]);
      [writer.writerow] raises when a value has no text or the line cannot
      be encoded, the layout of the text itself is not modelled;
    - standard output is the list of messages printed ([message]); the text
      of a message is not modelled, and [print] is taken not to raise;
    - [open] and the writes of the header and of an encoded line are taken
      to succeed.  *)

From Stdlib Require Import ZArith List Bool Lia.
From Stdlib Require Import Ascii String.
From Stdlib Require PrimFloat FloatOps FloatAxioms SpecFloat Uint63.
From stdpp Require Import base option list gmap.

Set Warnings "-register-all,-inexact-float".
Import PrimFloat.PrimFloatNotationsInternalA.
Number Notation PrimFloat.float PrimFloat.parser PrimFloat.printer : float_scope.
#[local] Open Scope Z_scope.

(** ** Strings *)

(** A Python [str]: the sequence of its code points. *)
Abbreviation pystr := (list N).

(** Decoding of UTF-8, used to write the program's literals as they stand
    in the source file. *)
Fixpoint utf8_decode (bs : list N) : pystr :=
  match bs with
  | [] => []
  | b :: r =>
    if (b <? 0x80)%N then b :: utf8_decode r
    else if (b <? 0xE0)%N then
      match r with
      | b1 :: r1 =>
        (N.land b 0x1F * 0x40 + N.land b1 0x3F)%N :: utf8_decode r1
      | [] => [b]
      end
    else if (b <? 0xF0)%N then
      match r with
      | b1 :: b2 :: r2 =>
        (N.land b 0x0F * 0x1000 + N.land b1 0x3F * 0x40 + N.land b2 0x3F)%N
          :: utf8_decode r2
      | _ => [b]
      end
    else
      match r with
      | b1 :: b2 :: b3 :: r3 =>
        (N.land b 0x07 * 0x40000 + N.land b1 0x3F * 0x1000
         + N.land b2 0x3F * 0x40 + N.land b3 0x3F)%N :: utf8_decode r3
      | _ => [b]
      end
  end.

(** The literal [s] of the source as a [str]. *)
Definition lit (s : string) : pystr :=
  utf8_decode (map N_of_ascii (list_ascii_of_string s)).
Arguments lit : simpl never.

(** [s.startswith(p)]. *)
Fixpoint starts_with (p s : pystr) : bool :=
  match p, s with
  | [], _ => true
  | _ :: _, [] => false
  | a :: p', b :: s' => (a =? b)%N && starts_with p' s'
  end.

(** [sub in s] on strings: [sub] occurs in [s] as a contiguous run. *)
Fixpoint str_contains (sub s : pystr) : bool :=
  starts_with sub s ||
  match s with
  | [] => false
  | _ :: s' => str_contains sub s'
  end.

(** [s.endswith(suffix)]. *)
Definition ends_with (suffix s : pystr) : bool :=
  starts_with (rev suffix) (rev s).

(** Decimal digits of a natural number, most significant first; [fuel]
    bounds the number of digits. *)
Fixpoint dec_digits (fuel : nat) (n : N) (acc : pystr) : pystr :=
  match fuel with
  | O => acc
  | S fuel' =>
    let acc' := (0x30 + n mod 10)%N :: acc in
    if (n <? 10)%N then acc' else dec_digits fuel' (n / 10)%N acc'
  end.

(** [str(z)] of an [int]. *)
Definition str_of_int (z : Z) : pystr :=
  let n := Z.to_N (Z.abs z) in
  let ds := dec_digits (S (N.to_nat (N.log2 n))) n [] in
  if z <? 0 then 0x2D%N :: ds else ds.

(** [f"{z:02d}"] of an [int]: at least two digits, zero padded (the sign of
    a negative number counts for the width). *)
Definition fmt_02d (z : Z) : pystr :=
  if (0 <=? z) && (z <? 10) then 0x30%N :: str_of_int z else str_of_int z.

(** ** Values and exceptions *)

(** What [json.loads] can return. *)
Inductive json :=
| JNull
| JBool (b : bool)
| JInt (z : Z)
| JFloat (f : PrimFloat.float)
| JStr (s : pystr)
| JList (l : list json)
| JObj (m : gmap pystr json).

(** The exception classes the program can meet.  All derive from
    [Exception]; the handlers of [process_vehicle_data] tell [KeyError] from
    the rest. *)
Inductive exn :=
| KeyError
| TypeError
| AttributeError
| ValueError
| OverflowError
| ZeroDivisionError
| IndexError
| UnboundLocalError
| OSError.

(** The outcome of an expression or statement that may raise. *)
Inductive result (A : Type) :=
| Ok (a : A)
| Raise (e : exn).
Arguments Ok {A} a.
Arguments Raise {A} e.

(** Sequencing: the first exception raised ends the evaluation. *)
Definition bind {A B : Type} (m : result A) (f : A -> result B) : result B :=
  match m with
  | Ok a => f a
  | Raise e => Raise e
  end.

Notation "'let!' x ':=' m 'in' k" := (bind m (fun x => k))
  (at level 10, x name, m at level 100, k at level 200, only parsing).

(** [bool(v)]. *)
Definition py_truthy (v : json) : bool :=
  match v with
  | JNull => false
  | JBool b => b
  | JInt z => negb (z =? 0)
  | JFloat f => negb (PrimFloat.eqb f PrimFloat.zero)
  | JStr s => negb (bool_decide (s = []))
  | JList l => match l with [] => false | _ => true end
  | JObj m => negb (bool_decide (m = ∅))
  end.

(** [v == 0]: true of the numbers equal to zero ([False] is the [int] 0). *)
Definition py_eq_zero (v : json) : bool :=
  match v with
  | JBool b => negb b
  | JInt z => z =? 0
  | JFloat f => PrimFloat.eqb f PrimFloat.zero
  | _ => false
  end.

(** [v[k]] for a [str] key [k]. *)
Definition py_getitem (v : json) (k : pystr) : result json :=
  match v with
  | JObj m => match m !! k with Some x => Ok x | None => Raise KeyError end
  | _ => Raise TypeError
  end.

(** [v.get(k, d)]: a method of [dict] only. *)
Definition py_get (v : json) (k : pystr) (d : json) : result json :=
  match v with
  | JObj m => Ok (default d (m !! k))
  | _ => Raise AttributeError
  end.

(** [v == k] for a [str] [k]: only an equal [str] is. *)
Definition py_eq_str (v : json) (k : pystr) : bool :=
  match v with
  | JStr s => bool_decide (s = k)
  | _ => false
  end.

(** [k in v] for a [str] [k]: a key of a [dict], an element of a [list], a
    substring of a [str]; the other values are not containers. *)
Definition py_in (k : pystr) (v : json) : result bool :=
  match v with
  | JObj m => Ok (bool_decide (is_Some (m !! k)))
  | JList l => Ok (existsb (fun x => py_eq_str x k) l)
  | JStr s => Ok (str_contains k s)
  | _ => Raise TypeError
  end.

(** ** Floating point *)

(** [float] is IEEE 754 binary64: the kernel's primitive floats give the
    arithmetic and the comparisons; the two conversions the program uses
    ([int] to [float], and [round(x, 2)]) are correctly rounded in CPython
    and are computed here over exact integers. *)

(** The quotient of [a >= 0] by [b > 0], rounded to the nearest integer,
    ties to the even one. *)
Definition div_rhe (a b : Z) : Z :=
  let q := a / b in
  let r := a mod b in
  if 2 * r <? b then q
  else if b <? 2 * r then q + 1
  else if Z.even q then q else q + 1.

(** [floor (log2 (p / q))] for positive [p] and [q]. *)
Definition log2_ratio (p q : Z) : Z :=
  let e0 := Z.log2 p - Z.log2 q in
  let below :=
    if 0 <=? e0 then p <? q * 2 ^ e0 else p * 2 ^ (- e0) <? q in
  if below then e0 - 1 else e0.

(** The binary64 number nearest to the positive rational [p / q], ties to
    even; [None] when it rounds beyond the largest finite number. *)
Definition nearest_float (p q : Z) : option PrimFloat.float :=
  let e := Z.max (log2_ratio p q) (-1022) in
  let s := 52 - e in
  let k := if 0 <=? s then div_rhe (p * 2 ^ s) q else div_rhe p (q * 2 ^ (- s)) in
  if (1023 <? e) || ((e =? 1023) && (k =? 2 ^ 53)) then None
  else Some (FloatOps.Z.ldexp (PrimFloat.of_uint63 (Uint63.of_Z k)) (e - 52)).

(** [float(z)] of an [int], as the operators do it for a mixed operation:
    [OverflowError] when [z] is too large. *)
Definition float_of_int (z : Z) : result PrimFloat.float :=
  if z =? 0 then Ok PrimFloat.zero
  else
    match nearest_float (Z.abs z) 1 with
    | Some f => Ok (if z <? 0 then PrimFloat.opp f else f)
    | None => Raise OverflowError
    end.

(** [round(x, 2)] of a [float]: the decimal with two fractional digits
    nearest to the exact value of [x] (ties to even), converted back to the
    nearest [float]; zeros, infinities and NaN round to themselves. *)
Definition py_round2 (x : PrimFloat.float) : PrimFloat.float :=
  match FloatOps.Prim2SF x with
  | SpecFloat.S754_finite sign m e =>
    let n :=
      if 0 <=? e then 100 * Z.pos m * 2 ^ e
      else div_rhe (100 * Z.pos m) (2 ^ (- e)) in
    let r :=
      if n =? 0 then PrimFloat.zero
      else default x (nearest_float n 100) in
    if sign then PrimFloat.opp r else r
  | _ => x
  end.

(** [v > 0]: numbers compare; anything else against an [int] is a
    [TypeError]. *)
Definition py_gt_zero (v : json) : result bool :=
  match v with
  | JBool b => Ok b
  | JInt z => Ok (0 <? z)
  | JFloat f => Ok (PrimFloat.ltb PrimFloat.zero f)
  | _ => Raise TypeError
  end.

(** [a / b] for floats. *)
Definition float_truediv (a b : PrimFloat.float) : result PrimFloat.float :=
  if PrimFloat.eqb b PrimFloat.zero then Raise ZeroDivisionError
  else Ok (PrimFloat.div a b).

(** [v / y] for a [float] [y]: [v] is converted to [float] first. *)
Definition py_truediv (v : json) (y : PrimFloat.float) : result PrimFloat.float :=
  match v with
  | JBool b => float_truediv (if b then PrimFloat.one else PrimFloat.zero) y
  | JInt z => let! x := float_of_int z in float_truediv x y
  | JFloat x => float_truediv x y
  | _ => Raise TypeError
  end.

(** ** Text of values *)

(** [sys.get_int_max_str_digits()], CPython 3.11's default: a conversion
    between [int] and [str] with more decimal digits raises [ValueError]. *)
Definition int_max_str_digits : nat := 4300.

(** ** Calendar *)

Record date := Date { d_year : Z; d_month : Z; d_day : Z }.

Definition is_leap (y : Z) : bool :=
  (y mod 4 =? 0) && (negb (y mod 100 =? 0) || (y mod 400 =? 0)).

Definition days_before_year (y : Z) : Z :=
  let y1 := y - 1 in
  y1 * 365 + y1 / 4 - y1 / 100 + y1 / 400.

Definition days_before_month (y m : Z) : Z :=
  nth (Z.to_nat (m - 1)) [0; 31; 59; 90; 120; 151; 181; 212; 243; 273; 304; 334] 0
  + (if (2 <? m) && is_leap y then 1 else 0).

(** [date(y, m, d).toordinal()]: day 1 is 0001-01-01. *)
Definition ymd2ord (y m d : Z) : Z :=
  days_before_year y + days_before_month y m + d.

Definition ordinal (d : date) : Z := ymd2ord (d_year d) (d_month d) (d_day d).

(** [d.strftime('%Y-%m-%d')] (glibc: the year is not padded). *)
Definition strftime_Y_m_d (d : date) : pystr :=
  str_of_int (d_year d) ++ lit "-" ++ fmt_02d (d_month d) ++ lit "-"
  ++ fmt_02d (d_day d).

(** [d.strftime("%y_%m_%d")]. *)
Definition strftime_y_m_d (d : date) : pystr :=
  fmt_02d (d_year d mod 100) ++ lit "_" ++ fmt_02d (d_month d) ++ lit "_"
  ++ fmt_02d (d_day d).

(** What the program reads from its environment: the date at which the
    module was imported, the date [datetime.now()] gives during the run, and
    [str()] of the values whose text is the interpreter's business ([float],
    [list] and [dict]). *)
Record runtime := Runtime {
  import_date : date;
  now : date;
  repr_of : json -> result pystr;
}.

(** [str(v)], as an f-string formats a value. *)
Definition py_str (rt : runtime) (v : json) : result pystr :=
  match v with
  | JNull => Ok (lit "None")
  | JBool b => Ok (if b then lit "True" else lit "False")
  | JInt z =>
    let s := str_of_int (Z.abs z) in
    if bool_decide (int_max_str_digits < length s)%nat then Raise ValueError
    else Ok (str_of_int z)
  | JStr s => Ok s
  | _ => repr_of rt v
  end.

(** [datetime(year, month, 1)], as its ordinal: the arguments must be
    [int]s that fit a C [int], within the calendar's range. *)
Definition datetime_first (year : json) (month : Z) : result Z :=
  let build (y : Z) :=
    if (y <? - 2 ^ 31) || (2 ^ 31 <=? y) then Raise OverflowError
    else if (1 <=? y) && (y <=? 9999) && (1 <=? month) && (month <=? 12)
    then Ok (ymd2ord y month 1)
    else Raise ValueError in
  match year with
  | JBool b => build (if b then 1 else 0)
  | JInt y => build y
  | _ => Raise TypeError
  end.

(** ** The regular expression [(\d+)\s*כ״ס] *)

(** [\s] on a [str] pattern: the code points [str.isspace] accepts. *)
Definition is_space (c : N) : bool :=
  ((0x09 <=? c) && (c <=? 0x0D) || (0x1C <=? c) && (c <=? 0x20)
   || (c =? 0x85) || (c =? 0xA0) || (c =? 0x1680)
   || (0x2000 <=? c) && (c <=? 0x200A) || (c =? 0x2028) || (c =? 0x2029)
   || (c =? 0x202F) || (c =? 0x205F) || (c =? 0x3000))%N.

(** The code points of the digit zero of each script of Unicode 14.0 (the
    database of CPython 3.11); the nine that follow each are its digits one
    to nine. *)
Definition digit_zeros : list N :=
  [0x30; 0x660; 0x6F0; 0x7C0; 0x966; 0x9E6; 0xA66; 0xAE6; 0xB66; 0xBE6;
   0xC66; 0xCE6; 0xD66; 0xDE6; 0xE50; 0xED0; 0xF20; 0x1040; 0x1090; 0x17E0;
   0x1810; 0x1946; 0x19D0; 0x1A80; 0x1A90; 0x1B50; 0x1BB0; 0x1C40; 0x1C50;
   0xA620; 0xA8D0; 0xA900; 0xA9D0; 0xA9F0; 0xAA50; 0xABF0; 0xFF10; 0x104A0;
   0x10D30; 0x11066; 0x110F0; 0x11136; 0x111D0; 0x112F0; 0x11450; 0x114D0;
   0x11650; 0x116C0; 0x11730; 0x118E0; 0x11950; 0x11C50; 0x11D50; 0x11DA0;
   0x16A60; 0x16AC0; 0x16B50; 0x1D7CE; 0x1D7D8; 0x1D7E2; 0x1D7EC; 0x1D7F6;
   0x1E140; 0x1E2F0; 0x1E950; 0x1FBF0]%N.

(** The value of a decimal digit; [None] for any other code point. *)
Definition decimal_value (c : N) : option N :=
  (fun z => c - z)%N
    <$> find (fun z => (z <=? c) && (c <? z + 10))%N digit_zeros.

(** [\d] on a [str] pattern. *)
Definition is_digit (c : N) : bool := bool_decide (is_Some (decimal_value c)).

(** The Hebrew abbreviation of "horsepower", the literal of the pattern. *)
Definition hp_marker : pystr := lit "כ״ס".

(** [\s*כ״ס] matches at the head of [s]: the engine tries the longest run
    of spaces first and gives back one at a time. *)
Fixpoint match_spaces_marker (s : pystr) : bool :=
  match s with
  | c :: s' =>
    (is_space c && match_spaces_marker s') || starts_with hp_marker s
  | [] => starts_with hp_marker []
  end.

(** [(\d+)\s*כ״ס] matches at the head of [s]: what group 1 holds.  The
    engine takes one more digit as long as it can, and stops earlier only
    when the rest of the pattern fails after the longer run. *)
Fixpoint match_hp_here (s : pystr) : option pystr :=
  match s with
  | c :: s' =>
    if is_digit c then
      match match_hp_here s' with
      | Some ds => Some (c :: ds)
      | None => if match_spaces_marker s' then Some [c] else None
      end
    else None
  | [] => None
  end.

(** [re.search(r'(\d+)\s*כ״ס', s)]: group 1 of the match at the leftmost
    position where the pattern matches; [None] without a match. *)
Fixpoint re_search_hp (s : pystr) : option pystr :=
  match match_hp_here s with
  | Some ds => Some ds
  | None =>
    match s with
    | [] => None
    | _ :: s' => re_search_hp s'
    end
  end.

(** The number a run of decimal digits writes. *)
Definition digits_value (ds : pystr) : Z :=
  fold_left (fun acc c => 10 * acc + Z.of_N (default 0%N (decimal_value c))) ds 0.

(** [int(s)] of a non-empty run of decimal digits. *)
Definition int_of_digits (ds : pystr) : result Z :=
  if bool_decide (int_max_str_digits < length ds)%nat then Raise ValueError
  else Ok (digits_value ds).

(** Lines 104-105: [re.search] wants a [str]. *)
Definition extract_hp (text : json) : result Z :=
  match text with
  | JStr s =>
    match re_search_hp s with
    | Some ds => int_of_digits ds
    | None => Ok 0
    end
  | _ => Raise TypeError
  end.

(** ** The program *)

(** *** [get_month_number] (lines 22-29) *)

Definition month_mapping : gmap pystr Z :=
  list_to_map
    [(lit "ינואר", 1); (lit "פברואר", 2); (lit "מרץ", 3); (lit "אפריל", 4);
     (lit "מאי", 5); (lit "יוני", 6); (lit "יולי", 7); (lit "אוגוסט", 8);
     (lit "ספטמבר", 9); (lit "אוקטובר", 10); (lit "נובמבר", 11);
     (lit "דצמבר", 12)].

(** [month_mapping.get(month_text, 1)]: the key of a [dict] lookup must be
    hashable, which a [list] and a [dict] are not; any other value that is
    not one of the twelve names is simply not found. *)
Definition get_month_number (month_text : json) : result Z :=
  match month_text with
  | JList _ | JObj _ => Raise TypeError
  | JStr s => Ok (default 1 (month_mapping !! s))
  | _ => Ok 1
  end.

(** *** [calculate_years_since_production] (lines 31-35) *)

Definition calculate_years_since_production
    (rt : runtime) (production_year : json) (production_month : Z)
  : result PrimFloat.float :=
  let! production_date := datetime_first production_year production_month in
  let current_date := ordinal (now rt) in
  let! days := float_of_int (current_date - production_date) in
  float_truediv days 365.25%float.

(** *** The rows of the CSV file *)

(** The [row] dictionary of lines 123-143. *)
Module Row.
Record t := Make {
  adNumber : json;
  price : json;
  city : json;
  adType : json;
  model : json;
  subModel : json;
  hp : Z;
  make : json;
  productionDate : pystr;
  km : json;
  hand : json;
  createdAt : pystr;
  updatedAt : pystr;
  rebouncedAt : pystr;
  listingType : pystr;
  number_of_years : PrimFloat.float;
  km_per_year : json;
  description : json;
  link : pystr;
}.
End Row.

(** The column names, in the order of the file (lines 58-60). *)
Definition headers : list pystr :=
  [lit "adNumber"; lit "price"; lit "city"; lit "adType"; lit "model";
   lit "subModel"; lit "productionDate"; lit "km"; lit "hand";
   lit "createdAt"; lit "updatedAt"; lit "rebouncedAt"; lit "listingType";
   lit "number_of_years"; lit "km_per_year"; lit "description"; lit "link";
   lit "make"; lit "hp"].

(** *** [writer.writerow] (line 144) *)

(** The values of a row in the order of the columns, as [DictWriter] lists
    them. *)
Definition row_values (row : Row.t) : list json :=
  [Row.adNumber row; Row.price row; Row.city row; Row.adType row;
   Row.model row; Row.subModel row; JStr (Row.productionDate row);
   Row.km row; Row.hand row; JStr (Row.createdAt row);
   JStr (Row.updatedAt row); JStr (Row.rebouncedAt row);
   JStr (Row.listingType row); JFloat (Row.number_of_years row);
   Row.km_per_year row; Row.description row; JStr (Row.link row);
   Row.make row; JInt (Row.hp row)].

(** The text the writer gives a value: nothing for [None], a [str] as it
    is, [str()] of anything else. *)
Definition csv_text (rt : runtime) (v : json) : result pystr :=
  match v with
  | JNull => Ok []
  | _ => py_str rt v
  end.

Fixpoint csv_texts (rt : runtime) (vs : list json) : result (list pystr) :=
  match vs with
  | [] => Ok []
  | v :: vs' =>
    let! t := csv_text rt v in
    let! ts := csv_texts rt vs' in
    Ok (t :: ts)
  end.

(** UTF-8 encodes every code point but the surrogates. *)
Definition encodable (s : pystr) : bool :=
  forallb (fun c => (c <? 0xD800) || (0xDFFF <? c) && (c <=? 0x10FFFF))%N s.

(** Whether [writer.writerow(row)] succeeds: every value is turned into
    text, then the line is encoded for the file ([UnicodeEncodeError] is a
    [ValueError]).  Nothing is written when it raises. *)
Definition writerow (rt : runtime) (row : Row.t) : result unit :=
  let! texts := csv_texts rt (row_values row) in
  if forallb encodable texts then Ok tt else Raise ValueError.

(** *** The body of the loop of [process_vehicle_data] (lines 73-143) *)

(** Line 73: [item.get('orderId', item.get('token', 'unknown'))]. *)
Definition get_ad_number (item : json) : result json :=
  let! token := py_get item (lit "token") (JStr (lit "unknown")) in
  py_get item (lit "orderId") token.

Definition required_fields : list pystr :=
  [lit "manufacturer"; lit "model"; lit "subModel"; lit "vehicleDates";
   lit "token"].

(** [all(field in item for field in fields)]: stops at the first field
    that is not there. *)
Fixpoint all_in (fields : list pystr) (item : json) : result bool :=
  match fields with
  | [] => Ok true
  | field :: fields' =>
    let! b := py_in field item in
    if b then all_in fields' item else Ok false
  end.

(** Lines 97-101. *)
Definition km_per_year_of (years_since_production : PrimFloat.float) (km : json)
  : result json :=
  if PrimFloat.ltb 0%float years_since_production then
    let! positive := py_gt_zero km in
    if positive then
      let! q := py_truediv km years_since_production in
      Ok (JFloat (py_round2 q))
    else Ok (JInt 0)
  else Ok (JInt 0).

(** Lines 107-113. *)
Definition city_of (item : json) : result json :=
  let! has_address := py_in (lit "address") item in
  if has_address then
    let! address := py_getitem item (lit "address") in
    let! has_city := py_in (lit "city") address in
    if has_city then
      let! c := py_getitem address (lit "city") in
      py_get c (lit "text") (JStr [])
    else
      let! has_area := py_in (lit "area") address in
      if has_area then
        let! a := py_getitem address (lit "area") in
        py_get a (lit "text") (JStr [])
      else Ok (JStr [])
  else Ok (JStr []).

(** Lines 115-118. *)
Definition description_of (item : json) : result json :=
  let! has_meta := py_in (lit "metaData") item in
  if has_meta then
    let! meta := py_getitem item (lit "metaData") in
    let! has_description := py_in (lit "description") meta in
    if has_description then py_getitem meta (lit "description")
    else Ok (JStr [])
  else Ok (JStr []).

(** Lines 75-143, for an item whose [ad_number] has been read: [Ok None] is
    a [continue] (the record is skipped by policy), [Ok (Some row)] the row
    handed to the writer, [Raise e] an exception that reaches the handlers
    of lines 146-151. *)
Definition convert (rt : runtime) (listing_type : pystr) (item ad_number : json)
  : result (option Row.t) :=
  let! has_price := py_in (lit "price") item in
  if negb has_price then Ok None else
  let! price := py_getitem item (lit "price") in
  if py_eq_zero price then Ok None else
  let! complete := all_in required_fields item in
  if negb complete then Ok None else
  let! vehicle_dates := py_getitem item (lit "vehicleDates") in
  let! year := py_getitem vehicle_dates (lit "yearOfProduction") in
  let! month_data := py_get vehicle_dates (lit "monthOfProduction")
                 (JObj {[ lit "text" := JStr (lit "ינואר") ]}) in
  let! month_text := py_get month_data (lit "text") (JStr (lit "ינואר")) in
  let! month := get_month_number month_text in
  let! year_text := py_str rt year in
  let production_date := year_text ++ lit "-" ++ fmt_02d month ++ lit "-01" in
  let! years_since_production := calculate_years_since_production rt year month in
  let! km := py_get item (lit "km") (JInt 0) in
  let! km_per_year := km_per_year_of years_since_production km in
  let! sub_model := py_getitem item (lit "subModel") in
  let! sub_model_text := py_getitem sub_model (lit "text") in
  let! hp := extract_hp sub_model_text in
  let! city := city_of item in
  let! description := description_of item in
  let current_date := strftime_Y_m_d (now rt) in
  let! row_price := py_getitem item (lit "price") in
  let! ad_type := py_get item (lit "adType") (JStr []) in
  let! model := py_getitem item (lit "model") in
  let! model_text := py_getitem model (lit "text") in
  let! row_sub_model := py_getitem item (lit "subModel") in
  let! row_sub_model_text := py_getitem row_sub_model (lit "text") in
  let! manufacturer := py_getitem item (lit "manufacturer") in
  let! make := py_getitem manufacturer (lit "text") in
  let! hand_data := py_get item (lit "hand") (JObj {[ lit "id" := JInt 0 ]}) in
  let! hand := py_getitem hand_data (lit "id") in
  let! token := py_getitem item (lit "token") in
  let! token_text := py_str rt token in
  Ok (Some {|
    Row.adNumber := ad_number;
    Row.price := row_price;
    Row.city := city;
    Row.adType := ad_type;
    Row.model := model_text;
    Row.subModel := row_sub_model_text;
    Row.hp := hp;
    Row.make := make;
    Row.productionDate := production_date;
    Row.km := km;
    Row.hand := hand;
    Row.createdAt := current_date;
    Row.updatedAt := current_date;
    Row.rebouncedAt := current_date;
    Row.listingType := listing_type;
    Row.number_of_years := py_round2 years_since_production;
    Row.km_per_year := km_per_year;
    Row.description := description;
    Row.link := lit "https://www.yad2.co.il/vehicles/item/" ++ token_text;
  |}).

(** *** Files and the console *)

(** The two modes the program opens its output with: ['w'] and ['a']. *)
Inductive open_mode := ModeW | ModeA.

(** What a [csv.DictWriter] writes: the header row or the row of a record. *)
Inductive csv_line :=
| HeaderLine (fieldnames : list pystr)
| DataLine (row : Row.t).

(** What the program prints. *)
Inductive message :=
| DebugBanner (listing_type : pystr)
| DebugItem (item : json)
| SkippingItem (ad_number : json) (e : exn)
| ErrorItem (ad_number : json) (e : exn)
| Processed (count : Z)
| ProcessingFile (filename : pystr)
| ErrorFile (filename : pystr) (e : exn)
| OutputSaved (output_path : pystr).

(** The part of the world the program changes: the CSV files by path,
    standard output, and the record of the calls to [open] for writing. *)
Record world := World {
  files : gmap pystr (list csv_line);
  stdout : list message;
  opens : list (pystr * open_mode);
}.

Definition print (m : message) (w : world) : world :=
  {| files := files w; stdout := stdout w ++ [m]; opens := opens w |}.

(** [os.path.exists(path)]. *)
Definition path_exists (path : pystr) (w : world) : bool :=
  bool_decide (is_Some (files w !! path)).

(** [open(path, mode)]: ['w'] creates the file or empties it, ['a'] creates
    it when it is not there and keeps what it holds when it is. *)
Definition open_file (path : pystr) (mode : open_mode) (w : world) : world :=
  {| files :=
       match mode with
       | ModeW => <[path := []]> (files w)
       | ModeA => <[path := default [] (files w !! path)]> (files w)
       end;
     stdout := stdout w;
     opens := opens w ++ [(path, mode)] |}.

(** A line written at the end of the open file. *)
Definition write_line (path : pystr) (line : csv_line) (w : world) : world :=
  {| files := <[path := default [] (files w !! path) ++ [line]]> (files w);
     stdout := stdout w;
     opens := opens w |}.

(** *** [process_vehicle_data] (lines 37-155) *)

(** [v[0]]. *)
Definition py_getitem0 (v : json) : result json :=
  match v with
  | JList (x :: _) => Ok x
  | JStr (c :: _) => Ok (JStr [c])
  | JList [] | JStr [] => Raise IndexError
  | JObj _ => Raise KeyError
  | _ => Raise TypeError
  end.

(** The values [for item in v] runs through: the elements of a [list], the
    characters of a [str], the keys of a [dict]. *)
Definition py_iter (v : json) : result (list json) :=
  match v with
  | JList l => Ok l
  | JStr s => Ok (map (fun c => JStr [c]) s)
  | JObj m => Ok (map (fun kv => JStr (fst kv)) (map_to_list m))
  | _ => Raise TypeError
  end.

(** Lines 41-55, entered when [debug and json_list]: the first item is
    printed key by key, so it has to be a [dict]. *)
Definition debug_inspect (json_list : json) (listing_type : pystr) (w : world)
  : world * result unit :=
  let w := print (DebugBanner listing_type) w in
  match py_getitem0 json_list with
  | Ok (JObj m) => (print (DebugItem (JObj m)) w, Ok tt)
  | Ok _ => (w, Raise AttributeError)
  | Raise e => (w, Raise e)
  end.

(** The variables of the loop of lines 68-151; [ad_number] is not bound
    before the first item has set it. *)
Record loop_state := LoopState {
  loop_world : world;
  processed_count : Z;
  ad_number : option json;
}.

(** The handlers of lines 146-151.  They print in debug mode only, and the
    message names [ad_number]: reading it before any item has bound it
    raises in turn, out of the loop. *)
Definition handle (debug : bool) (e : exn) (st : loop_state)
  : loop_state * result unit :=
  if debug then
    match ad_number st with
    | Some a =>
      let m := match e with KeyError => SkippingItem a e | _ => ErrorItem a e end in
      ({| loop_world := print m (loop_world st);
          processed_count := processed_count st;
          ad_number := ad_number st |}, Ok tt)
    | None => (st, Raise UnboundLocalError)
    end
  else (st, Ok tt).

(** One turn of the loop (lines 71-151). *)
Definition loop_body (rt : runtime) (listing_type output_file : pystr)
    (debug : bool) (item : json) (st : loop_state) : loop_state * result unit :=
  match get_ad_number item with
  | Raise e => handle debug e st
  | Ok a =>
    let st := {| loop_world := loop_world st;
                 processed_count := processed_count st;
                 ad_number := Some a |} in
    match convert rt listing_type item a with
    | Ok None => (st, Ok tt)
    | Ok (Some row) =>
      match writerow rt row with
      | Ok _ =>
        ({| loop_world := write_line output_file (DataLine row) (loop_world st);
            processed_count := processed_count st + 1;
            ad_number := ad_number st |}, Ok tt)
      | Raise e => handle debug e st
      end
    | Raise e => handle debug e st
    end
  end.

(** The loop of line 70. *)
Fixpoint for_items (rt : runtime) (listing_type output_file : pystr)
    (debug : bool) (items : list json) (st : loop_state)
  : loop_state * result unit :=
  match items with
  | [] => (st, Ok tt)
  | item :: items' =>
    match loop_body rt listing_type output_file debug item st with
    | (st', Ok _) => for_items rt listing_type output_file debug items' st'
    | (st', Raise e) => (st', Raise e)
    end
  end.

Definition process_vehicle_data (rt : runtime) (json_list : json)
    (listing_type output_file : pystr) (mode : open_mode) (debug : bool)
    (w : world) : world * result unit :=
  match
    (if debug && py_truthy json_list
     then debug_inspect json_list listing_type w else (w, Ok tt))
  with
  | (w, Raise e) => (w, Raise e)
  | (w, Ok _) =>
    let w := open_file output_file mode w in
    let w :=
      match mode with
      | ModeW => write_line output_file (HeaderLine headers) w
      | ModeA => w
      end in
    match py_iter json_list with
    | Raise e => (w, Raise e)
    | Ok items =>
      match
        for_items rt listing_type output_file debug items
          {| loop_world := w; processed_count := 0; ad_number := None |}
      with
      | (st, Raise e) => (loop_world st, Raise e)
      | (st, Ok _) =>
        (if 0 <? processed_count st
         then print (Processed (processed_count st)) (loop_world st)
         else loop_world st, Ok tt)
      end
    end
  end.

(** *** [process_directory] (lines 157-203) *)

(** The module-level [today] of line 10. *)
Definition today (rt : runtime) : pystr := strftime_y_m_d (import_date rt).

Fixpoint split_on (sep : N) (s cur : pystr) : list pystr :=
  match s with
  | [] => [rev cur]
  | c :: s' =>
    if (c =? sep)%N then rev cur :: split_on sep s' []
    else split_on sep s' (c :: cur)
  end.

(** [Path(p).name] on POSIX: the last component, where empty components
    and [.] do not count. *)
Definition path_name (p : pystr) : pystr :=
  let parts :=
    List.filter
      (fun c => negb (bool_decide (c = []) || bool_decide (c = lit ".")))
      (split_on 0x2F p []) in
  default [] (last parts).

(** [os.path.join(a, b)] on POSIX. *)
Definition os_path_join (a b : pystr) : pystr :=
  if starts_with (lit "/") b then b
  else if bool_decide (a = []) || ends_with (lit "/") a then a ++ b
  else a ++ lit "/" ++ b.

(** A file of the directory as the program sees it: whether [open]
    succeeds, and what reading it and [extract_json_from_html] give then
    (the parsing of HTML and of JSON is the libraries' work). *)
Inductive file_content :=
| Unreadable (e : exn)
| Readable (extracted : result json).

Record dir_entry := DirEntry {
  entry_name : pystr;
  entry_content : file_content;
}.

(** The body of a [try] of [process_directory]: it changes the world and
    the variable [debug], and returns or raises. *)
Definition dir_state : Type := world * bool.
Definition action (A : Type) : Type := dir_state -> dir_state * result A.

Definition and_then {A B : Type} (m : action A) (k : A -> action B) : action B :=
  fun s =>
    match m s with
    | (s', Ok a) => k a s'
    | (s', Raise e) => (s', Raise e)
    end.

Notation "'do!' x ':=' m 'in' k" := (and_then m (fun x => k))
  (at level 10, x name, m at level 100, k at level 200, only parsing).

(** An expression that reads no state. *)
Definition eval {A : Type} (r : result A) : action A := fun s => (s, r).

(** A statement on the world alone. *)
Definition on_world {A : Type} (f : world -> world * result A) : action A :=
  fun s => let '(w, r) := f (fst s) in ((w, snd s), r).

Definition get_debug : action bool := fun s => (s, Ok (snd s)).
Definition set_debug (b : bool) : action unit := fun s => ((fst s, b), Ok tt).

(** ['a' if os.path.exists(output_path) else 'w']. *)
Definition choose_mode (output_path : pystr) : action open_mode :=
  fun s => (s, Ok (if path_exists output_path (fst s) then ModeA else ModeW)).

(** Line 173. *)
Definition listings_of (data : json) : result json :=
  let! props := py_getitem data (lit "props") in
  let! page_props := py_getitem props (lit "pageProps") in
  let! dehydrated := py_getitem page_props (lit "dehydratedState") in
  let! queries := py_getitem dehydrated (lit "queries") in
  let! query := py_getitem0 queries in
  let! state := py_getitem query (lit "state") in
  py_getitem state (lit "data").

(** Lines 169-198, the body of the [try] for one file. *)
Definition process_file (rt : runtime) (output_path : pystr) (e : dir_entry)
  : action unit :=
  match entry_content e with
  | Unreadable err => eval (Raise err)
  | Readable extracted =>
    do! _ := on_world (fun w => (print (ProcessingFile (entry_name e)) w, Ok tt)) in
    do! data := eval extracted in
    do! listings_data := eval (listings_of data) in
    do! commercial_list := eval (py_get listings_data (lit "commercial") (JList [])) in
    do! _ :=
      (if py_truthy commercial_list then
         do! mode := choose_mode output_path in
         do! debug := get_debug in
         do! _ := on_world (process_vehicle_data rt commercial_list
                              (lit "commercial") output_path mode debug) in
         set_debug false
       else eval (Ok tt)) in
    do! private_list := eval (py_get listings_data (lit "private") (JList [])) in
    do! _ :=
      (if py_truthy private_list then
         do! mode := choose_mode output_path in
         on_world (process_vehicle_data rt private_list
                     (lit "private") output_path mode false)
       else eval (Ok tt)) in
    do! solo_list := eval (py_get listings_data (lit "solo") (JList [])) in
    do! _ :=
      (if py_truthy solo_list then
         do! mode := choose_mode output_path in
         on_world (process_vehicle_data rt solo_list
                     (lit "solo") output_path mode false)
       else eval (Ok tt)) in
    do! platinum_list := eval (py_get listings_data (lit "platinum") (JList [])) in
    if py_truthy platinum_list then
      do! mode := choose_mode output_path in
      on_world (process_vehicle_data rt platinum_list
                  (lit "platinum") output_path mode false)
    else eval (Ok tt)
  end.

(** Lines 165-201: the files of the listing in turn; an exception raised
    for a file is printed and the loop goes on. *)
Fixpoint for_files (rt : runtime) (output_path : pystr)
    (entries : list dir_entry) (s : dir_state) : dir_state :=
  match entries with
  | [] => s
  | e :: entries' =>
    let s' :=
      if ends_with (lit ".html") (entry_name e)
         && str_contains (today rt) (entry_name e)
      then
        match process_file rt output_path e s with
        | (s', Ok _) => s'
        | (s', Raise err) => (print (ErrorFile (entry_name e) err) (fst s'), snd s')
        end
      else s in
    for_files rt output_path entries' s'
  end.

(** The path of the summary file (lines 160-162). *)
Definition output_path_of (directory_path : pystr) : pystr :=
  let dir_name := path_name directory_path in
  let output_file := dir_name ++ lit "_summary.csv" in
  os_path_join directory_path output_file.

(** [process_directory(directory_path, debug)] in a directory whose listing
    ([os.listdir]) is [entries]. *)
Definition process_directory (rt : runtime) (directory_path : pystr)
    (debug : bool) (entries : list dir_entry) (w : world) : world :=
  let output_path := output_path_of directory_path in
  let s := for_files rt output_path entries (w, debug) in
  print (OutputSaved output_path) (fst s).

(** ** Notions of the specification and examples *)

(** The skip policy of lines 75-82 on a record: no price, a price equal to
    zero, or one of the required fields not there. *)
Definition skip_policy (item : gmap pystr json) : Prop :=
  item !! lit "price" = None
  \/ (exists p, item !! lit "price" = Some p /\ py_eq_zero p = true)
  \/ exists field, In field required_fields /\ item !! field = None.

(** The values the body of the loop meets on its way to a row. *)
Record locals := Locals {
  l_vehicle_dates : json;
  l_year : json;
  l_month_data : json;
  l_month_text : json;
  l_month : Z;
  l_year_text : pystr;
  l_years : PrimFloat.float;
  l_sub_model : json;
  l_model : json;
  l_manufacturer : json;
  l_hand_data : json;
  l_token : json;
  l_token_text : pystr;
}.

(** The body of the loop as a relation: [row] is built from [item] through
    the values [v], statement by statement. *)
Record built (rt : runtime) (listing_type : pystr) (item : gmap pystr json)
    (ad_number : json) (row : Row.t) (v : locals) : Prop := Built {
  b_price : item !! lit "price" = Some (Row.price row);
  b_price_nonzero : py_eq_zero (Row.price row) = false;
  b_required : all_in required_fields (JObj item) = Ok true;
  b_vehicle_dates : item !! lit "vehicleDates" = Some (l_vehicle_dates v);
  b_year :
    py_getitem (l_vehicle_dates v) (lit "yearOfProduction") = Ok (l_year v);
  b_month_data :
    py_get (l_vehicle_dates v) (lit "monthOfProduction")
      (JObj {[ lit "text" := JStr (lit "ינואר") ]}) = Ok (l_month_data v);
  b_month_text :
    py_get (l_month_data v) (lit "text") (JStr (lit "ינואר"))
    = Ok (l_month_text v);
  b_month : get_month_number (l_month_text v) = Ok (l_month v);
  b_year_text : py_str rt (l_year v) = Ok (l_year_text v);
  b_production_date :
    Row.productionDate row
    = l_year_text v ++ lit "-" ++ fmt_02d (l_month v) ++ lit "-01";
  b_years :
    calculate_years_since_production rt (l_year v) (l_month v)
    = Ok (l_years v);
  b_number_of_years : Row.number_of_years row = py_round2 (l_years v);
  b_km : Row.km row = default (JInt 0) (item !! lit "km");
  b_km_per_year :
    km_per_year_of (l_years v) (Row.km row) = Ok (Row.km_per_year row);
  b_sub_model : item !! lit "subModel" = Some (l_sub_model v);
  b_sub_model_text :
    py_getitem (l_sub_model v) (lit "text") = Ok (Row.subModel row);
  b_hp : extract_hp (Row.subModel row) = Ok (Row.hp row);
  b_city : city_of (JObj item) = Ok (Row.city row);
  b_description : description_of (JObj item) = Ok (Row.description row);
  b_ad_type : Row.adType row = default (JStr []) (item !! lit "adType");
  b_model : item !! lit "model" = Some (l_model v);
  b_model_text : py_getitem (l_model v) (lit "text") = Ok (Row.model row);
  b_manufacturer : item !! lit "manufacturer" = Some (l_manufacturer v);
  b_make : py_getitem (l_manufacturer v) (lit "text") = Ok (Row.make row);
  b_hand_data :
    l_hand_data v = default (JObj {[ lit "id" := JInt 0 ]}) (item !! lit "hand");
  b_hand : py_getitem (l_hand_data v) (lit "id") = Ok (Row.hand row);
  b_token : item !! lit "token" = Some (l_token v);
  b_token_text : py_str rt (l_token v) = Ok (l_token_text v);
  b_link :
    Row.link row = lit "https://www.yad2.co.il/vehicles/item/" ++ l_token_text v;
  b_ad_number : Row.adNumber row = ad_number;
  b_created_at : Row.createdAt row = strftime_Y_m_d (now rt);
  b_updated_at : Row.updatedAt row = strftime_Y_m_d (now rt);
  b_rebounced_at : Row.rebouncedAt row = strftime_Y_m_d (now rt);
  b_listing_type : Row.listingType row = listing_type;
}.

(** The member at the end of a path of keys, when every step is a [dict]
    that has the key. *)
Fixpoint lookup_path (keys : list pystr) (v : json) : option json :=
  match keys with
  | [] => Some v
  | k :: keys' =>
    match v with
    | JObj m =>
      match m !! k with
      | Some x => lookup_path keys' x
      | None => None
      end
    | _ => None
    end
  end.

(** The city as the specification words it (section 4.2, step 9): the text
    of [address.city] if it exists, else the text of [address.area] if it
    exists, else the empty string. *)
Definition spec_city (item : json) : json :=
  match lookup_path [lit "address"; lit "city"; lit "text"] item with
  | Some text => text
  | None =>
    match lookup_path [lit "address"; lit "area"; lit "text"] item with
    | Some text => text
    | None => JStr []
    end
  end.

(** A runtime for the examples: the module is imported and run on the day
    [d], and the text of a [float], a [list] or a [dict] is left as dots
    (the examples do not depend on it). *)
Definition runtime_on (d : date) : runtime :=
  {| import_date := d; now := d; repr_of := fun _ => Ok (lit "...") |}.

(** The third of November 2026. *)
Definition example_runtime : runtime := runtime_on (Date 2026 11 3).

(** The listing of the specification's first scenario, with other values
    for some of its members. *)
Definition example_listing (year : json) (sub_model_text : pystr)
    (extra : list (pystr * json)) : gmap pystr json :=
  list_to_map
    (extra ++
     [(lit "price", JInt 50000);
      (lit "manufacturer", JObj {[ lit "text" := JStr (lit "Toyota") ]});
      (lit "model", JObj {[ lit "text" := JStr (lit "Corolla") ]});
      (lit "subModel", JObj {[ lit "text" := JStr sub_model_text ]});
      (lit "vehicleDates",
       JObj (list_to_map
               [(lit "yearOfProduction", year);
                (lit "monthOfProduction",
                 JObj {[ lit "text" := JStr (lit "ינואר") ]})]));
      (lit "km", JInt 60000);
      (lit "token", JStr (lit "abc123"))]).

(** An address that has a city without a name and an area with one. *)
Definition nameless_city_address : json :=
  JObj (list_to_map
          [(lit "city", JObj ∅);
           (lit "area", JObj {[ lit "text" := JStr (lit "North") ]})]).

Definition nameless_city_listing : gmap pystr json :=
  example_listing (JInt 2020) (lit "1.8")
    [(lit "address", nameless_city_address)].

(** A listing whose [hand] is a mapping without an [id]. *)
Definition handless_listing : gmap pystr json :=
  example_listing (JInt 2020) (lit "1.8") [(lit "hand", JObj ∅)].

(** A world with no file and nothing printed. *)
Definition empty_world : world := {| files := ∅; stdout := []; opens := [] |}.

(** The pattern [^\d{4}-\d{2}-01$] of the specification, as [re.search]
    reads it: [$] also matches before a newline that ends the string. *)
Definition matches_production_date (s : pystr) : bool :=
  let s :=
    match last s with
    | Some 0x0A%N => removelast s
    | _ => s
    end in
  bool_decide (length s = 10%nat)
  && forallb is_digit (take 4 s)
  && starts_with (lit "-") (drop 4 s)
  && forallb is_digit (take 2 (drop 5 s))
  && starts_with (lit "-01") (drop 7 s).

(** A listing of a vehicle of the year 999. *)
Definition old_listing : gmap pystr json :=
  example_listing (JInt 999) (lit "1.8") [].

(** A listing of a vehicle made in January 2026. *)
Definition new_listing : gmap pystr json :=
  example_listing (JInt 2026) (lit "1.8") [].

(** A listing with a negative odometer reading. *)
Definition negative_km_listing : gmap pystr json :=
  <[lit "km" := JInt (-5)]> (example_listing (JInt 2020) (lit "1.8") []).

(** An integer token followed by the horsepower marker in [s]: after [pre]
    come a non-empty run of digits [ds], whitespace [ws] (possibly none),
    the marker, and [post]. *)
Definition hp_token (s pre ds ws post : pystr) : Prop :=
  s = pre ++ ds ++ ws ++ hp_marker ++ post
  /\ ds <> []
  /\ Forall (fun c => is_digit c = true) ds
  /\ Forall (fun c => is_space c = true) ws.

(** What stands before the first occurrence of the marker in [s]; [None]
    when the marker does not occur. *)
Fixpoint before_first_marker (s : pystr) : option pystr :=
  if starts_with hp_marker s then Some []
  else
    match s with
    | [] => None
    | c :: s' => cons c <$> before_first_marker s'
    end.

Fixpoint drop_while (p : N -> bool) (s : pystr) : pystr :=
  match s with
  | c :: s' => if p c then drop_while p s' else s
  | [] => []
  end.

Fixpoint take_while (p : N -> bool) (s : pystr) : pystr :=
  match s with
  | c :: s' => if p c then c :: take_while p s' else []
  | [] => []
  end.

(** The horsepower as the specification words it (section 4.2, step 8):
    the integer whose digits stand immediately before the first occurrence
    of the marker, whitespace apart; [None] when there is no such integer. *)
Definition spec_hp (s : pystr) : option Z :=
  match before_first_marker s with
  | Some pre =>
    match rev (take_while is_digit (drop_while is_space (rev pre))) with
    | [] => None
    | ds => Some (digits_value ds)
    end
  | None => None
  end.

(** A listing whose sub-model names the marker before the figure. *)
Definition marker_first_listing : gmap pystr json :=
  example_listing (JInt 2020) (lit "כ״ס 132 כ״ס") [].

(** The row a record is normalised to, if it is: [None] for a record that
    is skipped by policy and for one whose row cannot be built or cannot be
    written. *)
Definition row_of (rt : runtime) (listing_type : pystr)
    (item : gmap pystr json) : option Row.t :=
  match get_ad_number (JObj item) with
  | Ok a =>
    match convert rt listing_type (JObj item) a with
    | Ok (Some row) =>
      match writerow rt row with
      | Ok _ => Some row
      | Raise _ => None
      end
    | _ => None
    end
  | Raise _ => None
  end.

(** The turn of the loop for a record raises [e]: while the row is built,
    or when it is written. *)
Definition record_raises (rt : runtime) (listing_type : pystr)
    (item : gmap pystr json) (e : exn) : Prop :=
  exists a,
    get_ad_number (JObj item) = Ok a
    /\ (convert rt listing_type (JObj item) a = Raise e
        \/ exists row,
            convert rt listing_type (JObj item) a = Ok (Some row)
            /\ writerow rt row = Raise e).

(** The rows of the records of a list that are normalised, in order. *)
Definition rows_of (rt : runtime) (listing_type : pystr)
    (items : list (gmap pystr json)) : list Row.t :=
  omap (row_of rt listing_type) items.

(** A [list] of [dict]s, the type of [json_list]. *)
Definition dicts (items : list (gmap pystr json)) : json :=
  JList (JObj <$> items).

(** The message of line 155. *)
Definition is_processed (m : message) : bool :=
  match m with
  | Processed _ => true
  | _ => false
  end.

(** The listing of the specification's first scenario. *)
Definition good_listing : gmap pystr json :=
  example_listing (JInt 2020) (lit "1.8 132 כ״ס") [].

(** The summary file at [path] between the world [w0], in which it does
    not exist, and [w]: either nothing was opened and it still does not
    exist, or it was opened once in mode ['w'] and then only in mode ['a'],
    and it holds the header row followed by rows of records. *)
Definition header_once (path : pystr) (w0 w : world) : Prop :=
  exists new_opens,
    opens w = opens w0 ++ new_opens
    /\ (new_opens = [] /\ files w !! path = None
        \/ exists (n : nat) (rows : list Row.t),
            new_opens = (path, ModeW) :: repeat (path, ModeA) n
            /\ files w !! path
               = Some (HeaderLine headers :: (DataLine <$> rows))).

(** An action keeps a property of the world, whether it returns or
    raises. *)
Definition keeps (I : world -> Prop) {A : Type} (m : action A) : Prop :=
  forall s, I (fst s) -> I (fst (fst (m s))).

(** A [dict] with one member. *)
Definition member (k : string) (v : json) : json := JObj {[ lit k := v ]}.

(** The page data of a file whose listings are [listings]. *)
Definition page_data (listings : json) : json :=
  member "props"
    (member "pageProps"
       (member "dehydratedState"
          (member "queries"
             (JList [member "state" (member "data" listings)])))).

(** Two files of the day of [example_runtime]: one with a commercial
    listing, one with a private listing. *)
Definition two_files : list dir_entry :=
  [ {| entry_name := lit "commercial_26_11_03.html";
       entry_content :=
         Readable (Ok (page_data
                         (member "commercial" (dicts [good_listing])))) |};
    {| entry_name := lit "private_26_11_03.html";
       entry_content :=
         Readable (Ok (page_data
                         (member "private" (dicts [good_listing])))) |} ].

(** A file of the day that lists nothing. *)
Definition empty_file : list dir_entry :=
  [ {| entry_name := lit "empty_26_11_03.html";
       entry_content :=
         Readable (Ok (page_data (member "commercial" (JList [])))) |} ].

(** The listings of a page, by category. *)
Record page := Page {
  commercial : list (gmap pystr json);
  private : list (gmap pystr json);
  solo : list (gmap pystr json);
  platinum : list (gmap pystr json);
}.

(** The JSON data of a page. *)
Definition page_json (p : page) : json :=
  page_data
    (JObj (list_to_map
             [(lit "commercial", dicts (commercial p));
              (lit "private", dicts (private p));
              (lit "solo", dicts (solo p));
              (lit "platinum", dicts (platinum p))])).

(** The file of a page. *)
Definition page_entry (named : pystr * page) : dir_entry :=
  {| entry_name := fst named;
     entry_content := Readable (Ok (page_json (snd named))) |}.

(** The name of the file passes the filter of line 166. *)
Definition selected (rt : runtime) (name : pystr) : bool :=
  ends_with (lit ".html") name && str_contains (today rt) name.

(** The page has a listing, in any category. *)
Definition has_listing (p : page) : bool :=
  negb (bool_decide (commercial p ++ private p ++ solo p ++ platinum p = [])).

(** The rows of a page: category by category, listing by listing. *)
Definition page_rows (rt : runtime) (p : page) : list Row.t :=
  rows_of rt (lit "commercial") (commercial p)
  ++ rows_of rt (lit "private") (private p)
  ++ rows_of rt (lit "solo") (solo p)
  ++ rows_of rt (lit "platinum") (platinum p).

(** What the summary file holds after the lists [batches] have been
    written in turn to a file that held [old]: an empty list is not
    written. *)
Fixpoint accumulate (old : option (list csv_line))
    (batches : list (bool * list Row.t)) : option (list csv_line) :=
  match batches with
  | [] => old
  | (written, rows) :: batches' =>
    accumulate
      (if written
       then Some (default [HeaderLine headers] old ++ (DataLine <$> rows))
       else old)
      batches'
  end.

(** The four batches of a page: whether each category list is written, and
    its rows. *)
Definition page_batches (rt : runtime) (p : page) : list (bool * list Row.t) :=
  [(negb (bool_decide (commercial p = [])),
    rows_of rt (lit "commercial") (commercial p));
   (negb (bool_decide (private p = [])),
    rows_of rt (lit "private") (private p));
   (negb (bool_decide (solo p = [])), rows_of rt (lit "solo") (solo p));
   (negb (bool_decide (platinum p = [])),
    rows_of rt (lit "platinum") (platinum p))].

(** The pages of a directory listing that are read. *)
Definition selected_pages (rt : runtime) (pages : list (pystr * page))
  : list page :=
  snd <$> List.filter (fun named => selected rt (fst named)) pages.

(** The second scenario of the specification: a listing without
    [vehicleDates]. *)
Definition dateless_listing : gmap pystr json :=
  delete (lit "vehicleDates") good_listing.

(** Three files: two of the day of [example_runtime], one of the day
    before. *)
Definition three_pages : list (pystr * page) :=
  [(lit "a_26_11_03.html",
    {| commercial := [good_listing]; private := []; solo := [];
       platinum := [] |});
   (lit "b_26_11_02.html",
    {| commercial := [good_listing]; private := []; solo := [];
       platinum := [] |});
   (lit "c_26_11_03.html",
    {| commercial := []; private := [handless_listing; good_listing];
       solo := []; platinum := [] |})].

(** A day as [datetime.now()] gives it: a year in 1..9999, a month in
    1..12 and a day in 1..31. *)
Definition valid_date (d : date) : Prop :=
  1 <= d_year d <= 9999 /\ 1 <= d_month d <= 12 /\ 1 <= d_day d <= 31.

(** The records among the items of a list: its [dict]s, in order. *)
Definition records_of (items : list json) : list (gmap pystr json) :=
  omap (fun item => match item with JObj m => Some m | _ => None end) items.

(** An action keeps a property of the state of the run (the world and the
    variable [debug]), whether it returns or raises. *)
Definition preserves (J : dir_state -> Prop) {A : Type} (m : action A) : Prop :=
  forall s, J s -> J (fst (m s)).

(** The messages of a run that does not debug: the count of a batch, the
    name of a file, the failure of a file and the last line. *)
Definition is_progress (m : message) : bool :=
  match m with
  | Processed _ | ProcessingFile _ | ErrorFile _ _ | OutputSaved _ => true
  | _ => false
  end.

(** Two worlds with the same files and the same record of [open]s: they
    differ by what was printed at most. *)
Definition same_files (w w' : world) : Prop :=
  files w = files w' /\ opens w = opens w'.

(** Two states of the loop that differ by what was printed at most. *)
Definition same_loop (st st' : loop_state) : Prop :=
  same_files (loop_world st) (loop_world st')
  /\ processed_count st = processed_count st'
  /\ ad_number st = ad_number st'.

(** Two states of a run that differ by what was printed at most. *)
Definition same_state (s s' : dir_state) : Prop :=
  same_files (fst s) (fst s') /\ snd s = snd s'.

(** An action that does not read what was printed. *)
Definition respects {A : Type} (m : action A) : Prop :=
  forall s s',
    same_state s s' ->
    same_state (fst (m s)) (fst (m s')) /\ snd (m s) = snd (m s').

(** The value of [commercial_list] at line 176 for a file, or the exception
    raised before: by [open], by reading and extracting, by the path of
    line 173, or by [get]. *)
Definition commercial_of (c : file_content) : result json :=
  match c with
  | Unreadable e => Raise e
  | Readable extracted =>
    let! data := extracted in
    let! listings_data := listings_of data in
    py_get listings_data (lit "commercial") (JList [])
  end.

(** The first line of the debugging block of lines 41-55. *)
Definition is_banner (m : message) : bool :=
  match m with
  | DebugBanner _ => true
  | _ => false
  end.

(** The failure of a file (line 201). *)
Definition is_file_error (m : message) : bool :=
  match m with
  | ErrorFile _ _ => true
  | _ => false
  end.

(** What a call of [process_vehicle_data] prints after the banner of the
    debugging block: the first item, the records it could not convert and
    the count. *)
Definition is_detail (m : message) : bool :=
  match m with
  | DebugItem _ | SkippingItem _ _ | ErrorItem _ _ | Processed _ => true
  | _ => false
  end.

(** How many of the messages are of a kind. *)
Definition count (kind : message -> bool) (msgs : list message) : nat :=
  length (List.filter kind msgs).

(** An action that leads from [J] to [J] when it returns and to [Jr] when
    it raises. *)
Definition ensures (J Jr : dir_state -> Prop) {A : Type} (m : action A)
  : Prop :=
  forall s, J s ->
    match m s with
    | (s', Ok _) => J s'
    | (s', Raise _) => Jr s'
    end.

(** A value that is a [dict]. *)
Definition is_dict (v : json) : Prop := exists m, v = JObj m.

(** A value that is a [str]. *)
Definition is_str (v : json) : Prop := exists s, v = JStr s.

(** A member that is not there, or is there and has the property. *)
Definition absent_or (P : json -> Prop) (o : option json) : Prop :=
  match o with
  | Some v => P v
  | None => True
  end.

(** Every member the body of the loop reads from a record can be read: no
    subscript and no [get] fails. *)
Definition members_readable (item : gmap pystr json) : Prop :=
  is_Some (lookup_path [lit "vehicleDates"; lit "yearOfProduction"] (JObj item))
  /\ absent_or is_dict
       (lookup_path [lit "vehicleDates"; lit "monthOfProduction"] (JObj item))
  /\ is_Some (lookup_path [lit "subModel"; lit "text"] (JObj item))
  /\ is_Some (lookup_path [lit "model"; lit "text"] (JObj item))
  /\ is_Some (lookup_path [lit "manufacturer"; lit "text"] (JObj item))
  /\ absent_or (fun hand => exists h, hand = JObj h /\ is_Some (h !! lit "id"))
       (item !! lit "hand")
  /\ absent_or
       (fun address =>
          exists a, address = JObj a
                    /\ absent_or is_dict (a !! lit "city")
                    /\ absent_or is_dict (a !! lit "area"))
       (item !! lit "address")
  /\ absent_or is_dict (item !! lit "metaData").

(** The values the columns are computed from can be used: today is a day
    of the calendar, the year an [int] that [datetime] accepts, the text of
    the month (if any) a [str], [km] (if any) an [int] that converts to a
    [float], the text of the sub-model a [str] short enough for [int()] to
    read any run of its digits, and the token (if any) a [str]. *)
Definition values_usable (rt : runtime) (item : gmap pystr json) : Prop :=
  valid_date (now rt)
  /\ (exists y,
        lookup_path [lit "vehicleDates"; lit "yearOfProduction"] (JObj item)
        = Some (JInt y) /\ 1 <= y <= 9999)
  /\ absent_or is_str
       (lookup_path [lit "vehicleDates"; lit "monthOfProduction"; lit "text"]
          (JObj item))
  /\ absent_or (fun km => exists z, km = JInt z /\ Z.abs z < 2 ^ 1023)
       (item !! lit "km")
  /\ (exists s,
        lookup_path [lit "subModel"; lit "text"] (JObj item) = Some (JStr s)
        /\ (length s <= int_max_str_digits)%nat)
  /\ absent_or is_str (item !! lit "token").

(** The listing of the first scenario with the year 0. *)
Definition year_zero_listing : gmap pystr json :=
  example_listing (JInt 0) (lit "1.8 132 כ״ס") [].

(** A listing of a vehicle made in March 2020. *)
Definition march_listing : gmap pystr json :=
  <[lit "vehicleDates" :=
      JObj (list_to_map
              [(lit "yearOfProduction", JInt 2020);
               (lit "monthOfProduction",
                JObj {[ lit "text" := JStr (lit "מרץ") ]})])]>
    (example_listing (JInt 2020) (lit "1.8") []).

(** The modes of the [open]s of batches written in turn: the first batch
    written creates the file when it is not there ([present] is false), and
    every later one finds it. *)
Fixpoint batch_modes (present : bool) (batches : list (bool * list Row.t))
  : list open_mode :=
  match batches with
  | [] => []
  | (written, _) :: batches' =>
    if written
    then (if present then ModeA else ModeW) :: batch_modes true batches'
    else batch_modes present batches'
  end.

(** Between the worlds [w] and [w'] the lists [batches] have been written
    in turn to the file at [path], and nothing else has been opened. *)
Definition written_in_turn (path : pystr) (w w' : world)
    (batches : list (bool * list Row.t)) : Prop :=
  files w' !! path = accumulate (files w !! path) batches
  /\ opens w'
     = opens w
       ++ ((fun mode => (path, mode))
             <$> batch_modes (path_exists path w) batches).

(** The number of category lists of a page that are written: those that
    are not empty. *)
Definition lists_written (p : page) : nat :=
  length (List.filter (fun items => negb (bool_decide (items = [])))
            [commercial p; private p; solo p; platinum p]).

(** The third scenario of the specification as pages: two files of the
    day, one with a commercial listing, one with a private listing. *)
Definition two_pages : list (pystr * page) :=
  [(lit "commercial_26_11_03.html",
    {| commercial := [good_listing]; private := []; solo := [];
       platinum := [] |});
   (lit "private_26_11_03.html",
    {| commercial := []; private := [good_listing]; solo := [];
       platinum := [] |})].

(** ** Proofs *)

(** *** The model of the runtime on values CPython 3.11 gives *)

Example literals_decode :
  lit "כ״ס" = [0x5DB; 0x5F4; 0x5E1]%N
  /\ lit "ינואר" = [0x5D9; 0x5E0; 0x5D5; 0x5D0; 0x5E8]%N
  /\ lit "price" = [0x70; 0x72; 0x69; 0x63; 0x65]%N.
Proof. repeat split. Qed.

Example round_examples :
  map py_round2
    [2.675; 0.125; 0.375; 0.0027378507871321013; 6.839151266255989;
     365250.0; 8773.019999; 1e22; 562949953421311.9]%float
  = [2.67; 0.12; 0.38; 0.0; 6.84; 365250.0; 8773.02; 1e22;
     562949953421311.9]%float.
Proof. vm_compute. reflexivity. Qed.

Example float_of_int_examples :
  map float_of_int
    [9007199254740993; 9007199254740995; 10 ^ 30; 2 ^ 1024 - 2 ^ 970 - 1;
     2 ^ 1024 - 2 ^ 970]
  = [Ok 9007199254740992.0%float; Ok 9007199254740996.0%float;
     Ok 1e30%float; Ok 1.7976931348623157e308%float; Raise OverflowError].
Proof. vm_compute. reflexivity. Qed.

Example ordinal_examples :
  map ordinal [Date 1 1 1; Date 1900 3 1; Date 2000 3 1; Date 2020 1 1;
               Date 2026 11 3; Date 9999 12 1]
  = [1; 693655; 730180; 737425; 739923; 3652029].
Proof. reflexivity. Qed.

Example text_examples :
  map str_of_int [0; 7; 2020; -15; 18446744073709551616]
  = [lit "0"; lit "7"; lit "2020"; lit "-15"; lit "18446744073709551616"]
  /\ map fmt_02d [1; 9; 10; 12] = [lit "01"; lit "09"; lit "10"; lit "12"]
  /\ strftime_y_m_d (Date 2026 3 5) = lit "26_03_05"
  /\ strftime_Y_m_d (Date 2026 3 5) = lit "2026-03-05".
Proof. repeat split. Qed.

Example search_examples :
  map (fun s => extract_hp (JStr (lit s)))
    ["1.8 132 כ״ס"; "12 34 כ״ס"; "١٣٢ כ״ס"; "a1٣2כ״ס"; "5 6כ״ס"; "132";
     "כ״ס"; "007כ״ס"]%string
  = [Ok 132; Ok 34; Ok 132; Ok 132; Ok 6; Ok 0; Ok 0; Ok 7].
Proof. vm_compute. reflexivity. Qed.

Example path_examples :
  map output_path_of [lit "scraped_vehicles"; lit "a/b/"; lit "a/b/."; lit "/"]
  = [lit "scraped_vehicles/scraped_vehicles_summary.csv";
     lit "a/b/b_summary.csv"; lit "a/b/./b_summary.csv"; lit "/_summary.csv"].
Proof. vm_compute. reflexivity. Qed.

(** *** The body of the loop *)

Lemma bind_Ok {A B : Type} (m : result A) (f : A -> result B) (b : B) :
  bind m f = Ok b <-> exists a, m = Ok a /\ f a = Ok b.
Proof.
  destruct m as [a|e]; simpl; split.
  - intros H. exists a. auto.
  - intros (a' & Ha & H). congruence.
  - discriminate.
  - intros (a' & Ha & _). discriminate.
Qed.

Lemma all_in_dict (fields : list pystr) (item : gmap pystr json) :
  all_in fields (JObj item)
  = Ok (forallb (fun f => bool_decide (is_Some (item !! f))) fields).
Proof.
  induction fields as [|f fields IH]; simpl; [reflexivity|].
  destruct (bool_decide (is_Some (item !! f))); simpl; [exact IH|reflexivity].
Qed.

Lemma all_in_dict_false (fields : list pystr) (item : gmap pystr json) :
  all_in fields (JObj item) = Ok false
  <-> exists f, In f fields /\ item !! f = None.
Proof.
  rewrite all_in_dict. split.
  - intros H. assert (Hf : forallb (fun f => bool_decide (is_Some (item !! f))) fields = false)
      by congruence.
    clear H. induction fields as [|f fields IH]; simpl in *; [discriminate|].
    apply andb_false_iff in Hf as [Hf|Hf].
    + exists f. split; [now left|].
      apply bool_decide_eq_false in Hf.
      destruct (item !! f) eqn:E; [|reflexivity].
      exfalso. apply Hf. eauto.
    + destruct (IH Hf) as (g & Hg & Hn). exists g. split; [now right|exact Hn].
  - intros (f & Hin & Hn). f_equal.
    induction fields as [|g fields IH]; simpl in *; [contradiction|].
    destruct Hin as [->|Hin].
    + rewrite Hn. rewrite bool_decide_eq_false_2; [reflexivity|].
      intros [x Hx]. discriminate.
    + rewrite (IH Hin). apply andb_false_r.
Qed.

(** Inversion of a sequence of [let!] that ended well. *)
Ltac bind_inv H :=
  repeat first
    [ apply bind_Ok in H as (? & ? & H)
    | match type of H with
      | (if ?c then _ else _) = _ => destruct c eqn:?; [try discriminate H|try discriminate H]
      end ].

Lemma py_in_dict (k : pystr) (m : gmap pystr json) :
  py_in k (JObj m) = Ok (bool_decide (is_Some (m !! k))).
Proof. reflexivity. Qed.

Lemma py_getitem_dict (m : gmap pystr json) (k : pystr) (v : json) :
  py_getitem (JObj m) k = Ok v <-> m !! k = Some v.
Proof.
  simpl. destruct (m !! k); split; intros H; congruence.
Qed.

Lemma not_is_Some_None {A : Type} (o : option A) : ~ is_Some o -> o = None.
Proof. destruct o; [intros H; exfalso; apply H; eauto|reflexivity]. Qed.

Lemma py_get_dict (m : gmap pystr json) (k : pystr) (d v : json) :
  py_get (JObj m) k d = Ok v <-> v = default d (m !! k).
Proof. simpl. split; intros H; congruence. Qed.


Lemma convert_built (rt : runtime) (listing_type : pystr)
    (item : gmap pystr json) (ad_number : json) (row : Row.t) :
  convert rt listing_type (JObj item) ad_number = Ok (Some row)
  <-> exists v, built rt listing_type item ad_number row v.
Proof.
  split.
  - intros H. unfold convert in H.
    apply bind_Ok in H as (has_price & H_has_price & H).
    destruct (negb has_price); [discriminate H|].
    apply bind_Ok in H as (price & H_price & H).
    destruct (py_eq_zero price) eqn:H_nonzero; [discriminate H|].
    apply bind_Ok in H as (complete & H_complete & H).
    destruct complete; [|discriminate H]. cbn [negb] in H.
    apply bind_Ok in H as (vehicle_dates & H_vehicle_dates & H).
    apply bind_Ok in H as (year & H_year & H).
    apply bind_Ok in H as (month_data & H_month_data & H).
    apply bind_Ok in H as (month_text & H_month_text & H).
    apply bind_Ok in H as (month & H_month & H).
    apply bind_Ok in H as (year_text & H_year_text & H).
    apply bind_Ok in H as (years & H_years & H).
    apply bind_Ok in H as (km & H_km & H).
    apply bind_Ok in H as (kpy & H_kpy & H).
    apply bind_Ok in H as (sub_model & H_sub_model & H).
    apply bind_Ok in H as (sub_model_text & H_sub_model_text & H).
    apply bind_Ok in H as (hp & H_hp & H).
    apply bind_Ok in H as (city & H_city & H).
    apply bind_Ok in H as (description & H_description & H).
    apply bind_Ok in H as (row_price & H_row_price & H).
    apply bind_Ok in H as (ad_type & H_ad_type & H).
    apply bind_Ok in H as (model & H_model & H).
    apply bind_Ok in H as (model_text & H_model_text & H).
    apply bind_Ok in H as (row_sub_model & H_row_sub_model & H).
    apply bind_Ok in H as (row_sub_model_text & H_row_sub_model_text & H).
    apply bind_Ok in H as (manufacturer & H_manufacturer & H).
    apply bind_Ok in H as (make & H_make & H).
    apply bind_Ok in H as (hand_data & H_hand_data & H).
    apply bind_Ok in H as (hand & H_hand & H).
    apply bind_Ok in H as (token & H_token & H).
    apply bind_Ok in H as (token_text & H_token_text & H).
    injection H as <-.
    repeat match goal with
    | H : py_getitem (JObj _) _ = Ok _ |- _ => apply py_getitem_dict in H
    | H : py_get (JObj _) _ _ = Ok _ |- _ => apply py_get_dict in H
    end.
    assert (row_price = price) as -> by congruence.
    assert (row_sub_model = sub_model) as -> by congruence.
    assert (row_sub_model_text = sub_model_text) as -> by congruence.
    exists (Locals vehicle_dates year month_data month_text month year_text
              years sub_model model manufacturer hand_data token token_text).
    constructor; cbn; assumption || reflexivity.
  - intros [v [Bprice Bnz Breq Bvd By Bmd Bmt Bm Byt Bpd Bys Bny Bkm Bkpy Bsm
                 Bsmt Bhp Bcity Bdesc Bat Bmodel Bmodelt Bman Bmake Bhd Bhand
                 Btok Btokt Blink Bad Bc Bu Br Blt]].
    destruct row.
    cbn [Row.adNumber Row.price Row.city Row.adType Row.model Row.subModel
         Row.hp Row.make Row.productionDate Row.km Row.hand Row.createdAt
         Row.updatedAt Row.rebouncedAt Row.listingType Row.number_of_years
         Row.km_per_year Row.description Row.link] in *.
    unfold convert. rewrite py_in_dict.
    rewrite bool_decide_eq_true_2 by eauto. cbn [negb bind].
    pose proof Bprice as Bprice'. apply py_getitem_dict in Bprice'.
    rewrite Bprice'. cbn [bind].
    rewrite Bnz, Breq. cbn [negb bind].
    apply py_getitem_dict in Bvd. rewrite Bvd. cbn [bind].
    rewrite By. cbn [bind]. rewrite Bmd. cbn [bind].
    rewrite Bmt. cbn [bind]. rewrite Bm. cbn [bind].
    rewrite Byt. cbn [bind]. rewrite Bys. cbn [bind].
    cbn [py_get]. cbn [bind]. rewrite <- Bkm. rewrite Bkpy. cbn [bind].
    apply py_getitem_dict in Bsm. rewrite Bsm. cbn [bind].
    rewrite Bsmt. cbn [bind]. rewrite Bhp. cbn [bind].
    rewrite Bcity. cbn [bind]. rewrite Bdesc. cbn [bind].
    apply py_getitem_dict in Bmodel. rewrite Bmodel. cbn [bind].
    rewrite Bmodelt. cbn [bind].
    apply py_getitem_dict in Bman. rewrite Bman. cbn [bind].
    rewrite Bmake. cbn [bind]. rewrite <- Bhd. rewrite Bhand. cbn [bind].
    apply py_getitem_dict in Btok. rewrite Btok. cbn [bind].
    rewrite Btokt. cbn [bind].
    subst. reflexivity.
Qed.

(** The body of the loop on a record ends in [continue] exactly under the
    skip policy. *)
Lemma convert_continue_iff (rt : runtime) (listing_type : pystr)
    (item : gmap pystr json) (ad_number : json) :
  convert rt listing_type (JObj item) ad_number = Ok None <-> skip_policy item.
Proof.
  split.
  - intros H. unfold convert in H.
    apply bind_Ok in H as (has_price & Hp & H).
    rewrite py_in_dict in Hp. injection Hp as <-.
    destruct (negb _) eqn:Ehas.
    { left. apply negb_true_iff, bool_decide_eq_false in Ehas.
      now apply not_is_Some_None. }
    apply bind_Ok in H as (price & Hprice & H).
    apply py_getitem_dict in Hprice.
    destruct (py_eq_zero price) eqn:Ezero.
    { right; left. eauto. }
    apply bind_Ok in H as (complete & Hall & H).
    destruct complete; simpl in H.
    { bind_inv H. discriminate H. }
    right; right. now apply all_in_dict_false.
  - intros Hskip. unfold convert. rewrite py_in_dict. cbn [bind].
    destruct (item !! lit "price") as [p|] eqn:Ep.
    2:{ rewrite bool_decide_eq_false_2; [reflexivity|].
        intros [x Hx]; discriminate. }
    rewrite bool_decide_eq_true_2 by eauto.
    cbn [negb bind py_getitem]. rewrite Ep. cbn [bind].
    destruct Hskip as [Hnone | [(p' & Hp & Hz) | Hmiss]].
    + congruence.
    + replace p with p' by congruence. rewrite Hz. reflexivity.
    + destruct (py_eq_zero p); [reflexivity|].
      apply all_in_dict_false in Hmiss. rewrite Hmiss. reflexivity.
Qed.

Lemma month_mapping_range (name : pystr) (month : Z) :
  month_mapping !! name = Some month -> 1 <= month <= 12.
Proof.
  assert (H : map_Forall (fun _ z => 1 <= z <= 12) month_mapping).
  { apply (bool_decide_unpack _). vm_compute. exact I. }
  intros Hm. exact (H name month Hm).
Qed.

Lemma get_month_number_range (month_text : json) (month : Z) :
  get_month_number month_text = Ok month -> 1 <= month <= 12.
Proof.
  destruct month_text; unfold get_month_number; intros H;
    try discriminate H; injection H as <-; try lia.
  destruct (month_mapping !! s) as [z|] eqn:E; cbn [default]; [|lia].
  exact (month_mapping_range _ _ E).
Qed.

Lemma py_str_small_int (rt : runtime) (y : Z) :
  1 <= y <= 9999 -> py_str rt (JInt y) = Ok (str_of_int y).
Proof.
  intros Hy. cbn.
  assert (H : forallb (fun y => bool_decide (length (str_of_int (Z.abs y)) <= 4)%nat)
                (seqZ 1 9999) = true) by (vm_compute; reflexivity).
  rewrite forallb_forall in H. specialize (H y).
  rewrite <- list_elem_of_In, elem_of_seqZ in H. specialize (H ltac:(lia)).
  apply bool_decide_eq_true in H.
  rewrite bool_decide_eq_false_2; [reflexivity|].
  unfold int_max_str_digits. lia.
Qed.

Lemma default_month : get_month_number (JStr (lit "ינואר")) = Ok 1.
Proof. vm_compute. reflexivity. Qed.

Lemma days_before_month_bounds (y m : Z) :
  1 <= m <= 12 -> 0 <= days_before_month y m <= 335.
Proof.
  intros Hm. unfold days_before_month.
  assert (Hc : m = 1 \/ m = 2 \/ m = 3 \/ m = 4 \/ m = 5 \/ m = 6 \/ m = 7
               \/ m = 8 \/ m = 9 \/ m = 10 \/ m = 11 \/ m = 12) by lia.
  destruct (is_leap y);
    repeat (destruct Hc as [->|Hc]; [vm_compute; split; discriminate|]);
    subst; vm_compute; split; discriminate.
Qed.

Lemma ymd2ord_bounds (y m d : Z) :
  1 <= y <= 9999 -> 1 <= m <= 12 -> 1 <= d <= 31 ->
  1 <= ymd2ord y m d <= 3652425.
Proof.
  intros Hy Hm Hd. unfold ymd2ord, days_before_year.
  pose proof (days_before_month_bounds y m Hm).
  cbv zeta. Z.to_euclidean_division_equations. lia.
Qed.

Lemma log2_ratio_one (p : Z) : 0 < p -> log2_ratio p 1 = Z.log2 p.
Proof.
  intros Hp. unfold log2_ratio. change (Z.log2 1) with 0. rewrite Z.sub_0_r.
  pose proof (Z.log2_nonneg p) as Hn.
  destruct (Z.log2_spec p Hp) as [Hlo _].
  rewrite (proj2 (Z.leb_le _ _) Hn). rewrite Z.mul_1_l.
  rewrite (proj2 (Z.ltb_ge _ _) Hlo). reflexivity.
Qed.

(** An [int] below [2 ^ 1023] in size converts to a [float]. *)
Lemma float_of_int_defined (z : Z) :
  Z.abs z < 2 ^ 1023 -> exists f, float_of_int z = Ok f.
Proof.
  intros Hz. unfold float_of_int.
  destruct (z =? 0) eqn:E0; [eauto|].
  apply Z.eqb_neq in E0.
  assert (Hp : 0 < Z.abs z) by lia.
  unfold nearest_float. rewrite (log2_ratio_one _ Hp).
  assert (Hl : Z.log2 (Z.abs z) < 1023) by (apply Z.log2_lt_pow2; lia).
  pose proof (Z.log2_nonneg (Z.abs z)) as Hn.
  rewrite Z.max_l by lia. cbv zeta.
  rewrite (proj2 (Z.ltb_ge 1023 _)) by lia.
  rewrite (proj2 (Z.eqb_neq _ 1023)) by lia.
  cbn [orb andb]. eauto.
Qed.

Lemma years_divisor_not_zero :
  PrimFloat.eqb 365.25%float PrimFloat.zero = false.
Proof. reflexivity. Qed.

Lemma lookup_path_member (item : gmap pystr json) (k1 k2 : pystr) (v : json) :
  lookup_path [k1; k2] (JObj item) = Some v
  <-> exists m, item !! k1 = Some (JObj m) /\ m !! k2 = Some v.
Proof.
  cbn [lookup_path]. split.
  - destruct (item !! k1) as [[ | | | | | |m]|]; try discriminate.
    destruct (m !! k2) eqn:E; [|discriminate]. intros H; injection H as <-. eauto.
  - intros (m & -> & ->). reflexivity.
Qed.

(** A positive [float] is not zero. *)
Lemma float_positive_not_zero (y : PrimFloat.float) :
  PrimFloat.ltb 0%float y = true -> PrimFloat.eqb y PrimFloat.zero = false.
Proof.
  rewrite FloatAxioms.ltb_spec, FloatAxioms.eqb_spec.
  change (FloatOps.Prim2SF 0%float) with (SpecFloat.S754_zero false).
  change (FloatOps.Prim2SF PrimFloat.zero) with (SpecFloat.S754_zero false).
  destruct (FloatOps.Prim2SF y) as [[|]|[|]| |[|] m e]; cbn; congruence.
Qed.

Lemma km_per_year_of_defined (years : PrimFloat.float) (z : Z) :
  Z.abs z < 2 ^ 1023 -> exists r, km_per_year_of years (JInt z) = Ok r.
Proof.
  intros Hz. unfold km_per_year_of.
  destruct (PrimFloat.ltb 0%float years) eqn:E; [|eauto].
  cbn [py_gt_zero bind]. destruct (0 <? z); [|eauto].
  cbn [py_truediv]. destruct (float_of_int_defined z Hz) as [f ->].
  cbn [bind]. unfold float_truediv.
  rewrite (float_positive_not_zero _ E). cbn [bind]. eauto.
Qed.

Lemma match_hp_here_length (s ds : pystr) :
  match_hp_here s = Some ds -> (length ds <= length s)%nat.
Proof.
  revert ds. induction s as [|c s IH]; intros ds; cbn [match_hp_here];
    [discriminate|].
  destruct (is_digit c); [|discriminate].
  destruct (match_hp_here s) as [ds'|].
  - intros H; injection H as <-. specialize (IH ds' eq_refl). cbn [length]. lia.
  - destruct (match_spaces_marker s); [|discriminate].
    intros H; injection H as <-. cbn [length]. lia.
Qed.

Lemma re_search_hp_length (s ds : pystr) :
  re_search_hp s = Some ds -> (length ds <= length s)%nat.
Proof.
  induction s as [|c s IH].
  - cbn. discriminate.
  - cbn [re_search_hp].
    destruct (match_hp_here (c :: s)) as [ds'|] eqn:E.
    + intros H; injection H as <-. exact (match_hp_here_length _ _ E).
    + intros H. specialize (IH H). cbn [length]. lia.
Qed.

Lemma extract_hp_defined (s : pystr) :
  (length s <= int_max_str_digits)%nat -> exists hp, extract_hp (JStr s) = Ok hp.
Proof.
  intros Hs. cbn [extract_hp].
  destruct (re_search_hp s) as [ds|] eqn:E; [|eauto].
  apply re_search_hp_length in E. unfold int_of_digits.
  rewrite bool_decide_eq_false_2 by lia. eauto.
Qed.

(** The years and months [datetime] accepts, on a valid day. *)
Lemma calculate_years_in_range (rt : runtime) (y month : Z) :
  valid_date (now rt) -> 1 <= month <= 12 -> 1 <= y <= 9999 ->
  exists years, calculate_years_since_production rt (JInt y) month = Ok years.
Proof.
  intros (Hy & Hm & Hd) Hmonth Hyear.
  pose proof (ymd2ord_bounds _ _ _ Hy Hm Hd) as Hnow.
  pose proof (ymd2ord_bounds y month 1 Hyear Hmonth ltac:(lia)) as Hprod.
  destruct (float_of_int_defined (ordinal (now rt) - ymd2ord y month 1))
    as [days Hdays].
  { unfold ordinal.
    assert (2 ^ 23 <= 2 ^ 1023) by (apply Z.pow_le_mono_r; lia).
    change (2 ^ 23) with 8388608 in *. lia. }
  unfold calculate_years_since_production, datetime_first.
  rewrite (proj2 (orb_false_iff _ _)) by (split; lia).
  rewrite (proj2 (andb_true_iff _ _)) by (repeat (rewrite andb_true_iff); lia).
  cbn [bind]. rewrite Hdays. cbn [bind]. unfold float_truediv.
  rewrite years_divisor_not_zero. eauto.
Qed.

Lemma city_of_defined (item : gmap pystr json) :
  absent_or
    (fun address =>
       exists a, address = JObj a
                 /\ absent_or is_dict (a !! lit "city")
                 /\ absent_or is_dict (a !! lit "area"))
    (item !! lit "address") ->
  exists city, city_of (JObj item) = Ok city.
Proof.
  unfold city_of. rewrite py_in_dict. cbn [bind py_getitem].
  destruct (item !! lit "address") as [address|]; cbn [absent_or].
  2:{ rewrite bool_decide_eq_false_2 by (intros [x Hx]; discriminate). eauto. }
  intros (a & -> & Hc & Ha).
  rewrite bool_decide_eq_true_2 by eauto. cbn [bind py_in py_getitem].
  destruct (a !! lit "city") as [c|]; cbn [absent_or] in Hc.
  - destruct Hc as [cm ->]. rewrite bool_decide_eq_true_2 by eauto.
    cbn [bind py_get]. eauto.
  - rewrite bool_decide_eq_false_2 by (intros [x Hx]; discriminate).
    cbn [bind].
    destruct (a !! lit "area") as [ar|]; cbn [absent_or] in Ha.
    + destruct Ha as [am ->]. rewrite bool_decide_eq_true_2 by eauto.
      cbn [bind py_get]. eauto.
    + rewrite bool_decide_eq_false_2 by (intros [x Hx]; discriminate). eauto.
Qed.

Lemma description_of_defined (item : gmap pystr json) :
  absent_or is_dict (item !! lit "metaData") ->
  exists description, description_of (JObj item) = Ok description.
Proof.
  unfold description_of. rewrite py_in_dict. cbn [bind py_getitem].
  destruct (item !! lit "metaData") as [meta|]; cbn [absent_or].
  2:{ rewrite bool_decide_eq_false_2 by (intros [x Hx]; discriminate). eauto. }
  intros [m ->]. rewrite bool_decide_eq_true_2 by eauto.
  cbn [bind py_in py_getitem].
  destruct (m !! lit "description") as [d|].
  - rewrite bool_decide_eq_true_2 by eauto. cbn [bind]. eauto.
  - rewrite bool_decide_eq_false_2 by (intros [x Hx]; discriminate). eauto.
Qed.

Lemma month_defined (vehicle_dates : gmap pystr json) :
  absent_or is_dict (vehicle_dates !! lit "monthOfProduction") ->
  absent_or is_str
    (lookup_path [lit "monthOfProduction"; lit "text"] (JObj vehicle_dates)) ->
  exists month_data month_text month,
    py_get (JObj vehicle_dates) (lit "monthOfProduction")
      (JObj {[ lit "text" := JStr (lit "ינואר") ]}) = Ok month_data
    /\ py_get month_data (lit "text") (JStr (lit "ינואר")) = Ok month_text
    /\ get_month_number month_text = Ok month
    /\ 1 <= month <= 12.
Proof.
  cbn [lookup_path py_get].
  destruct (vehicle_dates !! lit "monthOfProduction") as [md|];
    cbn [absent_or default from_option id].
  - intros [m ->] Ht.
    assert (Hs : exists s, default (JStr (lit "ינואר")) (m !! lit "text") = JStr s).
    { destruct (m !! lit "text") as [t|]; cbn [absent_or default from_option id] in *;
        [exact Ht|eauto]. }
    destruct Hs as [s Hs].
    exists (JObj m), (JStr s), (default 1 (month_mapping !! s)).
    repeat split; try (cbn [py_get]; congruence);
      apply (get_month_number_range (JStr s)); reflexivity.
  - intros _ _.
    exists (JObj {[ lit "text" := JStr (lit "ינואר") ]}), (JStr (lit "ינואר")), 1.
    repeat split; try lia; try exact default_month.
Qed.

(** C1 (amended): the body of the loop ends in [continue] exactly when the
    skip policy asks for it: the record has no price, a price equal to 0, or
    lacks one of [manufacturer], [model], [subModel], [vehicleDates],
    [token].  A record the policy does not skip is converted to a row when
    every member the body reads can be read and the values can be used: the
    year is an [int] in 1..9999, the month text a [str], [km] an [int] that
    fits a [float], the sub-model text a [str] of at most 4300 characters and
    the token a [str]. *)
Theorem skip_iff_policy (rt : runtime) (listing_type : pystr)
    (item : gmap pystr json) (ad_number : json) :
  (convert rt listing_type (JObj item) ad_number = Ok None <-> skip_policy item)
  /\ (~ skip_policy item -> members_readable item -> values_usable rt item ->
      exists row, convert rt listing_type (JObj item) ad_number = Ok (Some row)).
Proof.
  split; [apply convert_continue_iff|].
  intros Hno (Hyear & Hmonth & Hsub & Hmodel & Hman & Hhand & Haddr & Hmeta)
    (Hnow & (y & Hy & Hrange) & Hmtext & Hkm & (s & Hs & Hlen) & Htoken).
  clear Hyear Hsub.
  apply lookup_path_member in Hy as (vd & Evd & Ey).
  apply lookup_path_member in Hs as (sm & Esm & Es).
  destruct Hmodel as [mt Hmodel].
  apply lookup_path_member in Hmodel as (mdl & Emdl & Emt).
  destruct Hman as [mk Hman].
  apply lookup_path_member in Hman as (man & Eman & Emk).
  unfold convert.
  destruct (item !! lit "price") as [p|] eqn:Ep;
    [|exfalso; apply Hno; left; exact Ep].
  rewrite py_in_dict, Ep, bool_decide_eq_true_2 by eauto.
  cbn [negb bind py_getitem]. rewrite Ep. cbn [bind].
  destruct (py_eq_zero p) eqn:Ez; [exfalso; apply Hno; right; left; eauto|].
  destruct (all_in required_fields (JObj item)) as [[|]|e] eqn:Eall.
  2:{ exfalso. apply Hno. right; right. apply all_in_dict_false. exact Eall. }
  2:{ rewrite all_in_dict in Eall. discriminate Eall. }
  cbn [negb bind]. rewrite Evd. cbn [bind py_getitem]. rewrite Ey. cbn [bind].
  assert (Hmd : absent_or is_dict (vd !! lit "monthOfProduction")).
  { cbn [lookup_path] in Hmonth. rewrite Evd in Hmonth.
    destruct (vd !! lit "monthOfProduction"); exact Hmonth. }
  assert (Hmt : absent_or is_str
                  (lookup_path [lit "monthOfProduction"; lit "text"] (JObj vd))).
  { cbn [lookup_path] in Hmtext |- *. rewrite Evd in Hmtext. exact Hmtext. }
  destruct (month_defined vd Hmd Hmt)
    as (month_data & month_text & month & -> & Hmt' & Hm & Hmrange).
  cbn [bind]. rewrite Hmt'. cbn [bind]. rewrite Hm. cbn [bind].
  rewrite py_str_small_int by exact Hrange. cbn [bind].
  destruct (calculate_years_in_range rt y month Hnow Hmrange Hrange)
    as [years ->].
  cbn [bind py_get].
  assert (Hkpy : exists r,
             km_per_year_of years (default (JInt 0) (item !! lit "km")) = Ok r).
  { destruct (item !! lit "km") as [km|]; cbn [absent_or default from_option id] in *.
    - destruct Hkm as (z & -> & Hz). exact (km_per_year_of_defined years z Hz).
    - apply km_per_year_of_defined. cbn. lia. }
  destruct Hkpy as [kpy ->]. cbn [bind].
  rewrite Esm. cbn [bind py_getitem]. rewrite Es. cbn [bind].
  destruct (extract_hp_defined s Hlen) as [hp ->]. cbn [bind].
  destruct (city_of_defined item Haddr) as [city ->]. cbn [bind].
  destruct (description_of_defined item Hmeta) as [description ->]. cbn [bind].
  rewrite Emdl. cbn [bind py_getitem]. rewrite Emt. cbn [bind].
  rewrite Eman. cbn [bind py_getitem]. rewrite Emk. cbn [bind].
  assert (Hh : exists hand,
             py_getitem (default (JObj {[ lit "id" := JInt 0 ]})
                           (item !! lit "hand")) (lit "id") = Ok hand).
  { destruct (item !! lit "hand") as [hand|]; cbn [absent_or default from_option id] in *.
    - destruct Hhand as (h & -> & [i Hi]). cbn [py_getitem]. rewrite Hi. eauto.
    - cbn [py_getitem]. rewrite lookup_singleton_eq. eauto. }
  destruct Hh as [hand ->]. cbn [bind].
  destruct (item !! lit "token") as [tok|] eqn:Etok.
  2:{ exfalso. apply Hno. right; right. exists (lit "token").
      split; [|exact Etok]. unfold required_fields. cbn. auto 10. }
  cbn [absent_or] in Htoken. destruct Htoken as [t ->].
  cbn [bind py_str]. eauto.
Qed.

(** The theorem at the listing of the first scenario: the policy does not
    skip it, and it is converted. *)
Lemma skip_iff_policy_witness :
  ~ skip_policy good_listing
  /\ exists row,
      convert example_runtime (lit "commercial") (JObj good_listing)
        (JStr (lit "abc123")) = Ok (Some row).
Proof.
  assert (Hno : ~ skip_policy good_listing).
  { vm_compute.
    intros [H | [(p & Hp & Hz) | (f & Hf & Hn)]].
    - discriminate H.
    - injection Hp as <-. discriminate Hz.
    - repeat (destruct Hf as [<-|Hf]; [discriminate Hn|]). exact Hf. }
  split; [exact Hno|].
  apply (proj2 (skip_iff_policy example_runtime (lit "commercial") good_listing
                  (JStr (lit "abc123"))) Hno).
  - unfold members_readable. vm_compute. repeat split; eauto.
  - unfold values_usable.
    split; [unfold valid_date; cbn; lia|].
    split; [exists 2020; split; [vm_compute; reflexivity|lia]|].
    split; [vm_compute; eauto|].
    split.
    { assert (Hkm : good_listing !! lit "km" = Some (JInt 60000))
        by (vm_compute; reflexivity).
      rewrite Hkm. exists 60000. split; [reflexivity|].
      assert (2 ^ 16 <= 2 ^ 1023) by (apply Z.pow_le_mono_r; lia).
      change (2 ^ 16) with 65536 in *. lia. }
    split; [|vm_compute; eauto].
    eexists. split; [vm_compute; reflexivity|].
    unfold int_max_str_digits. cbn [length]. lia.
Defined.

(** C1 as stated fails: a record with a price, the five fields and every
    member readable is not converted when its year is 0: [datetime] raises
    [ValueError], which is no failure of a field access. *)
Lemma skip_counterexample :
  ~ skip_policy year_zero_listing
  /\ members_readable year_zero_listing
  /\ convert example_runtime (lit "commercial") (JObj year_zero_listing)
       (JStr (lit "abc123")) = Raise ValueError.
Proof.
  split; [|split].
  - vm_compute.
    intros [H | [(p & Hp & Hz) | (f & Hf & Hn)]].
    + discriminate H.
    + injection Hp as <-. discriminate Hz.
    + repeat (destruct Hf as [<-|Hf]; [discriminate Hn|]). exact Hf.
  - unfold members_readable. vm_compute. repeat split; eauto.
  - vm_compute. reflexivity.
Qed.

Lemma city_of_dict (item : gmap pystr json) (city : json) :
  city_of (JObj item) = Ok city ->
  match item !! lit "address" with
  | Some (JObj address) =>
    match address !! lit "city" with
    | Some c =>
      exists cm, c = JObj cm /\ city = default (JStr []) (cm !! lit "text")
    | None =>
      match address !! lit "area" with
      | Some a =>
        exists am, a = JObj am /\ city = default (JStr []) (am !! lit "text")
      | None => city = JStr []
      end
    end
  | _ => city = JStr []
  end.
Proof.
  unfold city_of. rewrite py_in_dict. cbn [bind py_getitem].
  destruct (item !! lit "address") as [address|] eqn:Ea.
  2:{ rewrite bool_decide_eq_false_2 by (intros [x Hx]; discriminate).
      intros H; injection H as <-. reflexivity. }
  rewrite bool_decide_eq_true_2 by eauto. cbn [bind].
  destruct address as [ | b | z | f | s | l | address]; cbn [py_in bind];
    try discriminate.
  - (* a str *)
    destruct (str_contains (lit "city") s); cbn [py_getitem bind]; [discriminate|].
    destruct (str_contains (lit "area") s); cbn [py_getitem bind]; [discriminate|].
    intros H; injection H as <-. reflexivity.
  - (* a list *)
    do 2 (match goal with
          | |- context [existsb ?f l] =>
            destruct (existsb f l); cbn [py_getitem bind]; [discriminate|]
          end).
    intros H; injection H as <-. reflexivity.
  - (* a dict *)
    cbn [py_getitem].
    destruct (address !! lit "city") as [c|] eqn:Ec.
    + rewrite bool_decide_eq_true_2 by eauto. cbn [bind].
      destruct c; cbn [py_get]; try discriminate.
      intros H; injection H as <-. eauto.
    + rewrite bool_decide_eq_false_2 by (intros [x Hx]; discriminate).
      cbn [bind].
      destruct (address !! lit "area") as [a|] eqn:Ear.
      * rewrite bool_decide_eq_true_2 by eauto. cbn [bind].
        destruct a; cbn [py_get]; try discriminate.
        intros H; injection H as <-. eauto.
      * rewrite bool_decide_eq_false_2 by (intros [x Hx]; discriminate).
        intros H; injection H as <-. reflexivity.
Qed.

(** C6 (amended): the city of a row follows the members of [address]: when
    [address] has a [city], the row has the text of that city, or the empty
    string if the city has no text; only when [address] has no [city] and
    has an [area], the text of the area, or the empty string; in every other
    case the empty string. *)
Theorem city_by_member (rt : runtime) (listing_type : pystr)
    (item : gmap pystr json) (ad_number : json) (row : Row.t) :
  convert rt listing_type (JObj item) ad_number = Ok (Some row) ->
  match item !! lit "address" with
  | Some (JObj address) =>
    match address !! lit "city" with
    | Some c =>
      exists cm, c = JObj cm
                 /\ Row.city row = default (JStr []) (cm !! lit "text")
    | None =>
      match address !! lit "area" with
      | Some a =>
        exists am, a = JObj am
                   /\ Row.city row = default (JStr []) (am !! lit "text")
      | None => Row.city row = JStr []
      end
    end
  | _ => Row.city row = JStr []
  end.
Proof.
  intros H. apply convert_built in H as [v B].
  apply city_of_dict. exact (b_city _ _ _ _ _ _ B).
Qed.

(** The theorem at a record whose address has a city without a text. *)
Lemma city_by_member_witness :
  exists row,
    convert example_runtime (lit "commercial")
      (JObj nameless_city_listing)
      (JStr (lit "abc123")) = Ok (Some row)
    /\ match nameless_city_listing !! lit "address" with
       | Some (JObj address) =>
         match address !! lit "city" with
         | Some c =>
           exists cm, c = JObj cm
                      /\ Row.city row = default (JStr []) (cm !! lit "text")
         | None =>
           match address !! lit "area" with
           | Some a =>
             exists am, a = JObj am
                        /\ Row.city row = default (JStr []) (am !! lit "text")
           | None => Row.city row = JStr []
           end
         end
       | _ => Row.city row = JStr []
       end.
Proof.
  eexists. split; [vm_compute; reflexivity|].
  apply (city_by_member example_runtime (lit "commercial") _ (JStr (lit "abc123"))).
  vm_compute. reflexivity.
Defined.

(** C6 as stated fails: a city without a text hides the text of the area. *)
Lemma city_counterexample :
  exists row,
    convert example_runtime (lit "commercial")
      (JObj nameless_city_listing)
      (JStr (lit "abc123")) = Ok (Some row)
    /\ Row.city row = JStr []
    /\ spec_city (JObj nameless_city_listing) = JStr (lit "North").
Proof.
  eexists. split; [vm_compute; reflexivity|]. split; vm_compute; reflexivity.
Qed.

Lemma get_ad_number_dict (item : gmap pystr json) :
  get_ad_number (JObj item)
  = Ok (default (default (JStr (lit "unknown")) (item !! lit "token"))
          (item !! lit "orderId")).
Proof. reflexivity. Qed.

(** A handler that finds [ad_number] bound prints at most. *)
Lemma handle_bound (debug : bool) (e : exn) (st : loop_state) (a : json) :
  ad_number st = Some a ->
  exists st',
    handle debug e st = (st', Ok tt)
    /\ files (loop_world st') = files (loop_world st)
    /\ opens (loop_world st') = opens (loop_world st)
    /\ processed_count st' = processed_count st
    /\ ad_number st' = Some a.
Proof.
  intros Ha. unfold handle. destruct debug.
  - rewrite Ha. eexists. split; [reflexivity|]. cbn. auto.
  - exists st. auto.
Qed.

(** C9: a record whose [hand] is a mapping without an [id] gives no row:
    if it passes the price and required-field checks, building its row
    raises; the loop writes nothing for it, counts nothing and goes on.  In a
    row that is built, [hand] is the default 0 only when the record has no
    [hand] at all, and otherwise the [id] its [hand] mapping holds. *)
Theorem hand_without_id_skips (rt : runtime) (listing_type output_file : pystr)
    (debug : bool) (item : gmap pystr json) (st : loop_state) :
  (forall hand_data : gmap pystr json,
     item !! lit "hand" = Some (JObj hand_data) ->
     hand_data !! lit "id" = None ->
     (forall ad_number,
        ~ skip_policy item ->
        exists e, convert rt listing_type (JObj item) ad_number = Raise e)
     /\ exists st',
         loop_body rt listing_type output_file debug (JObj item) st = (st', Ok tt)
         /\ files (loop_world st') = files (loop_world st)
         /\ processed_count st' = processed_count st)
  /\ (forall ad_number row,
        convert rt listing_type (JObj item) ad_number = Ok (Some row) ->
        match item !! lit "hand" with
        | None => Row.hand row = JInt 0
        | Some hand_data =>
          exists m, hand_data = JObj m /\ m !! lit "id" = Some (Row.hand row)
        end).
Proof.
  assert (Hrow : forall ad_number row,
             convert rt listing_type (JObj item) ad_number = Ok (Some row) ->
             match item !! lit "hand" with
             | None => Row.hand row = JInt 0
             | Some hand_data =>
               exists m, hand_data = JObj m /\ m !! lit "id" = Some (Row.hand row)
             end).
  { intros a row H. apply convert_built in H as [v B].
    pose proof (b_hand _ _ _ _ _ _ B) as Hh.
    rewrite (b_hand_data _ _ _ _ _ _ B) in Hh.
    destruct (item !! lit "hand") as [h|]; cbn [default] in Hh.
    - destruct h; try discriminate Hh.
      apply py_getitem_dict in Hh. eauto.
    - apply py_getitem_dict in Hh. rewrite lookup_singleton_eq in Hh. congruence. }
  split; [|exact Hrow].
  intros hand_data Hhand Hid.
  assert (Hno : forall a row,
             convert rt listing_type (JObj item) a <> Ok (Some row)).
  { intros a row H. specialize (Hrow a row H). rewrite Hhand in Hrow.
    destruct Hrow as (m & Hm & Hsome). injection Hm as <-. congruence. }
  split.
  - intros a Hpolicy.
    destruct (convert rt listing_type (JObj item) a) as [[row|]|e] eqn:E.
    + exfalso. exact (Hno a row E).
    + exfalso. apply Hpolicy.
      apply (convert_continue_iff rt listing_type item a). exact E.
    + eauto.
  - unfold loop_body. rewrite get_ad_number_dict.
    set (a := default _ (item !! lit "orderId")).
    destruct (convert rt listing_type (JObj item) a) as [[row|]|e] eqn:E.
    + exfalso. exact (Hno a row E).
    + eexists. split; [reflexivity|]. cbn. auto.
    + edestruct (handle_bound debug e
                   {| loop_world := loop_world st;
                      processed_count := processed_count st;
                      ad_number := Some a |} a) as (st' & H1 & H2 & _ & H3 & _);
        [reflexivity|].
      exists st'. auto.
Qed.

(** The theorem at a record whose [hand] is an empty mapping. *)
Lemma hand_without_id_witness :
  (exists e,
     convert example_runtime (lit "private") (JObj handless_listing)
       (JStr (lit "abc123")) = Raise e)
  /\ exists st',
      loop_body example_runtime (lit "private") (lit "out.csv") true
        (JObj handless_listing)
        {| loop_world := empty_world; processed_count := 0; ad_number := None |}
      = (st', Ok tt)
      /\ files (loop_world st') = files empty_world
      /\ processed_count st' = 0.
Proof.
  destruct (proj1 (hand_without_id_skips example_runtime (lit "private")
                     (lit "out.csv") true handless_listing
                     {| loop_world := empty_world; processed_count := 0;
                        ad_number := None |})
              ∅ eq_refl eq_refl) as [Hraise Hloop].
  split; [|exact Hloop].
  apply Hraise. vm_compute.
  intros [H | [(p & Hp & Hz) | (f & Hf & Hn)]].
  - discriminate H.
  - injection Hp as <-. discriminate Hz.
  - repeat (destruct Hf as [<-|Hf]; [discriminate Hn|]). exact Hf.
Defined.

(** The years [datetime] accepts. *)
Lemma datetime_first_year (year : json) (month ord : Z) :
  datetime_first year month = Ok ord ->
  (year = JBool true \/ exists y, year = JInt y /\ 1 <= y <= 9999)
  /\ ord = ymd2ord (match year with JInt y => y | _ => 1 end) month 1.
Proof.
  unfold datetime_first.
  destruct year as [ | [|] | y | | | | ]; try discriminate.
  - cbn. destruct ((1 <=? month) && (month <=? 12)); [|discriminate].
    intros H; injection H as <-. auto.
  - destruct ((y <? - 2 ^ 31) || (2 ^ 31 <=? y)); [discriminate|].
    destruct ((1 <=? y) && (y <=? 9999) && (1 <=? month) && (month <=? 12)) eqn:E;
      [|discriminate].
    intros H; injection H as <-. split; [|reflexivity].
    right. exists y. split; [reflexivity|].
    apply andb_prop in E as [E _]. apply andb_prop in E as [E _].
    apply andb_prop in E as [E1 E2]. lia.
Qed.

Lemma four_digit_years :
  forallb (fun y => bool_decide (length (str_of_int y) = 4%nat)
                    && forallb is_digit (str_of_int y))
    (seqZ 1000 9000) = true.
Proof. vm_compute. reflexivity. Qed.

Lemma two_digit_months :
  forallb (fun m => bool_decide (length (fmt_02d m) = 2%nat)
                    && forallb is_digit (fmt_02d m))
    (seqZ 1 12) = true.
Proof. vm_compute. reflexivity. Qed.

Lemma production_date_shape (y month : Z) :
  1000 <= y <= 9999 -> 1 <= month <= 12 ->
  matches_production_date
    (str_of_int y ++ lit "-" ++ fmt_02d month ++ lit "-01") = true.
Proof.
  intros Hy Hm.
  pose proof four_digit_years as Hys. rewrite forallb_forall in Hys.
  specialize (Hys y).
  pose proof two_digit_months as Hms. rewrite forallb_forall in Hms.
  specialize (Hms month).
  rewrite <- list_elem_of_In in Hys, Hms. rewrite elem_of_seqZ in Hys, Hms.
  specialize (Hys ltac:(lia)). specialize (Hms ltac:(lia)).
  apply andb_prop in Hys as [Hyl Hyd]. apply andb_prop in Hms as [Hml Hmd].
  apply bool_decide_eq_true in Hyl, Hml.
  destruct (str_of_int y) as [|a [|b [|c [|d [|? ?]]]]]; try discriminate Hyl.
  destruct (fmt_02d month) as [|e [|f [|? ?]]]; try discriminate Hml.
  cbn in Hyd, Hmd.
  unfold matches_production_date.
  change ([a; b; c; d] ++ lit "-" ++ [e; f] ++ lit "-01")
    with [a; b; c; d; 0x2D%N; e; f; 0x2D%N; 0x30%N; 0x31%N].
  cbn. rewrite Hyd, Hmd. reflexivity.
Qed.

Lemma py_getitem_Ok (v : json) (k : pystr) (x : json) :
  py_getitem v k = Ok x <-> exists m, v = JObj m /\ m !! k = Some x.
Proof.
  split.
  - destruct v; try discriminate. intros H. apply py_getitem_dict in H. eauto.
  - intros (m & -> & H). now apply py_getitem_dict.
Qed.

Lemma calculate_years_Ok (rt : runtime) (year : json) (month : Z)
    (years : PrimFloat.float) :
  calculate_years_since_production rt year month = Ok years ->
  exists production_date days,
    datetime_first year month = Ok production_date
    /\ float_of_int (ordinal (now rt) - production_date) = Ok days
    /\ years = PrimFloat.div days 365.25%float.
Proof.
  unfold calculate_years_since_production. intros H.
  apply bind_Ok in H as (production_date & Hd & H).
  apply bind_Ok in H as (days & Hf & H).
  unfold float_truediv in H.
  destruct (PrimFloat.eqb _ _); [discriminate H|].
  injection H as <-. eauto.
Qed.

(** C3: what lines 84-88 do.  The production date of a row is the text of
    [yearOfProduction], a hyphen, the month in two digits and [-01].  The
    month comes from the table of twelve Hebrew names and lies in 1..12; it
    is 1 when [monthOfProduction] is absent, when it has no text, and when
    its text is not a name of the table.  The year is an [int] in 1..9999
    (or [True]), and it is written without padding: the date matches
    [^\d{4}-\d{2}-01$] when the year is an [int] of at least 1000. *)
Theorem production_date_format (rt : runtime) (listing_type : pystr)
    (item : gmap pystr json) (ad_number : json) (row : Row.t) :
  convert rt listing_type (JObj item) ad_number = Ok (Some row) ->
  exists (vehicle_dates : gmap pystr json) (year : json) (year_text : pystr)
         (month : Z),
    item !! lit "vehicleDates" = Some (JObj vehicle_dates)
    /\ vehicle_dates !! lit "yearOfProduction" = Some year
    /\ py_str rt year = Ok year_text
    /\ Row.productionDate row
       = year_text ++ lit "-" ++ fmt_02d month ++ lit "-01"
    /\ 1 <= month <= 12
    /\ size month_mapping = 12%nat
    /\ (vehicle_dates !! lit "monthOfProduction" = None -> month = 1)
    /\ (forall m : gmap pystr json,
          vehicle_dates !! lit "monthOfProduction" = Some (JObj m) ->
          m !! lit "text" = None -> month = 1)
    /\ (forall (m : gmap pystr json) (name : pystr),
          vehicle_dates !! lit "monthOfProduction" = Some (JObj m) ->
          m !! lit "text" = Some (JStr name) ->
          month = default 1 (month_mapping !! name))
    /\ (year = JBool true \/ exists y, year = JInt y /\ 1 <= y <= 9999)
    /\ (forall y, year = JInt y -> 1000 <= y ->
          matches_production_date (Row.productionDate row) = true).
Proof.
  intros H. apply convert_built in H as [v B].
  pose proof (b_vehicle_dates _ _ _ _ _ _ B) as Bvd.
  pose proof (b_year _ _ _ _ _ _ B) as By.
  pose proof (b_month_data _ _ _ _ _ _ B) as Bmd.
  pose proof (b_month_text _ _ _ _ _ _ B) as Bmt.
  pose proof (b_month _ _ _ _ _ _ B) as Bm.
  pose proof (b_year_text _ _ _ _ _ _ B) as Byt.
  pose proof (b_production_date _ _ _ _ _ _ B) as Bpd.
  pose proof (b_years _ _ _ _ _ _ B) as Bys.
  clear B.
  destruct (proj1 (py_getitem_Ok _ _ _) By) as (vehicle_dates & Evd & By').
  rewrite Evd in Bvd, Bmd. apply py_get_dict in Bmd.
  apply calculate_years_Ok in Bys as (pd & days & Hdt & _ & _).
  apply datetime_first_year in Hdt as [Hyear _].
  pose proof (get_month_number_range _ _ Bm) as Hrange.
  exists vehicle_dates, (l_year v), (l_year_text v), (l_month v).
  repeat split; try assumption; try apply Hrange.
  - intros Hnone. rewrite Hnone in Bmd. cbn [default from_option id] in Bmd.
    rewrite Bmd in Bmt. apply py_get_dict in Bmt.
    rewrite lookup_singleton_eq in Bmt. cbn [default from_option id] in Bmt.
    rewrite Bmt, default_month in Bm. congruence.
  - intros m Hm Ht. rewrite Hm in Bmd. cbn [default from_option id] in Bmd.
    rewrite Bmd in Bmt. apply py_get_dict in Bmt. rewrite Ht in Bmt.
    cbn [default from_option id] in Bmt. rewrite Bmt, default_month in Bm. congruence.
  - intros m name Hm Ht. rewrite Hm in Bmd. cbn [default from_option id] in Bmd.
    rewrite Bmd in Bmt. apply py_get_dict in Bmt. rewrite Ht in Bmt.
    cbn [default from_option id] in Bmt. rewrite Bmt in Bm.
    unfold get_month_number in Bm. congruence.
  - intros y Ey Hy. rewrite Bpd.
    destruct Hyear as [Hb | (y' & Ey' & Hy')]; [congruence|].
    assert (y' = y) as -> by congruence.
    rewrite Ey, py_str_small_int in Byt by lia. injection Byt as <-.
    apply production_date_shape; [lia|exact Hrange].
Qed.

(** The theorem at a record of January 2020. *)
Lemma production_date_format_witness :
  exists row,
    convert example_runtime (lit "commercial")
      (JObj (example_listing (JInt 2020) (lit "1.8") []))
      (JStr (lit "abc123")) = Ok (Some row)
    /\ Row.productionDate row = lit "2020-01-01"
    /\ matches_production_date (Row.productionDate row) = true.
Proof.
  eexists. split; [vm_compute; reflexivity|].
  split; [vm_compute; reflexivity|].
  destruct (production_date_format example_runtime (lit "commercial")
              (example_listing (JInt 2020) (lit "1.8") [])
              (JStr (lit "abc123")) _ ltac:(vm_compute; reflexivity))
    as (vd & year & yt & month & Hvd & Hy & _ & _ & _ & _ & _ & _ & _ & _ & Hm).
  apply (Hm 2020); [|lia].
  vm_compute in Hvd. injection Hvd as <-. vm_compute in Hy. congruence.
Defined.

(** The failing input of C3: the year 999 is a valid year and gives a
    date of nine characters, against the format [YYYY-MM-DD] that line 84
    names. *)
Lemma production_date_counterexample :
  exists row,
    convert example_runtime (lit "commercial") (JObj old_listing)
      (JStr (lit "abc123")) = Ok (Some row)
    /\ Row.productionDate row = lit "999-01-01"
    /\ matches_production_date (Row.productionDate row) = false.
Proof.
  eexists. split; [vm_compute; reflexivity|]. split; vm_compute; reflexivity.
Qed.

Lemma km_per_year_of_Ok (years : PrimFloat.float) (km result : json) :
  km_per_year_of years km = Ok result ->
  (PrimFloat.ltb 0%float years = false \/ py_gt_zero km = Ok false)
  /\ result = JInt 0
  \/ PrimFloat.ltb 0%float years = true
     /\ py_gt_zero km = Ok true
     /\ exists q, py_truediv km years = Ok q /\ result = JFloat (py_round2 q).
Proof.
  unfold km_per_year_of.
  destruct (PrimFloat.ltb 0%float years).
  - intros H. apply bind_Ok in H as ([|] & Hpos & H).
    + apply bind_Ok in H as (q & Hq & H). injection H as <-.
      right. eauto.
    + injection H as <-. left. auto.
  - intros H. injection H as <-. left. auto.
Qed.

(** C2 (amended): with [month] the number [get_month_number] gives for the
    text of the record's [monthOfProduction] (January when it is absent),
    and [years] the elapsed days between the first day of that month of
    [yearOfProduction] and now divided by 365.25, not rounded, the row has
    [number_of_years = round(years, 2)], and [km_per_year] is 0 when
    [years > 0] is false or [km > 0] is false ([km] defaults to 0), and
    [round(km / years, 2)] otherwise.  The test and the division use the
    quotient before rounding, not the [number_of_years] of the row. *)
Theorem km_per_year_by_elapsed_years (rt : runtime) (listing_type : pystr)
    (item : gmap pystr json) (ad_number : json) (row : Row.t) :
  convert rt listing_type (JObj item) ad_number = Ok (Some row) ->
  exists (vehicle_dates : gmap pystr json) (year month_text : json)
         (month production_date : Z) (days years : PrimFloat.float),
    item !! lit "vehicleDates" = Some (JObj vehicle_dates)
    /\ vehicle_dates !! lit "yearOfProduction" = Some year
    /\ py_get
         (default (JObj {[ lit "text" := JStr (lit "ינואר") ]})
            (vehicle_dates !! lit "monthOfProduction"))
         (lit "text") (JStr (lit "ינואר")) = Ok month_text
    /\ get_month_number month_text = Ok month
    /\ datetime_first year month = Ok production_date
    /\ float_of_int (ordinal (now rt) - production_date) = Ok days
    /\ years = PrimFloat.div days 365.25%float
    /\ Row.number_of_years row = py_round2 years
    /\ Row.km row = default (JInt 0) (item !! lit "km")
    /\ ((PrimFloat.ltb 0%float years = false
         \/ py_gt_zero (Row.km row) = Ok false)
        /\ Row.km_per_year row = JInt 0
        \/ PrimFloat.ltb 0%float years = true
           /\ py_gt_zero (Row.km row) = Ok true
           /\ exists q,
               py_truediv (Row.km row) years = Ok q
               /\ Row.km_per_year row = JFloat (py_round2 q)).
Proof.
  intros H. apply convert_built in H as [v B].
  pose proof (b_vehicle_dates _ _ _ _ _ _ B) as Bvd.
  destruct (proj1 (py_getitem_Ok _ _ _) (b_year _ _ _ _ _ _ B))
    as (vehicle_dates & Evd & By).
  rewrite Evd in Bvd.
  pose proof (b_month_data _ _ _ _ _ _ B) as Bmd.
  rewrite Evd in Bmd. apply py_get_dict in Bmd.
  pose proof (b_month_text _ _ _ _ _ _ B) as Bmt. rewrite Bmd in Bmt.
  destruct (calculate_years_Ok _ _ _ _ (b_years _ _ _ _ _ _ B))
    as (production_date & days & Hdt & Hdays & Hyears).
  exists vehicle_dates, (l_year v), (l_month_text v), (l_month v),
    production_date, days, (l_years v).
  repeat split; try assumption.
  - exact (b_month _ _ _ _ _ _ B).
  - exact (b_number_of_years _ _ _ _ _ _ B).
  - exact (b_km _ _ _ _ _ _ B).
  - apply km_per_year_of_Ok. exact (b_km_per_year _ _ _ _ _ _ B).
Qed.

(** The theorem at a record of March 2020 with 60000 km, on 3 November
    2026: the days are counted from the first of March. *)
Lemma km_per_year_witness :
  exists row,
    convert example_runtime (lit "commercial") (JObj march_listing)
      (JStr (lit "abc123")) = Ok (Some row)
    /\ Row.productionDate row = lit "2020-03-01"
    /\ Row.number_of_years row = 6.67%float
    /\ Row.km_per_year row = JFloat 8988.93%float
    /\ (exists days,
          float_of_int (ordinal (now example_runtime) - ymd2ord 2020 3 1)
          = Ok days
          /\ Row.number_of_years row
             = py_round2 (PrimFloat.div days 365.25%float)).
Proof.
  destruct (convert example_runtime (lit "commercial") (JObj march_listing)
              (JStr (lit "abc123"))) as [[row|]|e] eqn:E;
    [|vm_compute in E; discriminate E..].
  exists row. split; [reflexivity|].
  destruct (km_per_year_by_elapsed_years _ _ _ _ _ E)
    as (vd & year & month_text & month & pd & days & years
        & Hvd & Hy & Hmt & Hm & Hdt & Hdays & Hyears & Hn & _).
  assert (Evd : march_listing !! lit "vehicleDates"
                = Some (JObj (list_to_map
                     [(lit "yearOfProduction", JInt 2020);
                      (lit "monthOfProduction",
                       JObj {[ lit "text" := JStr (lit "מרץ") ]})])))
    by apply lookup_insert_eq.
  rewrite Evd in Hvd. injection Hvd as <-.
  assert (year = JInt 2020) as ->
    by (enough (Some year = Some (JInt 2020)) by congruence;
        rewrite <- Hy; vm_compute; reflexivity).
  assert (month_text = JStr (lit "מרץ")) as ->
    by (enough (@Ok json month_text = Ok (JStr (lit "מרץ"))) by congruence;
        rewrite <- Hmt; vm_compute; reflexivity).
  assert (month = 3) as ->
    by (enough (Ok month = Ok 3) by congruence;
        rewrite <- Hm; vm_compute; reflexivity).
  assert (pd = ymd2ord 2020 3 1) as ->
    by (enough (Ok pd = Ok (ymd2ord 2020 3 1)) by congruence;
        rewrite <- Hdt; vm_compute; reflexivity).
  split; [|split; [|split]].
  - assert (Hp : Some (Row.productionDate row) = Some (lit "2020-03-01"))
      by (transitivity
            (match convert example_runtime (lit "commercial")
                     (JObj march_listing) (JStr (lit "abc123")) with
             | Ok (Some r) => Some (Row.productionDate r)
             | _ => None
             end); [rewrite E; reflexivity|vm_compute; reflexivity]).
    congruence.
  - assert (Hp : Some (Row.number_of_years row) = Some 6.67%float)
      by (transitivity
            (match convert example_runtime (lit "commercial")
                     (JObj march_listing) (JStr (lit "abc123")) with
             | Ok (Some r) => Some (Row.number_of_years r)
             | _ => None
             end); [rewrite E; reflexivity|vm_compute; reflexivity]).
    congruence.
  - assert (Hp : Some (Row.km_per_year row) = Some (JFloat 8988.93%float))
      by (transitivity
            (match convert example_runtime (lit "commercial")
                     (JObj march_listing) (JStr (lit "abc123")) with
             | Ok (Some r) => Some (Row.km_per_year r)
             | _ => None
             end); [rewrite E; reflexivity|vm_compute; reflexivity]).
    congruence.
  - exists days. split; [exact Hdays|]. rewrite Hn, Hyears. reflexivity.
Defined.

(** C2 as stated fails: one day after production [number_of_years] is 0.0
    and [km_per_year] is not 0; and a negative [km] gives 0, not a quotient. *)
Lemma km_per_year_counterexample :
  (exists row,
     convert (runtime_on (Date 2026 1 2)) (lit "commercial") (JObj new_listing)
       (JStr (lit "abc123")) = Ok (Some row)
     /\ Row.km row = JInt 60000
     /\ Row.number_of_years row = 0%float
     /\ Row.km_per_year row = JFloat 21915000%float)
  /\ (exists row,
        convert example_runtime (lit "commercial") (JObj negative_km_listing)
          (JStr (lit "abc123")) = Ok (Some row)
        /\ Row.km row = JInt (-5)
        /\ Row.number_of_years row = 6.84%float
        /\ Row.km_per_year row = JInt 0).
Proof.
  split; eexists; (split; [vm_compute; reflexivity|]);
    repeat split; vm_compute; reflexivity.
Qed.

Lemma starts_with_spec (p s : pystr) :
  starts_with p s = true <-> exists post, s = p ++ post.
Proof.
  revert s. induction p as [|a p IH]; intros s; cbn.
  - split; eauto.
  - destruct s as [|b s].
    + split; [discriminate|]. intros [post H]. discriminate H.
    + rewrite andb_true_iff, N.eqb_eq, IH. split.
      * intros [-> [post ->]]. eauto.
      * intros [post H]. injection H as -> ->. eauto.
Qed.

(** The code points [\s] accepts. *)
Lemma is_space_points (c : N) :
  is_space c = true ->
  In c [0x09; 0x0A; 0x0B; 0x0C; 0x0D; 0x1C; 0x1D; 0x1E; 0x1F; 0x20; 0x85;
        0xA0; 0x1680; 0x2000; 0x2001; 0x2002; 0x2003; 0x2004; 0x2005; 0x2006;
        0x2007; 0x2008; 0x2009; 0x200A; 0x2028; 0x2029; 0x202F; 0x205F;
        0x3000]%N.
Proof.
  unfold is_space. intros H.
  repeat (apply orb_prop in H as [H|H]);
    repeat match goal with
    | H : (_ && _) = true |- _ => apply andb_prop in H as [? ?]
    | H : (_ <=? _)%N = true |- _ => apply N.leb_le in H
    | H : (_ =? _)%N = true |- _ => apply N.eqb_eq in H
    end; cbn [In]; lia.
Qed.

Lemma space_not_digit (c : N) : is_space c = true -> is_digit c = false.
Proof.
  intros H. apply is_space_points in H.
  repeat (destruct H as [<-|H]; [vm_compute; reflexivity|]).
  destruct H.
Qed.

Lemma marker_head :
  exists rest, hp_marker = 0x5DB%N :: rest.
Proof. vm_compute. eauto. Qed.

Lemma marker_head_not_digit : is_digit 0x5DB%N = false.
Proof. vm_compute. reflexivity. Qed.

(** What follows a run of digits in a token starts with no digit. *)
Lemma after_digits_no_digit (ws post : pystr) :
  Forall (fun c => is_space c = true) ws ->
  match_hp_here (ws ++ hp_marker ++ post) = None.
Proof.
  intros Hws. destruct ws as [|c ws]; cbn [app].
  - destruct marker_head as [rest ->]. cbn.
    rewrite marker_head_not_digit. reflexivity.
  - cbn. apply Forall_cons in Hws as [Hc _].
    rewrite (space_not_digit _ Hc). reflexivity.
Qed.

Lemma match_spaces_marker_spec (s : pystr) :
  match_spaces_marker s = true
  <-> exists ws post,
      s = ws ++ hp_marker ++ post /\ Forall (fun c => is_space c = true) ws.
Proof.
  split.
  - induction s as [|c s IH]; cbn [match_spaces_marker].
    + intros H. apply starts_with_spec in H as [post H].
      exists [], post. split; [exact H|constructor].
    + intros H. apply orb_prop in H as [H|H].
      * apply andb_prop in H as [Hc H].
        destruct (IH H) as (ws & post & -> & Hws).
        exists (c :: ws), post. split; [reflexivity|]. now constructor.
      * apply starts_with_spec in H as [post H].
        exists [], post. split; [exact H|constructor].
  - intros (ws & post & -> & Hws).
    induction Hws as [|c ws Hc Hws IH].
    + cbn [app]. destruct (hp_marker ++ post) as [|c s] eqn:E;
        cbn [match_spaces_marker].
      * destruct marker_head as [rest Hr]. rewrite Hr in E. discriminate E.
      * apply orb_true_iff. right. rewrite <- E. apply starts_with_spec. eauto.
    + cbn [app match_spaces_marker]. rewrite Hc, IH. reflexivity.
Qed.

Lemma match_hp_here_spec (s ds : pystr) :
  match_hp_here s = Some ds
  <-> exists ws post, hp_token s [] ds ws post.
Proof.
  unfold hp_token. cbn [app]. split.
  - revert ds. induction s as [|c s IH]; intros ds; cbn [match_hp_here];
      [discriminate|].
    destruct (is_digit c) eqn:Hc; [|discriminate].
    destruct (match_hp_here s) as [ds'|] eqn:E.
    + intros H; injection H as <-.
      destruct (IH ds' eq_refl) as (ws & post & -> & Hne & Hds & Hws).
      exists ws, post. repeat split; [discriminate| |exact Hws].
      now constructor.
    + destruct (match_spaces_marker s) eqn:Em; [|discriminate].
      intros H; injection H as <-.
      apply match_spaces_marker_spec in Em as (ws & post & -> & Hws).
      exists ws, post. repeat split; [discriminate| |exact Hws].
      constructor; [exact Hc|constructor].
  - intros (ws & post & -> & Hne & Hds & Hws).
    induction Hds as [|c ds Hc Hds IH]; [congruence|].
    cbn [app match_hp_here]. rewrite Hc.
    destruct ds as [|c' ds].
    + cbn [app]. rewrite (after_digits_no_digit _ _ Hws).
      rewrite (proj2 (match_spaces_marker_spec _)); [reflexivity|]. eauto.
    + rewrite IH by discriminate. reflexivity.
Qed.

Lemma hp_token_cons (c : N) (s pre ds ws post : pystr) :
  hp_token s pre ds ws post -> hp_token (c :: s) (c :: pre) ds ws post.
Proof. intros (-> & H). split; [reflexivity|exact H]. Qed.

Lemma hp_token_uncons (c : N) (s pre ds ws post : pystr) :
  hp_token (c :: s) pre ds ws post ->
  pre = [] \/ exists pre', pre = c :: pre' /\ hp_token s pre' ds ws post.
Proof.
  intros (E & H). destruct pre as [|c' pre]; [now left|]. right.
  injection E as -> ->. exists pre. split; [reflexivity|]. split; [reflexivity|exact H].
Qed.

Lemma re_search_hp_None (s : pystr) :
  re_search_hp s = None ->
  forall pre ds ws post, ~ hp_token s pre ds ws post.
Proof.
  induction s as [|c s IH]; cbn [re_search_hp]; intros H pre ds ws post T.
  - destruct T as (E & Hne & _). destruct pre, ds; try discriminate E. congruence.
  - destruct (match_hp_here (c :: s)) as [ds'|] eqn:Eh; [discriminate|].
    destruct (hp_token_uncons _ _ _ _ _ _ T) as [-> | (pre' & -> & T0)].
    + assert (match_hp_here (c :: s) = Some ds)
        by (apply match_hp_here_spec; exists ws, post; exact T).
      congruence.
    + exact (IH H _ _ _ _ T0).
Qed.

Lemma re_search_hp_Some (s ds : pystr) :
  re_search_hp s = Some ds ->
  exists pre ws post,
    hp_token s pre ds ws post
    /\ forall pre' ds' ws' post',
        hp_token s pre' ds' ws' post' -> (length pre <= length pre')%nat.
Proof.
  induction s as [|c s IH]; cbn [re_search_hp].
  - cbn. discriminate.
  - destruct (match_hp_here (c :: s)) as [ds0|] eqn:Eh.
    + intros H; injection H as <-.
      apply match_hp_here_spec in Eh as (ws & post & T).
      exists [], ws, post. split; [exact T|]. intros; cbn; lia.
    + intros H. destruct (IH H) as (pre & ws & post & T & Hleft).
      exists (c :: pre), ws, post. split; [now apply hp_token_cons|].
      intros pre' ds' ws' post' T'.
      destruct (hp_token_uncons _ _ _ _ _ _ T') as [-> | (pre'' & -> & T0)].
      * assert (match_hp_here (c :: s) = Some ds')
          by (apply match_hp_here_spec; exists ws', post'; exact T').
        congruence.
      * cbn. specialize (Hleft _ _ _ _ T0). lia.
Qed.

(** The token at a given place is one: the run of digits is the longest. *)
Lemma hp_token_unique (s pre ds ws post ds' ws' post' : pystr) :
  hp_token s pre ds ws post -> hp_token s pre ds' ws' post' -> ds = ds'.
Proof.
  intros (E & H) (E' & H'). rewrite E in E'. apply app_inv_head in E'.
  assert (T : match_hp_here (ds ++ ws ++ hp_marker ++ post) = Some ds)
    by (apply match_hp_here_spec; exists ws, post; split; [reflexivity|exact H]).
  assert (T' : match_hp_here (ds ++ ws ++ hp_marker ++ post) = Some ds')
    by (apply match_hp_here_spec; exists ws', post'; split; [exact E'|exact H']).
  congruence.
Qed.

Lemma extract_hp_Ok (text : json) (hp : Z) :
  extract_hp text = Ok hp ->
  exists s,
    text = JStr s
    /\ (re_search_hp s = None /\ hp = 0
        \/ exists ds, re_search_hp s = Some ds /\ hp = digits_value ds).
Proof.
  destruct text; try discriminate. cbn [extract_hp]. intros H.
  exists s. split; [reflexivity|].
  destruct (re_search_hp s) as [ds|].
  - right. exists ds. split; [reflexivity|].
    unfold int_of_digits in H. destruct (bool_decide _); [discriminate H|].
    congruence.
  - left. split; [reflexivity|congruence].
Qed.

(** C4 (amended): [hp] is read from the leftmost integer token that is
    followed by the marker: the sub-model text splits into [pre], a longest
    run of digits [ds], optional whitespace, the marker and the rest, no such
    token starts before [pre], and [hp] is the number [ds] writes; [hp] is 0
    when the text has no such token.  The marker may occur earlier in the
    text without an integer before it. *)
Theorem hp_from_leftmost_token (rt : runtime) (listing_type : pystr)
    (item : gmap pystr json) (ad_number : json) (row : Row.t) :
  convert rt listing_type (JObj item) ad_number = Ok (Some row) ->
  exists (sub_model : gmap pystr json) (text : pystr),
    item !! lit "subModel" = Some (JObj sub_model)
    /\ sub_model !! lit "text" = Some (JStr text)
    /\ ((forall pre ds ws post, ~ hp_token text pre ds ws post)
        /\ Row.hp row = 0
        \/ exists pre ds ws post,
            hp_token text pre ds ws post
            /\ (forall pre' ds' ws' post',
                  hp_token text pre' ds' ws' post' ->
                  (length pre <= length pre')%nat /\ (pre' = pre -> ds' = ds))
            /\ Row.hp row = digits_value ds).
Proof.
  intros H. apply convert_built in H as [v B].
  pose proof (b_sub_model _ _ _ _ _ _ B) as Bsm.
  destruct (proj1 (py_getitem_Ok _ _ _) (b_sub_model_text _ _ _ _ _ _ B))
    as (sub_model & Esm & Btext).
  rewrite Esm in Bsm.
  destruct (extract_hp_Ok _ _ (b_hp _ _ _ _ _ _ B)) as (text & Et & Hhp).
  rewrite Et in Btext.
  exists sub_model, text. split; [exact Bsm|]. split; [exact Btext|].
  destruct Hhp as [[Hnone ->] | (ds & Hsome & ->)].
  - left. split; [|reflexivity]. now apply re_search_hp_None.
  - right. apply re_search_hp_Some in Hsome as (pre & ws & post & T & Hleft).
    exists pre, ds, ws, post. split; [exact T|]. split; [|reflexivity].
    intros pre' ds' ws' post' T'. split; [exact (Hleft _ _ _ _ T')|].
    intros ->. symmetry. exact (hp_token_unique _ _ _ _ _ _ _ _ T T').
Qed.

(** The theorem at the sub-model of the first scenario. *)
Lemma hp_from_leftmost_token_witness :
  exists row,
    convert example_runtime (lit "commercial")
      (JObj (example_listing (JInt 2020) (lit "1.8 132 כ״ס") []))
      (JStr (lit "abc123")) = Ok (Some row)
    /\ hp_token (lit "1.8 132 כ״ס") (lit "1.8 ") (lit "132") (lit " ") []
    /\ Row.hp row = 132.
Proof.
  eexists. split; [vm_compute; reflexivity|].
  assert (T : hp_token (lit "1.8 132 כ״ס") (lit "1.8 ") (lit "132") (lit " ") []).
  { split; [vm_compute; reflexivity|]. split; [discriminate|].
    split; repeat constructor. }
  split; [exact T|].
  destruct (hp_from_leftmost_token example_runtime (lit "commercial")
              (example_listing (JInt 2020) (lit "1.8 132 כ״ס") [])
              (JStr (lit "abc123")) _ ltac:(vm_compute; reflexivity))
    as (sm & text & _ & _ & _).
  vm_compute. reflexivity.
Defined.

(** C4 as stated fails: here the first occurrence of the marker has no
    integer before it, and [hp] is read before the second occurrence. *)
Lemma hp_counterexample :
  exists row,
    convert example_runtime (lit "commercial") (JObj marker_first_listing)
      (JStr (lit "abc123")) = Ok (Some row)
    /\ Row.subModel row = JStr (lit "כ״ס 132 כ״ס")
    /\ before_first_marker (lit "כ״ס 132 כ״ס") = Some []
    /\ spec_hp (lit "כ״ס 132 כ״ס") = None
    /\ Row.hp row = 132.
Proof.
  eexists. split; [vm_compute; reflexivity|].
  repeat split; vm_compute; reflexivity.
Qed.

Lemma write_line_files (path : pystr) (line : csv_line) (w : world)
    (old : list csv_line) :
  files w !! path = Some old ->
  files (write_line path line w) = <[path := old ++ [line]]> (files w).
Proof. intros H. cbn. rewrite H. reflexivity. Qed.

Lemma handle_prints (debug : bool) (e : exn) (st : loop_state) (a : json) :
  ad_number st = Some a ->
  exists st' msgs,
    handle debug e st = (st', Ok tt)
    /\ files (loop_world st') = files (loop_world st)
    /\ opens (loop_world st') = opens (loop_world st)
    /\ processed_count st' = processed_count st
    /\ ad_number st' = Some a
    /\ stdout (loop_world st') = stdout (loop_world st) ++ msgs
    /\ (debug = false -> msgs = [])
    /\ Forall (fun m => is_processed m = false) msgs.
Proof.
  intros Ha. unfold handle. destruct debug.
  - rewrite Ha. eexists. eexists [_]. split; [reflexivity|]. cbn.
    repeat split; try assumption; try discriminate.
    constructor; [|constructor]. destruct e; reflexivity.
  - exists st, []. rewrite app_nil_r. repeat split; auto.
Qed.

(** One turn of the loop on a record. *)
Lemma loop_body_dict (rt : runtime) (listing_type output_file : pystr)
    (debug : bool) (item : gmap pystr json) (st : loop_state)
    (written : list csv_line) :
  files (loop_world st) !! output_file = Some written ->
  exists st' msgs,
    loop_body rt listing_type output_file debug (JObj item) st = (st', Ok tt)
    /\ files (loop_world st')
       = <[output_file :=
             written ++ (DataLine <$> option_list (row_of rt listing_type item))]>
           (files (loop_world st))
    /\ opens (loop_world st') = opens (loop_world st)
    /\ processed_count st'
       = processed_count st
         + Z.of_nat (length (option_list (row_of rt listing_type item)))
    /\ stdout (loop_world st') = stdout (loop_world st) ++ msgs
    /\ (debug = false -> msgs = [])
    /\ Forall (fun m => is_processed m = false) msgs.
Proof.
  intros Hw. unfold loop_body, row_of. rewrite get_ad_number_dict.
  set (a := default _ (item !! lit "orderId")).
  assert (Hraise : forall e,
             exists st' msgs,
               handle debug e
                 {| loop_world := loop_world st;
                    processed_count := processed_count st;
                    ad_number := Some a |} = (st', Ok tt)
               /\ files (loop_world st')
                  = <[output_file := written ++ (DataLine <$> option_list None)]>
                      (files (loop_world st))
               /\ opens (loop_world st') = opens (loop_world st)
               /\ processed_count st'
                  = processed_count st
                    + Z.of_nat (length (option_list (@None Row.t)))
               /\ stdout (loop_world st') = stdout (loop_world st) ++ msgs
               /\ (debug = false -> msgs = [])
               /\ Forall (fun m => is_processed m = false) msgs).
  { intros e.
    edestruct (handle_prints debug e
                 {| loop_world := loop_world st;
                    processed_count := processed_count st;
                    ad_number := Some a |} a)
      as (st' & msgs & H1 & H2 & H3 & H4 & _ & H5 & H6 & H7); [reflexivity|].
    exists st', msgs. split; [exact H1|]. cbn in *.
    rewrite !app_nil_r. rewrite insert_id by exact Hw.
    repeat split; auto; lia. }
  destruct (convert rt listing_type (JObj item) a) as [[row|]|e];
    [destruct (writerow rt row) as [[]|e]| |]; try apply Hraise.
  - eexists. exists []. split; [reflexivity|]. cbn [loop_world processed_count].
    rewrite (write_line_files _ _ _ _ Hw). cbn. rewrite app_nil_r.
    repeat split; auto; lia.
  - eexists. exists []. split; [reflexivity|]. cbn.
    rewrite !app_nil_r. rewrite insert_id by exact Hw.
    repeat split; auto; lia.
Qed.

(** The loop over a list of records: it never raises, it appends the rows
    of the records that are normalised, counts them, and prints only in
    debug mode, and then never the final report. *)
Lemma for_items_dicts (rt : runtime) (listing_type output_file : pystr)
    (debug : bool) (items : list (gmap pystr json)) :
  forall (st : loop_state) (written : list csv_line),
    files (loop_world st) !! output_file = Some written ->
    exists st' msgs,
      for_items rt listing_type output_file debug (JObj <$> items) st
      = (st', Ok tt)
      /\ files (loop_world st')
         = <[output_file :=
               written ++ (DataLine <$> rows_of rt listing_type items)]>
             (files (loop_world st))
      /\ opens (loop_world st') = opens (loop_world st)
      /\ processed_count st'
         = processed_count st
           + Z.of_nat (length (rows_of rt listing_type items))
      /\ stdout (loop_world st') = stdout (loop_world st) ++ msgs
      /\ (debug = false -> msgs = [])
      /\ Forall (fun m => is_processed m = false) msgs.
Proof.
  induction items as [|item items IH]; intros st written Hw.
  - exists st, []. cbn. rewrite !app_nil_r. rewrite insert_id by exact Hw.
    repeat split; auto; lia.
  - destruct (loop_body_dict rt listing_type output_file debug item st written Hw)
      as (st1 & msgs1 & Hbody & Hf1 & Ho1 & Hc1 & Hs1 & Hd1 & Hp1).
    assert (Hw1 : files (loop_world st1) !! output_file
                  = Some (written
                          ++ (DataLine <$> option_list (row_of rt listing_type item)))).
    { rewrite Hf1. apply lookup_insert_eq. }
    destruct (IH st1 _ Hw1)
      as (st2 & msgs2 & Hloop & Hf2 & Ho2 & Hc2 & Hs2 & Hd2 & Hp2).
    exists st2, (msgs1 ++ msgs2).
    cbn [fmap list_fmap for_items]. fold (fmap (M:=list) JObj items).
    rewrite Hbody. split; [exact Hloop|].
    assert (Hrows : rows_of rt listing_type (item :: items)
                    = option_list (row_of rt listing_type item)
                      ++ rows_of rt listing_type items).
    { unfold rows_of. cbn [omap list_omap].
      destruct (row_of rt listing_type item); reflexivity. }
    rewrite Hrows, fmap_app, length_app.
    split. { rewrite Hf2, Hf1, insert_insert_eq, app_assoc. reflexivity. }
    split. { congruence. }
    split. { rewrite Hc2, Hc1. lia. }
    split. { rewrite Hs2, Hs1, app_assoc. reflexivity. }
    split. { intros Hd. rewrite (Hd1 Hd), (Hd2 Hd). reflexivity. }
    apply Forall_app. auto.
Qed.

(** What the file holds once it is open: the header in mode ['w'], what it
    held before in mode ['a']. *)
Lemma open_and_header (output_file : pystr) (mode : open_mode) (w : world) :
  let w1 := open_file output_file mode w in
  let w2 :=
    match mode with
    | ModeW => write_line output_file (HeaderLine headers) w1
    | ModeA => w1
    end in
  files w2
  = <[output_file :=
        match mode with
        | ModeW => [HeaderLine headers]
        | ModeA => default [] (files w !! output_file)
        end]> (files w)
  /\ opens w2 = opens w ++ [(output_file, mode)]
  /\ stdout w2 = stdout w.
Proof.
  destruct mode; cbn.
  - rewrite lookup_insert_eq, insert_insert_eq. auto.
  - auto.
Qed.

(** [process_vehicle_data] on a list of records. *)
Lemma process_vehicle_data_dicts (rt : runtime)
    (items : list (gmap pystr json)) (listing_type output_file : pystr)
    (mode : open_mode) (debug : bool) (w : world) :
  exists w' msgs,
    process_vehicle_data rt (dicts items) listing_type output_file mode debug w
    = (w', Ok tt)
    /\ files w'
       = <[output_file :=
             match mode with
             | ModeW => [HeaderLine headers]
             | ModeA => default [] (files w !! output_file)
             end ++ (DataLine <$> rows_of rt listing_type items)]> (files w)
    /\ opens w' = opens w ++ [(output_file, mode)]
    /\ stdout w'
       = stdout w ++ msgs
         ++ match rows_of rt listing_type items with
            | [] => []
            | rows => [Processed (Z.of_nat (length rows))]
            end
    /\ (debug = false -> msgs = [])
    /\ Forall (fun m => is_processed m = false) msgs.
Proof.
  unfold process_vehicle_data.
  set (inspected :=
         if debug && py_truthy (dicts items)
         then debug_inspect (dicts items) listing_type w else (w, Ok tt)).
  assert (Hin : exists w0 msgs0,
             inspected = (w0, Ok tt)
             /\ files w0 = files w /\ opens w0 = opens w
             /\ stdout w0 = stdout w ++ msgs0
             /\ (debug = false -> msgs0 = [])
             /\ Forall (fun m => is_processed m = false) msgs0).
  { subst inspected. destruct debug; cbn [andb].
    - destruct items as [|item items]; cbn.
      + exists w, []. rewrite app_nil_r. repeat split; auto.
      + eexists. exists [DebugBanner listing_type; DebugItem (JObj item)].
        split; [reflexivity|]. cbn. rewrite <- app_assoc.
        repeat split; auto; try discriminate; repeat constructor.
    - exists w, []. rewrite app_nil_r. repeat split; auto. }
  destruct Hin as (w0 & msgs0 & -> & Hf0 & Ho0 & Hs0 & Hd0 & Hp0).
  destruct (open_and_header output_file mode w0) as (Hf & Ho & Hs).
  cbv zeta in Hf, Ho, Hs.
  set (w2 := match mode with
             | ModeW => write_line output_file (HeaderLine headers)
                          (open_file output_file mode w0)
             | ModeA => open_file output_file mode w0
             end) in *.
  cbn [py_iter dicts].
  set (base := match mode with
               | ModeW => [HeaderLine headers]
               | ModeA => default [] (files w0 !! output_file)
               end) in *.
  destruct (for_items_dicts rt listing_type output_file debug items
              {| loop_world := w2; processed_count := 0; ad_number := None |}
              base)
    as (st & msgs & Hloop & Hf1 & Ho1 & Hc1 & Hs1 & Hd1 & Hp1).
  { cbn [loop_world]. rewrite Hf. apply lookup_insert_eq. }
  rewrite Hloop. cbn [loop_world processed_count] in *.
  eexists. exists (msgs0 ++ msgs). split; [reflexivity|].
  assert (Hfiles : files (loop_world st)
                   = <[output_file :=
                         base ++ (DataLine <$> rows_of rt listing_type items)]>
                       (files w)).
  { rewrite Hf1, Hf, insert_insert_eq, Hf0. reflexivity. }
  assert (Hbase : base = match mode with
                         | ModeW => [HeaderLine headers]
                         | ModeA => default [] (files w !! output_file)
                         end).
  { subst base. rewrite Hf0. reflexivity. }
  rewrite <- Hbase.
  assert (Hopens : opens (loop_world st) = opens w ++ [(output_file, mode)])
    by congruence.
  assert (Hout : stdout (loop_world st) = stdout w ++ msgs0 ++ msgs).
  { rewrite Hs1, Hs, Hs0, app_assoc. reflexivity. }
  rewrite Hc1.
  destruct (rows_of rt listing_type items) as [|row rows] eqn:Erows.
  - change (0 <? 0 + Z.of_nat (length (@nil Row.t))) with false.
    cbv iota. rewrite Hfiles, Hopens, Hout, !app_nil_r.
    repeat split; auto.
    + intros Hd. rewrite (Hd0 Hd), (Hd1 Hd). reflexivity.
    + apply Forall_app. auto.
  - replace (0 <? 0 + Z.of_nat (length (row :: rows))) with true
      by (symmetry; apply Z.ltb_lt; cbn [length]; lia).
    cbn [print files opens stdout]. rewrite Hfiles, Hopens, Hout.
    rewrite <- !app_assoc.
    replace (0 + Z.of_nat (length (row :: rows)))
      with (Z.of_nat (length (row :: rows))) by lia.
    repeat split; auto.
    + intros Hd. rewrite (Hd0 Hd), (Hd1 Hd). reflexivity.
    + apply Forall_app. auto.
Qed.

Lemma rows_of_app (rt : runtime) (listing_type : pystr)
    (l1 l2 : list (gmap pystr json)) :
  rows_of rt listing_type (l1 ++ l2)
  = rows_of rt listing_type l1 ++ rows_of rt listing_type l2.
Proof. apply omap_app. Qed.

Lemma rows_of_none (rt : runtime) (listing_type : pystr)
    (items : list (gmap pystr json)) :
  Forall (fun item => row_of rt listing_type item = None) items ->
  rows_of rt listing_type items = [].
Proof.
  induction 1 as [|item items H _ IH]; [reflexivity|].
  unfold rows_of in *. cbn [omap list_omap]. rewrite H. exact IH.
Qed.

(** C5: when the turn of the loop for one record of the list raises, while
    its row is built or written, the call still returns normally and writes
    exactly what it writes for the list without that record: the rows of the
    records before it and of the records after it.  No exception of a record
    leaves [process_vehicle_data], so none reaches [process_directory]. *)
Theorem failure_excludes_one_record (rt : runtime)
    (before after : list (gmap pystr json)) (bad : gmap pystr json)
    (listing_type output_file : pystr) (mode : open_mode) (debug : bool)
    (w : world) (e : exn) :
  record_raises rt listing_type bad e ->
  exists w1 w2,
    process_vehicle_data rt (dicts (before ++ bad :: after)) listing_type
      output_file mode debug w = (w1, Ok tt)
    /\ process_vehicle_data rt (dicts (before ++ after)) listing_type
         output_file mode debug w = (w2, Ok tt)
    /\ files w1 = files w2
    /\ files w1
       = <[output_file :=
             match mode with
             | ModeW => [HeaderLine headers]
             | ModeA => default [] (files w !! output_file)
             end
             ++ (DataLine <$> rows_of rt listing_type before)
             ++ (DataLine <$> rows_of rt listing_type after)]> (files w).
Proof.
  intros (a & Ha & He).
  assert (Hbad : row_of rt listing_type bad = None).
  { unfold row_of. rewrite Ha.
    destruct He as [-> | (row & -> & ->)]; reflexivity. }
  destruct (process_vehicle_data_dicts rt (before ++ bad :: after)
              listing_type output_file mode debug w)
    as (w1 & msgs1 & H1 & Hf1 & _).
  destruct (process_vehicle_data_dicts rt (before ++ after)
              listing_type output_file mode debug w)
    as (w2 & msgs2 & H2 & Hf2 & _).
  exists w1, w2. split; [exact H1|]. split; [exact H2|].
  rewrite rows_of_app in Hf1, Hf2.
  change (bad :: after) with ([bad] ++ after) in Hf1.
  rewrite rows_of_app in Hf1.
  unfold rows_of at 2 in Hf1. cbn [omap list_omap] in Hf1.
  rewrite Hbad in Hf1. cbn [app] in Hf1.
  rewrite fmap_app in Hf1, Hf2.
  split; congruence.
Qed.

(** The theorem at a list of three records whose second raises [KeyError]. *)
Lemma failure_excludes_one_record_witness :
  exists w1 w2,
    process_vehicle_data example_runtime
      (dicts ([good_listing] ++ handless_listing :: [good_listing]))
      (lit "private") (lit "out.csv") ModeW true empty_world = (w1, Ok tt)
    /\ process_vehicle_data example_runtime
         (dicts ([good_listing] ++ [good_listing]))
         (lit "private") (lit "out.csv") ModeW true empty_world = (w2, Ok tt)
    /\ files w1 = files w2
    /\ files w1
       = <[lit "out.csv" :=
             [HeaderLine headers]
             ++ (DataLine <$> rows_of example_runtime (lit "private") [good_listing])
             ++ (DataLine <$> rows_of example_runtime (lit "private") [good_listing])]>
           (files empty_world).
Proof.
  apply (failure_excludes_one_record example_runtime [good_listing]
           [good_listing] handless_listing (lit "private") (lit "out.csv")
           ModeW true empty_world KeyError).
  exists (JStr (lit "abc123")). split; [reflexivity|].
  left. vm_compute. reflexivity.
Defined.

(** C8 (amended): a call on a list of records returns normally; the file
    then holds what it held when opened (the header in mode ['w']) followed
    by one row per record that is normalised, in order, and no other file
    changes.  The count of these records is printed last, and only when it
    is positive: a call that normalises no record prints no count.  Before
    it come the debug messages, none in normal mode. *)
Theorem one_row_per_normalised_record (rt : runtime)
    (items : list (gmap pystr json)) (listing_type output_file : pystr)
    (mode : open_mode) (debug : bool) (w : world) :
  exists w' msgs,
    process_vehicle_data rt (dicts items) listing_type output_file mode debug w
    = (w', Ok tt)
    /\ files w' !! output_file
       = Some (match mode with
               | ModeW => [HeaderLine headers]
               | ModeA => default [] (files w !! output_file)
               end ++ (DataLine <$> rows_of rt listing_type items))
    /\ (forall path, path <> output_file -> files w' !! path = files w !! path)
    /\ stdout w'
       = stdout w ++ msgs
         ++ match rows_of rt listing_type items with
            | [] => []
            | rows => [Processed (Z.of_nat (length rows))]
            end
    /\ (debug = false -> msgs = [])
    /\ Forall (fun m => is_processed m = false) msgs.
Proof.
  destruct (process_vehicle_data_dicts rt items listing_type output_file
              mode debug w) as (w' & msgs & H & Hf & _ & Hs & Hd & Hp).
  exists w', msgs. split; [exact H|].
  split. { rewrite Hf. apply lookup_insert_eq. }
  split. { intros path Hne. rewrite Hf. apply lookup_insert_ne. congruence. }
  auto.
Qed.

(** C8 as stated fails: a call that normalises no record reports nothing. *)
Lemma count_not_reported :
  exists w',
    process_vehicle_data example_runtime (dicts [handless_listing])
      (lit "private") (lit "out.csv") ModeW false empty_world = (w', Ok tt)
    /\ rows_of example_runtime (lit "private") [handless_listing] = []
    /\ stdout w' = [].
Proof.
  eexists. split; [vm_compute; reflexivity|]. split; vm_compute; reflexivity.
Qed.

(** C10: a call in mode ['w'] on a non-empty list whose records are all
    skipped, for a file that does not exist yet, returns normally and leaves
    the file with the header row and nothing else. *)
Theorem header_when_all_skipped (rt : runtime)
    (items : list (gmap pystr json)) (listing_type output_file : pystr)
    (debug : bool) (w : world) :
  files w !! output_file = None ->
  items <> [] ->
  Forall (fun item => row_of rt listing_type item = None) items ->
  exists w',
    process_vehicle_data rt (dicts items) listing_type output_file ModeW debug w
    = (w', Ok tt)
    /\ files w' !! output_file = Some [HeaderLine headers].
Proof.
  intros _ _ Hskip.
  destruct (process_vehicle_data_dicts rt items listing_type output_file
              ModeW debug w) as (w' & msgs & H & Hf & _).
  exists w'. split; [exact H|].
  rewrite Hf, (rows_of_none _ _ _ Hskip). apply lookup_insert_eq.
Qed.

(** The theorem at a list of an empty record and a record that raises. *)
Lemma header_when_all_skipped_witness :
  exists w',
    process_vehicle_data example_runtime (dicts [∅; handless_listing])
      (lit "private") (lit "out.csv") ModeW true empty_world = (w', Ok tt)
    /\ files w' !! lit "out.csv" = Some [HeaderLine headers].
Proof.
  apply (header_when_all_skipped example_runtime [∅; handless_listing]
           (lit "private") (lit "out.csv") true empty_world).
  - reflexivity.
  - discriminate.
  - repeat constructor.
Defined.

(** The handlers change no file. *)
Lemma handle_files (debug : bool) (e : exn) (st : loop_state) :
  files (loop_world (fst (handle debug e st))) = files (loop_world st)
  /\ opens (loop_world (fst (handle debug e st))) = opens (loop_world st).
Proof.
  unfold handle. destruct debug; [|auto].
  destruct (ad_number st); auto.
Qed.

(** One turn of the loop on any item: at most one row is appended. *)
Lemma loop_body_files (rt : runtime) (listing_type output_file : pystr)
    (debug : bool) (item : json) (st : loop_state) (written : list csv_line) :
  files (loop_world st) !! output_file = Some written ->
  let st' := fst (loop_body rt listing_type output_file debug item st) in
  (exists rows,
     files (loop_world st')
     = <[output_file := written ++ (DataLine <$> rows)]> (files (loop_world st)))
  /\ opens (loop_world st') = opens (loop_world st).
Proof.
  intros Hw. cbv zeta. unfold loop_body.
  destruct (get_ad_number item) as [a|e].
  - assert (Hraise : forall e,
               let st' :=
                 fst (handle debug e
                        {| loop_world := loop_world st;
                           processed_count := processed_count st;
                           ad_number := Some a |}) in
               (exists rows,
                  files (loop_world st')
                  = <[output_file := written ++ (DataLine <$> rows)]>
                      (files (loop_world st)))
               /\ opens (loop_world st') = opens (loop_world st)).
    { intros e. cbv zeta.
      destruct (handle_files debug e
                  {| loop_world := loop_world st;
                     processed_count := processed_count st;
                     ad_number := Some a |}) as [Hf Ho].
      cbn [loop_world] in Hf, Ho. rewrite Hf, Ho. split; [|reflexivity].
      exists []. cbn. rewrite app_nil_r, insert_id by exact Hw. reflexivity. }
    destruct (convert rt listing_type item a) as [[row|]|e];
      [destruct (writerow rt row) as [[]|e]| |]; try apply Hraise.
    + cbn [fst loop_world]. split; [|reflexivity]. exists [row].
      rewrite (write_line_files _ _ _ _ Hw). reflexivity.
    + cbn [fst loop_world]. split; [|reflexivity]. exists [].
      cbn. rewrite app_nil_r, insert_id by exact Hw. reflexivity.
  - destruct (handle_files debug e st) as [Hf Ho]. rewrite Hf, Ho.
    split; [|reflexivity].
    exists []. cbn. rewrite app_nil_r, insert_id by exact Hw. reflexivity.
Qed.

(** The loop on any items, to its end or to the exception that ends it:
    rows are appended to the open file and nothing else changes. *)
Lemma for_items_files (rt : runtime) (listing_type output_file : pystr)
    (debug : bool) (items : list json) :
  forall (st : loop_state) (written : list csv_line),
    files (loop_world st) !! output_file = Some written ->
    let st' := fst (for_items rt listing_type output_file debug items st) in
    (exists rows,
       files (loop_world st')
       = <[output_file := written ++ (DataLine <$> rows)]>
           (files (loop_world st)))
    /\ opens (loop_world st') = opens (loop_world st).
Proof.
  induction items as [|item items IH]; intros st written Hw; cbv zeta.
  - cbn. split; [|reflexivity]. exists []. cbn.
    rewrite app_nil_r, insert_id by exact Hw. reflexivity.
  - cbn [for_items].
    destruct (loop_body_files rt listing_type output_file debug item st
                written Hw) as [(rows1 & Hf1) Ho1].
    cbv zeta in Hf1, Ho1.
    destruct (loop_body rt listing_type output_file debug item st)
      as [st1 [[]|e]]; cbn [fst] in Hf1, Ho1.
    + assert (Hw1 : files (loop_world st1) !! output_file
                    = Some (written ++ (DataLine <$> rows1))).
      { rewrite Hf1. apply lookup_insert_eq. }
      destruct (IH st1 _ Hw1) as [(rows2 & Hf2) Ho2]. cbv zeta in Hf2, Ho2.
      split; [|congruence].
      exists (rows1 ++ rows2).
      rewrite Hf2, Hf1, insert_insert_eq, fmap_app, app_assoc. reflexivity.
    + cbn [fst]. split; [|exact Ho1]. exists rows1. exact Hf1.
Qed.

(** What a call of [process_vehicle_data] does to the files, on any
    argument and however it ends: nothing, when the debug inspection raises
    before the file is opened; else one [open] in the given mode, the header
    in mode ['w'], and rows. *)
Lemma process_vehicle_data_files (rt : runtime) (json_list : json)
    (listing_type output_file : pystr) (mode : open_mode) (debug : bool)
    (w : world) :
  let w' :=
    fst (process_vehicle_data rt json_list listing_type output_file mode
           debug w) in
  files w' = files w /\ opens w' = opens w
  \/ exists rows,
      files w'
      = <[output_file :=
            match mode with
            | ModeW => [HeaderLine headers]
            | ModeA => default [] (files w !! output_file)
            end ++ (DataLine <$> rows)]> (files w)
      /\ opens w' = opens w ++ [(output_file, mode)].
Proof.
  cbv zeta. unfold process_vehicle_data.
  set (inspected :=
         if debug && py_truthy json_list
         then debug_inspect json_list listing_type w else (w, Ok tt)).
  assert (Hin : files (fst inspected) = files w
                /\ opens (fst inspected) = opens w).
  { subst inspected. destruct (debug && py_truthy json_list); [|auto].
    unfold debug_inspect.
    destruct (py_getitem0 json_list) as [[]|]; auto. }
  destruct inspected as [w0 [[]|e]]; cbn [fst] in Hin; destruct Hin as [Hf0 Ho0].
  2:{ left. auto. }
  right.
  destruct (open_and_header output_file mode w0) as (Hf & Ho & _).
  cbv zeta in Hf, Ho.
  set (w2 := match mode with
             | ModeW => write_line output_file (HeaderLine headers)
                          (open_file output_file mode w0)
             | ModeA => open_file output_file mode w0
             end) in *.
  rewrite Hf0 in Hf. rewrite Ho0 in Ho.
  set (base := match mode with
               | ModeW => [HeaderLine headers]
               | ModeA => default [] (files w !! output_file)
               end) in *.
  destruct (py_iter json_list) as [items|e].
  2:{ cbn [fst]. exists []. cbn. rewrite app_nil_r. auto. }
  destruct (for_items_files rt listing_type output_file debug items
              {| loop_world := w2; processed_count := 0; ad_number := None |}
              base) as [(rows & Hf1) Ho1].
  { cbn [loop_world]. rewrite Hf. apply lookup_insert_eq. }
  cbv zeta in Hf1, Ho1. cbn [loop_world] in Hf1, Ho1.
  exists rows.
  destruct (for_items _ _ _ _ _ _) as [st [[]|e]]; cbn [fst] in *.
  - assert (Hsame :
        files (if 0 <? processed_count st
               then print (Processed (processed_count st)) (loop_world st)
               else loop_world st) = files (loop_world st)
        /\ opens (if 0 <? processed_count st
                  then print (Processed (processed_count st)) (loop_world st)
                  else loop_world st) = opens (loop_world st)).
    { destruct (0 <? processed_count st); auto. }
    destruct Hsame as [-> ->].
    rewrite Hf1, Hf, insert_insert_eq, Ho1, Ho. auto.
  - rewrite Hf1, Hf, insert_insert_eq, Ho1, Ho. auto.
Qed.

(** A property of the files and of the record of [open]s only. *)
Lemma header_once_same (path : pystr) (w0 w w' : world) :
  files w' = files w -> opens w' = opens w ->
  header_once path w0 w -> header_once path w0 w'.
Proof. unfold header_once. intros -> ->. auto. Qed.

(** A write in the mode lines 178, 185, 191 and 197 choose. *)
Lemma write_keeps_header_once (rt : runtime) (json_list : json)
    (listing_type path : pystr) (debug : bool) (w0 w : world) :
  header_once path w0 w ->
  header_once path w0
    (fst (process_vehicle_data rt json_list listing_type path
            (if path_exists path w then ModeA else ModeW) debug w)).
Proof.
  intros Hinv.
  destruct (process_vehicle_data_files rt json_list listing_type path
              (if path_exists path w then ModeA else ModeW) debug w)
    as [[Hf Ho] | (rows & Hf & Ho)]; cbv zeta in Hf, Ho.
  { exact (header_once_same _ _ _ _ Hf Ho Hinv). }
  destruct Hinv as (new_opens & Hopens & [[-> Hnone] | (n & rows0 & -> & Hsome)]).
  - assert (Hex : path_exists path w = false).
    { unfold path_exists. rewrite Hnone. apply bool_decide_eq_false_2.
      intros [x Hx]; discriminate. }
    rewrite Hex in Hf, Ho |- *.
    exists [(path, ModeW)]. split.
    { rewrite Ho, Hopens, app_nil_r. reflexivity. }
    right. exists 0%nat, rows. split; [reflexivity|].
    rewrite Hf. apply lookup_insert_eq.
  - assert (Hex : path_exists path w = true).
    { unfold path_exists. rewrite Hsome. apply bool_decide_eq_true_2. eauto. }
    rewrite Hex in Hf, Ho |- *. rewrite Hsome in Hf. cbn [default from_option id] in Hf.
    exists ((path, ModeW) :: repeat (path, ModeA) (S n)). split.
    { rewrite Ho, Hopens, <- app_assoc. f_equal. cbn [app]. f_equal.
      symmetry. apply (repeat_cons n (path, ModeA)). }
    right. exists (S n), (rows0 ++ rows). split; [reflexivity|].
    rewrite Hf, lookup_insert_eq, fmap_app. reflexivity.
Qed.

Lemma keeps_and_then {A B : Type} (I : world -> Prop) (m : action A)
    (k : A -> action B) :
  keeps I m -> (forall a, keeps I (k a)) -> keeps I (and_then m k).
Proof.
  intros Hm Hk s Hs. unfold and_then.
  specialize (Hm s Hs).
  destruct (m s) as [s' [a|e]]; cbn [fst] in *; [|exact Hm].
  exact (Hk a s' Hm).
Qed.

Lemma keeps_eval {A : Type} (I : world -> Prop) (r : result A) :
  keeps I (eval r).
Proof. intros s Hs. exact Hs. Qed.

Lemma keeps_set_debug (I : world -> Prop) (b : bool) : keeps I (set_debug b).
Proof. intros s Hs. exact Hs. Qed.

(** Lines 177-180 for the commercial listings, 184-186, 190-192 and
    196-198 for the others. *)
Lemma keeps_commercial (rt : runtime) (path : pystr) (w0 : world)
    (json_list : json) (listing_type : pystr) :
  keeps (header_once path w0)
    (and_then (choose_mode path) (fun mode =>
     and_then get_debug (fun debug =>
     and_then (on_world (process_vehicle_data rt json_list listing_type path
                           mode debug)) (fun _ =>
     set_debug false)))).
Proof.
  intros [w debug] Hs. cbn [fst] in Hs.
  unfold and_then, choose_mode, get_debug, on_world, set_debug. cbn [fst snd].
  pose proof (write_keeps_header_once rt json_list listing_type path debug
                w0 w Hs) as H.
  destruct (process_vehicle_data _ _ _ _ _ _ _) as [w' [[]|e]]; exact H.
Qed.

Lemma keeps_other (rt : runtime) (path : pystr) (w0 : world)
    (json_list : json) (listing_type : pystr) :
  keeps (header_once path w0)
    (and_then (choose_mode path) (fun mode =>
     on_world (process_vehicle_data rt json_list listing_type path mode false))).
Proof.
  intros [w debug] Hs. cbn [fst] in Hs.
  unfold and_then, choose_mode, on_world. cbn [fst snd].
  pose proof (write_keeps_header_once rt json_list listing_type path false
                w0 w Hs) as H.
  destruct (process_vehicle_data _ _ _ _ _ _ _) as [w' [[]|e]]; exact H.
Qed.

Lemma keeps_process_file (rt : runtime) (path : pystr) (w0 : world)
    (e : dir_entry) :
  keeps (header_once path w0) (process_file rt path e).
Proof.
  unfold process_file. destruct (entry_content e); [apply keeps_eval|].
  apply keeps_and_then.
  { intros s Hs. unfold on_world. cbn [fst].
    exact (header_once_same _ _ _ _ eq_refl eq_refl Hs). }
  intros _.
  repeat first
    [ apply keeps_eval
    | apply keeps_set_debug
    | apply keeps_commercial
    | apply keeps_other
    | apply keeps_and_then
    | match goal with
      | |- forall _, keeps _ _ => intros ?
      | |- keeps _ (if ?c then _ else _) => destruct c
      end ].
Qed.

Lemma for_files_header_once (rt : runtime) (path : pystr) (w0 : world)
    (entries : list dir_entry) :
  forall s, header_once path w0 (fst s) ->
            header_once path w0 (fst (for_files rt path entries s)).
Proof.
  induction entries as [|e entries IH]; intros s Hs; [exact Hs|].
  cbn [for_files]. apply IH.
  destruct (ends_with _ _ && str_contains _ _); [|exact Hs].
  pose proof (keeps_process_file rt path w0 e s Hs) as H.
  destruct (process_file rt path e s) as [s' [[]|err]]; cbn [fst] in *;
    [exact H|].
  exact (header_once_same _ _ _ _ eq_refl eq_refl H).
Qed.

(** A category list, when it is not empty, is written in the mode that
    fits the file: after the call the file holds the header, if it was not
    there, what it held, and the rows of the list. *)
Lemma write_category (rt : runtime) (items : list (gmap pystr json))
    (listing_type path : pystr) (debug : bool) (w : world) :
  exists w',
    process_vehicle_data rt (dicts items) listing_type path
      (if path_exists path w then ModeA else ModeW) debug w = (w', Ok tt)
    /\ files w' !! path
       = Some (default [HeaderLine headers] (files w !! path)
               ++ (DataLine <$> rows_of rt listing_type items)).
Proof.
  destruct (process_vehicle_data_dicts rt items listing_type path
              (if path_exists path w then ModeA else ModeW) debug w)
    as (w' & msgs & H & Hf & _).
  exists w'. split; [exact H|]. rewrite Hf, lookup_insert_eq.
  unfold path_exists. destruct (files w !! path) as [old|] eqn:E.
  - rewrite bool_decide_eq_true_2 by eauto. reflexivity.
  - rewrite bool_decide_eq_false_2 by (intros [x Hx]; discriminate).
    reflexivity.
Qed.

Lemma py_truthy_dicts (items : list (gmap pystr json)) :
  py_truthy (dicts items) = negb (bool_decide (items = [])).
Proof. destruct items; reflexivity. Qed.

Lemma listings_of_page_data (listings : json) :
  listings_of (page_data listings) = Ok listings.
Proof. reflexivity. Qed.

Lemma page_categories (p : page) :
  let listings :=
    JObj (list_to_map
            [(lit "commercial", dicts (commercial p));
             (lit "private", dicts (private p));
             (lit "solo", dicts (solo p));
             (lit "platinum", dicts (platinum p))]) in
  py_get listings (lit "commercial") (JList []) = Ok (dicts (commercial p))
  /\ py_get listings (lit "private") (JList []) = Ok (dicts (private p))
  /\ py_get listings (lit "solo") (JList []) = Ok (dicts (solo p))
  /\ py_get listings (lit "platinum") (JList []) = Ok (dicts (platinum p)).
Proof. repeat split. Qed.

Lemma and_then_Ok {A B : Type} (m : action A) (k : A -> action B)
    (s s' : dir_state) (a : A) :
  m s = (s', Ok a) -> and_then m k s = k a s'.
Proof. intros H. unfold and_then. rewrite H. reflexivity. Qed.

(** Lines 177-180. *)
Lemma commercial_block (rt : runtime) (path : pystr)
    (items : list (gmap pystr json)) (s : dir_state) :
  exists s',
    (if py_truthy (dicts items)
     then
       and_then (choose_mode path) (fun mode =>
       and_then get_debug (fun debug =>
       and_then (on_world (process_vehicle_data rt (dicts items)
                             (lit "commercial") path mode debug)) (fun _ =>
       set_debug false)))
     else eval (Ok tt)) s = (s', Ok tt)
    /\ files (fst s') !! path
       = accumulate (files (fst s) !! path)
           [(negb (bool_decide (items = [])),
             rows_of rt (lit "commercial") items)].
Proof.
  rewrite py_truthy_dicts. destruct s as [w debug].
  destruct (bool_decide (items = [])); cbn [negb accumulate fst].
  - exists (w, debug). auto.
  - destruct (write_category rt items (lit "commercial") path debug w)
      as (w' & H & Hf).
    exists (w', false).
    unfold and_then, choose_mode, get_debug, on_world, set_debug.
    cbn [fst snd]. rewrite H. auto.
Qed.

(** Lines 184-186, 190-192 and 196-198. *)
Lemma other_block (rt : runtime) (path listing_type : pystr)
    (items : list (gmap pystr json)) (s : dir_state) :
  exists s',
    (if py_truthy (dicts items)
     then
       and_then (choose_mode path) (fun mode =>
       on_world (process_vehicle_data rt (dicts items) listing_type path
                   mode false))
     else eval (Ok tt)) s = (s', Ok tt)
    /\ files (fst s') !! path
       = accumulate (files (fst s) !! path)
           [(negb (bool_decide (items = [])), rows_of rt listing_type items)].
Proof.
  rewrite py_truthy_dicts. destruct s as [w debug].
  destruct (bool_decide (items = [])); cbn [negb accumulate fst].
  - exists (w, debug). auto.
  - destruct (write_category rt items listing_type path false w)
      as (w' & H & Hf).
    exists (w', debug).
    unfold and_then, choose_mode, on_world. cbn [fst snd]. rewrite H. auto.
Qed.

(** The batches of a page. *)
Lemma process_file_page (rt : runtime) (path : pystr) (named : pystr * page)
    (s : dir_state) :
  exists s',
    process_file rt path (page_entry named) s = (s', Ok tt)
    /\ files (fst s') !! path
       = accumulate (files (fst s) !! path)
           [(negb (bool_decide (commercial (snd named) = [])),
             rows_of rt (lit "commercial") (commercial (snd named)));
            (negb (bool_decide (private (snd named) = [])),
             rows_of rt (lit "private") (private (snd named)));
            (negb (bool_decide (solo (snd named) = [])),
             rows_of rt (lit "solo") (solo (snd named)));
            (negb (bool_decide (platinum (snd named) = [])),
             rows_of rt (lit "platinum") (platinum (snd named)))].
Proof.
  destruct named as [name p]. cbn [snd].
  unfold process_file, page_entry. cbn [entry_content entry_name fst snd].
  unfold page_json.
  destruct (page_categories p) as (Hc & Hp & Hs & Hpl). cbv zeta in Hc, Hp, Hs, Hpl.
  set (listings := JObj _) in *.
  set (s0 := (print (ProcessingFile name) (fst s), snd s)).
  destruct (commercial_block rt path (commercial p) s0) as (s1 & H1 & F1).
  destruct (other_block rt path (lit "private") (private p) s1) as (s2 & H2 & F2).
  destruct (other_block rt path (lit "solo") (solo p) s2) as (s3 & H3 & F3).
  destruct (other_block rt path (lit "platinum") (platinum p) s3) as (s4 & H4 & F4).
  exists s4. split.
  - rewrite (and_then_Ok _ _ s s0 tt) by reflexivity.
    rewrite (and_then_Ok _ _ s0 s0 (page_data listings)) by reflexivity.
    rewrite (and_then_Ok _ _ s0 s0 listings)
      by (unfold eval; rewrite listings_of_page_data; reflexivity).
    rewrite (and_then_Ok _ _ s0 s0 (dicts (commercial p)))
      by (unfold eval; rewrite Hc; reflexivity).
    rewrite (and_then_Ok _ _ s0 s1 tt) by exact H1.
    rewrite (and_then_Ok _ _ s1 s1 (dicts (private p)))
      by (unfold eval; rewrite Hp; reflexivity).
    rewrite (and_then_Ok _ _ s1 s2 tt) by exact H2.
    rewrite (and_then_Ok _ _ s2 s2 (dicts (solo p)))
      by (unfold eval; rewrite Hs; reflexivity).
    rewrite (and_then_Ok _ _ s2 s3 tt) by exact H3.
    rewrite (and_then_Ok _ _ s3 s3 (dicts (platinum p)))
      by (unfold eval; rewrite Hpl; reflexivity).
    exact H4.
  - rewrite F4, F3, F2, F1. reflexivity.
Qed.

Lemma for_files_pages (rt : runtime) (path : pystr)
    (pages : list (pystr * page)) :
  forall s,
    files (fst (for_files rt path (page_entry <$> pages) s)) !! path
    = accumulate (files (fst s) !! path)
        (concat (page_batches rt <$> selected_pages rt pages)).
Proof.
  induction pages as [|named pages IH]; intros s; [reflexivity|].
  cbn [fmap list_fmap for_files]. fold (fmap (M:=list) page_entry pages).
  rewrite IH. unfold selected_pages. cbn [List.filter].
  change (entry_name (page_entry named)) with (fst named).
  fold (selected rt (fst named)).
  destruct (selected rt (fst named)); [|reflexivity].
  destruct (process_file_page rt path named s) as (s' & H & Hf).
  rewrite H. cbn [fmap list_fmap concat].
  fold (fmap (M:=list) (@snd pystr page)
          (List.filter (fun named => selected rt (fst named)) pages)).
  rewrite Hf. unfold page_batches at 2. cbn [app accumulate]. reflexivity.
Qed.

(** Batches that are not written have no rows. *)
Lemma unwritten_no_rows (batches : list (bool * list Row.t)) :
  Forall (fun b => fst b = false -> snd b = []) batches ->
  existsb fst batches = false ->
  concat (snd <$> batches) = [].
Proof.
  induction 1 as [|[written rows] batches Hb _ IH]; [reflexivity|].
  cbn [existsb fst]. intros H. apply orb_false_elim in H as [-> H].
  cbn [fmap list_fmap concat snd]. cbn [fst snd] in Hb.
  rewrite (Hb eq_refl). exact (IH H).
Qed.

(** Batches written in turn to a file. *)
Lemma accumulate_all (batches : list (bool * list Row.t)) :
  Forall (fun b => fst b = false -> snd b = []) batches ->
  forall old,
    accumulate old batches
    = if existsb fst batches
      then Some (default [HeaderLine headers] old
                 ++ (DataLine <$> concat (snd <$> batches)))
      else old.
Proof.
  induction 1 as [|[written rows] batches Hb Hall IH]; intros old;
    [reflexivity|].
  cbn [accumulate existsb fst fmap list_fmap concat snd].
  fold (fmap (M:=list) (@snd bool (list Row.t)) batches).
  rewrite IH. cbn [fst snd] in Hb. destruct written; cbn [orb].
  - cbn [default from_option id]. rewrite fmap_app, app_assoc.
    destruct (existsb fst batches) eqn:E; [reflexivity|].
    rewrite (unwritten_no_rows _ Hall E). cbn. rewrite app_nil_r. reflexivity.
  - rewrite (Hb eq_refl). reflexivity.
Qed.

Lemma page_batches_unwritten (rt : runtime) (p : page) :
  Forall (fun b => fst b = false -> snd b = []) (page_batches rt p).
Proof.
  unfold page_batches.
  repeat constructor; cbn [fst snd]; intros H;
    apply negb_false_iff, bool_decide_eq_true in H; rewrite H; reflexivity.
Qed.

Lemma page_batches_written (rt : runtime) (p : page) :
  existsb fst (page_batches rt p) = has_listing p.
Proof.
  unfold page_batches, has_listing. cbn [existsb fst].
  destruct (commercial p), (private p), (solo p), (platinum p); reflexivity.
Qed.

Lemma page_batches_rows (rt : runtime) (p : page) :
  concat (snd <$> page_batches rt p) = page_rows rt p.
Proof.
  unfold page_batches, page_rows. cbn [fmap list_fmap concat snd].
  rewrite app_nil_r. reflexivity.
Qed.

Lemma batches_of_pages (rt : runtime) (pages : list page) :
  Forall (fun b => fst b = false -> snd b = [])
    (concat (page_batches rt <$> pages))
  /\ existsb fst (concat (page_batches rt <$> pages)) = existsb has_listing pages
  /\ concat (snd <$> concat (page_batches rt <$> pages))
     = concat (page_rows rt <$> pages).
Proof.
  induction pages as [|p pages (IH1 & IH2 & IH3)].
  - repeat split. constructor.
  - cbn [fmap list_fmap concat]. fold (fmap (M:=list) (page_batches rt) pages).
    fold (fmap (M:=list) (page_rows rt) pages).
    split; [|split].
    + apply Forall_app. split; [apply page_batches_unwritten|exact IH1].
    + rewrite existsb_app, IH2, page_batches_written. reflexivity.
    + rewrite fmap_app, concat_app, IH3, page_batches_rows. reflexivity.
Qed.

Lemma accumulate_app (batches1 batches2 : list (bool * list Row.t)) :
  forall old,
    accumulate old (batches1 ++ batches2)
    = accumulate (accumulate old batches1) batches2.
Proof.
  induction batches1 as [|[written rows] batches1 IH]; intros old;
    [reflexivity|].
  cbn [app accumulate]. apply IH.
Qed.

Lemma accumulate_present (batches : list (bool * list Row.t)) :
  forall old,
    bool_decide (is_Some (accumulate old batches))
    = bool_decide (is_Some old) || existsb fst batches.
Proof.
  induction batches as [|[written rows] batches IH]; intros old.
  - cbn [accumulate existsb]. rewrite orb_false_r. reflexivity.
  - cbn [accumulate existsb fst]. rewrite IH. destruct written; cbn [orb].
    + rewrite bool_decide_eq_true_2 by eauto. rewrite orb_true_r. reflexivity.
    + reflexivity.
Qed.

Lemma batch_modes_app (batches1 batches2 : list (bool * list Row.t)) :
  forall present,
    batch_modes present (batches1 ++ batches2)
    = batch_modes present batches1
      ++ batch_modes (present || existsb fst batches1) batches2.
Proof.
  induction batches1 as [|[written rows] batches1 IH]; intros present.
  - cbn [app batch_modes existsb]. rewrite orb_false_r. reflexivity.
  - cbn [app batch_modes existsb fst]. destruct written; cbn [orb].
    + rewrite IH. cbn [orb app]. rewrite orb_true_r. reflexivity.
    + apply IH.
Qed.

Lemma written_in_turn_nothing (path : pystr) (w w' : world) :
  files w' = files w -> opens w' = opens w -> written_in_turn path w w' [].
Proof.
  intros Hf Ho. split; cbn [accumulate batch_modes fmap list_fmap].
  - rewrite Hf. reflexivity.
  - rewrite Ho, app_nil_r. reflexivity.
Qed.

Lemma written_in_turn_app (path : pystr) (w w1 w2 : world)
    (batches1 batches2 : list (bool * list Row.t)) :
  written_in_turn path w w1 batches1 ->
  written_in_turn path w1 w2 batches2 ->
  written_in_turn path w w2 (batches1 ++ batches2).
Proof.
  intros [Hf1 Ho1] [Hf2 Ho2]. split.
  - rewrite accumulate_app, <- Hf1. exact Hf2.
  - assert (Hp : path_exists path w1
                 = path_exists path w || existsb fst batches1)
      by (unfold path_exists; rewrite Hf1; apply accumulate_present).
    rewrite Ho2, Ho1, Hp, batch_modes_app, fmap_app, <- app_assoc.
    reflexivity.
Qed.

(** A category list that is not empty, written in the mode that fits the
    file. *)
Lemma write_category_in_turn (rt : runtime) (items : list (gmap pystr json))
    (listing_type path : pystr) (debug : bool) (w : world) :
  exists w',
    process_vehicle_data rt (dicts items) listing_type path
      (if path_exists path w then ModeA else ModeW) debug w = (w', Ok tt)
    /\ written_in_turn path w w' [(true, rows_of rt listing_type items)].
Proof.
  destruct (process_vehicle_data_dicts rt items listing_type path
              (if path_exists path w then ModeA else ModeW) debug w)
    as (w' & msgs & H & Hf & Ho & _).
  exists w'. split; [exact H|]. split.
  - rewrite Hf, lookup_insert_eq. cbn [accumulate].
    unfold path_exists. destruct (files w !! path) as [old|] eqn:E.
    + rewrite bool_decide_eq_true_2 by eauto. reflexivity.
    + rewrite bool_decide_eq_false_2 by (intros [x Hx]; discriminate).
      reflexivity.
  - rewrite Ho. cbn [batch_modes fmap list_fmap].
    destruct (path_exists path w); reflexivity.
Qed.

(** Lines 177-180. *)
Lemma commercial_in_turn (rt : runtime) (path : pystr)
    (items : list (gmap pystr json)) (s : dir_state) :
  exists s',
    (if py_truthy (dicts items)
     then
       and_then (choose_mode path) (fun mode =>
       and_then get_debug (fun debug =>
       and_then (on_world (process_vehicle_data rt (dicts items)
                             (lit "commercial") path mode debug)) (fun _ =>
       set_debug false)))
     else eval (Ok tt)) s = (s', Ok tt)
    /\ written_in_turn path (fst s) (fst s')
         [(negb (bool_decide (items = [])),
           rows_of rt (lit "commercial") items)].
Proof.
  rewrite py_truthy_dicts. destruct s as [w debug].
  destruct (bool_decide (items = [])); cbn [negb fst].
  - exists (w, debug). split; [reflexivity|].
    split; cbn [accumulate batch_modes fmap list_fmap fst];
      [reflexivity|symmetry; apply app_nil_r].
  - destruct (write_category_in_turn rt items (lit "commercial") path debug w)
      as (w' & H & Ht).
    exists (w', false).
    unfold and_then, choose_mode, get_debug, on_world, set_debug.
    cbn [fst snd]. rewrite H. auto.
Qed.

(** Lines 184-186, 190-192 and 196-198. *)
Lemma other_in_turn (rt : runtime) (path listing_type : pystr)
    (items : list (gmap pystr json)) (s : dir_state) :
  exists s',
    (if py_truthy (dicts items)
     then
       and_then (choose_mode path) (fun mode =>
       on_world (process_vehicle_data rt (dicts items) listing_type path
                   mode false))
     else eval (Ok tt)) s = (s', Ok tt)
    /\ written_in_turn path (fst s) (fst s')
         [(negb (bool_decide (items = [])), rows_of rt listing_type items)].
Proof.
  rewrite py_truthy_dicts. destruct s as [w debug].
  destruct (bool_decide (items = [])); cbn [negb fst].
  - exists (w, debug). split; [reflexivity|].
    split; cbn [accumulate batch_modes fmap list_fmap fst];
      [reflexivity|symmetry; apply app_nil_r].
  - destruct (write_category_in_turn rt items listing_type path false w)
      as (w' & H & Ht).
    exists (w', debug).
    unfold and_then, choose_mode, on_world. cbn [fst snd]. rewrite H. auto.
Qed.

(** The four lists of a page. *)
Lemma process_file_in_turn (rt : runtime) (path : pystr)
    (named : pystr * page) (s : dir_state) :
  exists s',
    process_file rt path (page_entry named) s = (s', Ok tt)
    /\ written_in_turn path (fst s) (fst s') (page_batches rt (snd named)).
Proof.
  destruct named as [name p]. cbn [snd].
  unfold process_file, page_entry. cbn [entry_content entry_name fst snd].
  unfold page_json.
  destruct (page_categories p) as (Hc & Hp & Hs & Hpl). cbv zeta in Hc, Hp, Hs, Hpl.
  set (listings := JObj _) in *.
  set (s0 := (print (ProcessingFile name) (fst s), snd s)).
  destruct (commercial_in_turn rt path (commercial p) s0) as (s1 & H1 & T1).
  destruct (other_in_turn rt path (lit "private") (private p) s1) as (s2 & H2 & T2).
  destruct (other_in_turn rt path (lit "solo") (solo p) s2) as (s3 & H3 & T3).
  destruct (other_in_turn rt path (lit "platinum") (platinum p) s3) as (s4 & H4 & T4).
  exists s4. split.
  - rewrite (and_then_Ok _ _ s s0 tt) by reflexivity.
    rewrite (and_then_Ok _ _ s0 s0 (page_data listings)) by reflexivity.
    rewrite (and_then_Ok _ _ s0 s0 listings)
      by (unfold eval; rewrite listings_of_page_data; reflexivity).
    rewrite (and_then_Ok _ _ s0 s0 (dicts (commercial p)))
      by (unfold eval; rewrite Hc; reflexivity).
    rewrite (and_then_Ok _ _ s0 s1 tt) by exact H1.
    rewrite (and_then_Ok _ _ s1 s1 (dicts (private p)))
      by (unfold eval; rewrite Hp; reflexivity).
    rewrite (and_then_Ok _ _ s1 s2 tt) by exact H2.
    rewrite (and_then_Ok _ _ s2 s2 (dicts (solo p)))
      by (unfold eval; rewrite Hs; reflexivity).
    rewrite (and_then_Ok _ _ s2 s3 tt) by exact H3.
    rewrite (and_then_Ok _ _ s3 s3 (dicts (platinum p)))
      by (unfold eval; rewrite Hpl; reflexivity).
    exact H4.
  - assert (T0 : written_in_turn path (fst s) (fst s0) [])
      by (apply written_in_turn_nothing; reflexivity).
    pose proof (written_in_turn_app _ _ _ _ _ _ T0
                  (written_in_turn_app _ _ _ _ _ _ T1
                     (written_in_turn_app _ _ _ _ _ _ T2
                        (written_in_turn_app _ _ _ _ _ _ T3 T4)))) as T.
    exact T.
Qed.

Lemma for_files_in_turn (rt : runtime) (path : pystr)
    (pages : list (pystr * page)) :
  forall s,
    written_in_turn path (fst s)
      (fst (for_files rt path (page_entry <$> pages) s))
      (concat (page_batches rt <$> selected_pages rt pages)).
Proof.
  induction pages as [|named pages IH]; intros s.
  - apply written_in_turn_nothing; reflexivity.
  - cbn [fmap list_fmap for_files]. fold (fmap (M:=list) page_entry pages).
    unfold selected_pages. cbn [List.filter].
    change (entry_name (page_entry named)) with (fst named).
    fold (selected rt (fst named)).
    destruct (selected rt (fst named)); [|apply IH].
    destruct (process_file_in_turn rt path named s) as (s' & H & T).
    rewrite H. cbn [fmap list_fmap concat].
    fold (fmap (M:=list) (@snd pystr page)
            (List.filter (fun named => selected rt (fst named)) pages)).
    exact (written_in_turn_app _ _ _ _ _ _ T (IH s')).
Qed.

(** The modes of batches written to a file that is not there: the first
    creates it, the others append. *)
Lemma batch_modes_count (batches : list (bool * list Row.t)) :
  (forall present,
     batch_modes present batches
     = match length (List.filter fst batches) with
       | O => []
       | S n => (if present then ModeA else ModeW) :: repeat ModeA n
       end).
Proof.
  induction batches as [|[written rows] batches IH]; intros present;
    [reflexivity|].
  cbn [batch_modes List.filter fst]. destruct written; [|apply IH].
  cbn [length]. rewrite IH. destruct (length (List.filter fst batches));
    reflexivity.
Qed.

(** The lists written are the category lists that are not empty. *)
Lemma written_count (rt : runtime) (pages : list page) :
  length (List.filter fst (concat (page_batches rt <$> pages)))
  = sum_list (lists_written <$> pages).
Proof.
  induction pages as [|p pages IH]; [reflexivity|].
  cbn [fmap list_fmap concat sum_list sum_list_with].
  fold (fmap (M:=list) (page_batches rt) pages).
  fold (fmap (M:=list) lists_written pages).
  rewrite List.filter_app, length_app, IH. f_equal.
  unfold page_batches, lists_written. cbn [List.filter fst].
  destruct (negb (bool_decide (commercial p = []))),
    (negb (bool_decide (private p = []))),
    (negb (bool_decide (solo p = []))),
    (negb (bool_decide (platinum p = []))); reflexivity.
Qed.

Lemma written_some (batches : list (bool * list Row.t)) :
  existsb fst batches
  = negb (Nat.eqb (length (List.filter fst batches)) 0).
Proof.
  induction batches as [|[[|] rows] batches IH]; cbn; auto.
Qed.

(** C7 (amended): in a run of [process_directory] that finds no summary
    file, either no category list is written, and then the file is never
    opened and does not exist at the end (no header is written); or the
    first write opens it in mode ['w'] and every later write, of any
    category of any file, opens it in mode ['a'], and at the end the file
    holds the header row once, first, followed by rows of records only.
    When the files carry lists of records, the file is opened once for each
    category list of a selected file that is not empty, and it ends with the
    header row followed by the rows of the selected files in turn, category
    by category; without such a list it is not opened and does not exist. *)
Theorem header_written_once (rt : runtime) (directory_path : pystr)
    (debug : bool) (entries : list dir_entry) (w : world) :
  files w !! output_path_of directory_path = None ->
  let output_path := output_path_of directory_path in
  let w' := process_directory rt directory_path debug entries w in
  (exists new_opens,
     opens w' = opens w ++ new_opens
     /\ (new_opens = [] /\ files w' !! output_path = None
         \/ exists (n : nat) (rows : list Row.t),
             new_opens = (output_path, ModeW) :: repeat (output_path, ModeA) n
             /\ files w' !! output_path
                = Some (HeaderLine headers :: (DataLine <$> rows))))
  /\ forall pages : list (pystr * page),
      entries = page_entry <$> pages ->
      match sum_list (lists_written <$> selected_pages rt pages) with
      | O => opens w' = opens w /\ files w' !! output_path = None
      | S n =>
        opens w'
        = opens w ++ (output_path, ModeW) :: repeat (output_path, ModeA) n
        /\ files w' !! output_path
           = Some (HeaderLine headers
                   :: (DataLine
                         <$> concat (page_rows rt <$> selected_pages rt pages)))
      end.
Proof.
  intros Hnone. cbv zeta. split.
  - unfold process_directory.
    assert (H0 : header_once (output_path_of directory_path) w w).
    { exists []. split; [symmetry; apply app_nil_r|]. left. auto. }
    pose proof (for_files_header_once rt (output_path_of directory_path) w
                  entries (w, debug) H0) as H.
    exact (header_once_same _ _ _ _ eq_refl eq_refl H).
  - intros pages ->. unfold process_directory. cbn [print files opens].
    destruct (for_files_in_turn rt (output_path_of directory_path) pages
                (w, debug)) as [Hf Ho].
    cbn [fst] in Hf, Ho. rewrite Hf, Ho. clear Hf Ho.
    unfold path_exists. rewrite Hnone.
    rewrite bool_decide_eq_false_2 by (intros [x Hx]; discriminate).
    destruct (batches_of_pages rt (selected_pages rt pages)) as (H1 & H2 & H3).
    rewrite (accumulate_all _ H1), H3, batch_modes_count, written_some.
    rewrite written_count.
    destruct (sum_list (lists_written <$> selected_pages rt pages)) as [|n].
    + cbn. rewrite app_nil_r. auto.
    + cbn [Nat.eqb negb fmap list_fmap default from_option id app].
      split; [|reflexivity].
      f_equal. f_equal. induction n as [|n IH]; [reflexivity|].
      cbn [repeat fmap list_fmap]. f_equal. exact IH.
Qed.

(** The theorem at the third scenario of the specification: the file is
    created by the first file and appended to by the second, and holds the
    header and the rows of both. *)
Lemma header_written_once_witness :
  opens (process_directory example_runtime (lit "scraped_vehicles") true
           (page_entry <$> two_pages) empty_world)
  = [(lit "scraped_vehicles/scraped_vehicles_summary.csv", ModeW);
     (lit "scraped_vehicles/scraped_vehicles_summary.csv", ModeA)]
  /\ files (process_directory example_runtime (lit "scraped_vehicles") true
              (page_entry <$> two_pages) empty_world)
     !! lit "scraped_vehicles/scraped_vehicles_summary.csv"
     = Some (HeaderLine headers
             :: (DataLine
                   <$> (rows_of example_runtime (lit "commercial") [good_listing]
                        ++ rows_of example_runtime (lit "private") [good_listing]))).
Proof.
  pose proof (header_written_once example_runtime (lit "scraped_vehicles") true
                (page_entry <$> two_pages) empty_world eq_refl) as H.
  cbv zeta in H. destruct H as [_ H]. specialize (H two_pages eq_refl).
  assert (Hn : sum_list (lists_written
                           <$> selected_pages example_runtime two_pages)
               = 2%nat) by (vm_compute; reflexivity).
  rewrite Hn in H. destruct H as [Ho Hf].
  assert (Hp : output_path_of (lit "scraped_vehicles")
               = lit "scraped_vehicles/scraped_vehicles_summary.csv")
    by (vm_compute; reflexivity).
  rewrite Hp in Ho, Hf. split.
  - rewrite Ho. reflexivity.
  - rewrite Hf. vm_compute. reflexivity.
Defined.

(** The third scenario of the specification: two files of the day, one with
    a commercial listing, one with a private listing. *)
Lemma two_files_scenario :
  opens (process_directory example_runtime (lit "scraped_vehicles") true
           two_files empty_world)
  = [(lit "scraped_vehicles/scraped_vehicles_summary.csv", ModeW);
     (lit "scraped_vehicles/scraped_vehicles_summary.csv", ModeA)]
  /\ files (process_directory example_runtime (lit "scraped_vehicles") true
              two_files empty_world)
     !! lit "scraped_vehicles/scraped_vehicles_summary.csv"
     = Some (HeaderLine headers
             :: (DataLine <$> (rows_of example_runtime (lit "commercial") [good_listing]
                               ++ rows_of example_runtime (lit "private") [good_listing]))).
Proof. split; vm_compute; reflexivity. Qed.

(** C7 as stated fails: a run that finds nothing to write writes no
    header, and creates no file. *)
Lemma header_never_written :
  files empty_world !! output_path_of (lit "scraped_vehicles") = None
  /\ files (process_directory example_runtime (lit "scraped_vehicles") true
              empty_file empty_world)
     !! output_path_of (lit "scraped_vehicles") = None
  /\ opens (process_directory example_runtime (lit "scraped_vehicles") true
              empty_file empty_world) = []
  /\ stdout (process_directory example_runtime (lit "scraped_vehicles") true
               empty_file empty_world)
     = [ProcessingFile (lit "empty_26_11_03.html");
        OutputSaved (lit "scraped_vehicles/scraped_vehicles_summary.csv")].
Proof. repeat split; vm_compute; reflexivity. Qed.

(** X1: in a directory whose files carry lists of records, the summary
    file, if it did not exist, ends with the header row followed by the rows
    of the files of the day in the order of the listing, and within a file
    by category (commercial, private, solo, platinum), and within a category
    by record; nothing is left out and nothing is merged.  The file is not
    created when no file of the day has a listing. *)
Theorem rows_accumulate (rt : runtime) (directory_path : pystr) (debug : bool)
    (pages : list (pystr * page)) (w : world) :
  files w !! output_path_of directory_path = None ->
  files (process_directory rt directory_path debug (page_entry <$> pages) w)
    !! output_path_of directory_path
  = if existsb has_listing (selected_pages rt pages)
    then Some (HeaderLine headers
               :: (DataLine
                     <$> concat (page_rows rt <$> selected_pages rt pages)))
    else None.
Proof.
  intros Hnone. unfold process_directory. cbn [print files].
  rewrite for_files_pages. cbn [fst]. rewrite Hnone.
  destruct (batches_of_pages rt (selected_pages rt pages)) as (H1 & H2 & H3).
  rewrite (accumulate_all _ H1), H2, H3. reflexivity.
Qed.

(** The theorem at three files, one of which is of another day. *)
Lemma rows_accumulate_witness :
  files (process_directory example_runtime (lit "scraped_vehicles") true
           (page_entry <$> three_pages) empty_world)
    !! output_path_of (lit "scraped_vehicles")
  = Some (HeaderLine headers
          :: (DataLine
                <$> rows_of example_runtime (lit "commercial") [good_listing]
                    ++ rows_of example_runtime (lit "private") [good_listing])).
Proof.
  rewrite (rows_accumulate example_runtime (lit "scraped_vehicles") true
             three_pages empty_world eq_refl).
  vm_compute. reflexivity.
Defined.

(** X2: the link of a row is the fixed address followed by the text of the
    record's token, the token itself when it is a [str]. *)
Theorem link_from_token (rt : runtime) (listing_type : pystr)
    (item : gmap pystr json) (ad_number : json) (row : Row.t) :
  convert rt listing_type (JObj item) ad_number = Ok (Some row) ->
  exists token token_text,
    item !! lit "token" = Some token
    /\ py_str rt token = Ok token_text
    /\ Row.link row = lit "https://www.yad2.co.il/vehicles/item/" ++ token_text
    /\ (forall s, token = JStr s -> token_text = s).
Proof.
  intros H. apply convert_built in H as [v B].
  exists (l_token v), (l_token_text v).
  split; [exact (b_token _ _ _ _ _ _ B)|].
  split; [exact (b_token_text _ _ _ _ _ _ B)|].
  split; [exact (b_link _ _ _ _ _ _ B)|].
  intros s Hs. pose proof (b_token_text _ _ _ _ _ _ B) as Ht.
  rewrite Hs in Ht. cbn in Ht. congruence.
Qed.

(** The theorem at the listing of the first scenario. *)
Lemma link_from_token_witness :
  exists row token_text,
    convert example_runtime (lit "commercial") (JObj good_listing)
      (JStr (lit "abc123")) = Ok (Some row)
    /\ good_listing !! lit "token" = Some (JStr (lit "abc123"))
    /\ py_str example_runtime (JStr (lit "abc123")) = Ok token_text
    /\ Row.link row = lit "https://www.yad2.co.il/vehicles/item/" ++ token_text.
Proof.
  eexists.
  destruct (link_from_token example_runtime (lit "commercial") good_listing
              (JStr (lit "abc123")) _ ltac:(vm_compute; reflexivity))
    as (token & token_text & Ht & Hs & Hl & _).
  exists token_text. split; [vm_compute; reflexivity|].
  split; [reflexivity|].
  assert (token = JStr (lit "abc123")) as ->.
  { assert (E : good_listing !! lit "token" = Some (JStr (lit "abc123")))
      by reflexivity.
    congruence. }
  split; [exact Hs|exact Hl].
Defined.

(** The first scenario of the specification. *)
Theorem first_scenario :
  exists row,
    convert example_runtime (lit "commercial") (JObj good_listing)
      (JStr (lit "abc123")) = Ok (Some row)
    /\ Row.make row = JStr (lit "Toyota")
    /\ Row.model row = JStr (lit "Corolla")
    /\ Row.hp row = 132
    /\ Row.productionDate row = lit "2020-01-01"
    /\ Row.link row = lit "https://www.yad2.co.il/vehicles/item/abc123".
Proof.
  eexists. split; [vm_compute; reflexivity|].
  repeat split; vm_compute; reflexivity.
Qed.

(** X3: the second scenario of the specification: a record without
    [vehicleDates] gives no row and no failure; the file holds the header. *)
Theorem no_dates_no_row (rt : runtime) (item : gmap pystr json)
    (listing_type output_file : pystr) (debug : bool) (w : world) :
  item !! lit "vehicleDates" = None ->
  exists w',
    process_vehicle_data rt (dicts [item]) listing_type output_file ModeW
      debug w = (w', Ok tt)
    /\ files w' !! output_file = Some [HeaderLine headers].
Proof.
  intros Hnone.
  assert (Hskip : skip_policy item).
  { right; right. exists (lit "vehicleDates"). split; [|exact Hnone].
    cbn. auto. }
  assert (Hrow : row_of rt listing_type item = None).
  { unfold row_of. rewrite get_ad_number_dict.
    rewrite (proj2 (convert_continue_iff rt listing_type item _) Hskip).
    reflexivity. }
  destruct (process_vehicle_data_dicts rt [item] listing_type output_file
              ModeW debug w) as (w' & msgs & H & Hf & _).
  exists w'. split; [exact H|].
  rewrite Hf, lookup_insert_eq. unfold rows_of. cbn [omap list_omap].
  rewrite Hrow. reflexivity.
Qed.

(** The theorem at the listing of the second scenario. *)
Lemma no_dates_no_row_witness :
  exists w',
    process_vehicle_data example_runtime (dicts [dateless_listing])
      (lit "commercial") (lit "out.csv") ModeW true empty_world = (w', Ok tt)
    /\ files w' !! lit "out.csv" = Some [HeaderLine headers].
Proof.
  apply (no_dates_no_row example_runtime dateless_listing (lit "commercial")
           (lit "out.csv") true empty_world).
  reflexivity.
Defined.

(** *** [calculate_years_since_production] on every year *)

Lemma calculate_years_not_int (rt : runtime) (year : json) (month : Z) :
  (forall y, year <> JInt y) -> (forall b, year <> JBool b) ->
  calculate_years_since_production rt year month = Raise TypeError.
Proof.
  intros Hi Hb. destruct year; try reflexivity.
  - exfalso. exact (Hb _ eq_refl).
  - exfalso. exact (Hi _ eq_refl).
Qed.

(** X4: on a valid day and for a month in 1..12,
    [calculate_years_since_production] returns for exactly the [int] years
    1..9999, and then the number of days from the first of the production
    month to today, divided by 365.25; any other [int] year raises
    [ValueError] ([OverflowError] outside the range of a C [int]), and a
    year that is neither an [int] nor a [bool] raises [TypeError]. *)
Theorem calculate_years_defined (rt : runtime) (y month : Z) :
  valid_date (now rt) -> 1 <= month <= 12 ->
  (1 <= y <= 9999 ->
   exists days,
     float_of_int (ordinal (now rt) - ymd2ord y month 1) = Ok days
     /\ calculate_years_since_production rt (JInt y) month
        = Ok (PrimFloat.div days 365.25%float))
  /\ (~ 1 <= y <= 9999 ->
      calculate_years_since_production rt (JInt y) month
      = Raise (if (y <? - 2 ^ 31) || (2 ^ 31 <=? y)
               then OverflowError else ValueError))
  /\ (forall year,
        (forall z, year <> JInt z) -> (forall b, year <> JBool b) ->
        calculate_years_since_production rt year month = Raise TypeError).
Proof.
  intros (Hy & Hm & Hd) Hmonth. split; [|split].
  - intros Hyear.
    pose proof (ymd2ord_bounds _ _ _ Hy Hm Hd) as Hnow.
    pose proof (ymd2ord_bounds y month 1 Hyear Hmonth ltac:(lia)) as Hprod.
    destruct (float_of_int_defined (ordinal (now rt) - ymd2ord y month 1))
      as [days Hdays].
    { unfold ordinal.
      assert (2 ^ 23 <= 2 ^ 1023) by (apply Z.pow_le_mono_r; lia).
      change (2 ^ 23) with 8388608 in *. lia. }
    exists days. split; [exact Hdays|].
    unfold calculate_years_since_production, datetime_first.
    rewrite (proj2 (orb_false_iff _ _)) by (split; lia).
    rewrite (proj2 (andb_true_iff _ _)) by (repeat (rewrite andb_true_iff); lia).
    cbn [bind]. rewrite Hdays. cbn [bind]. unfold float_truediv.
    rewrite years_divisor_not_zero. reflexivity.
  - intros Hyear. unfold calculate_years_since_production, datetime_first.
    destruct ((y <? - 2 ^ 31) || (2 ^ 31 <=? y)); [reflexivity|].
    rewrite (proj2 (andb_false_iff _ _)); [reflexivity|].
    left. apply andb_false_iff. left. apply andb_false_iff. lia.
  - intros year Hi Hb. exact (calculate_years_not_int rt year month Hi Hb).
Qed.

(** The theorem on 3 November 2026, at the years 2020 and 0 and at a year
    given as text. *)
Lemma calculate_years_defined_witness :
  (exists days,
     float_of_int (ordinal (now example_runtime) - ymd2ord 2020 1 1) = Ok days
     /\ calculate_years_since_production example_runtime (JInt 2020) 1
        = Ok (PrimFloat.div days 365.25%float))
  /\ calculate_years_since_production example_runtime (JInt 0) 1
     = Raise ValueError
  /\ calculate_years_since_production example_runtime (JStr (lit "2020")) 1
     = Raise TypeError.
Proof.
  assert (Hnow : valid_date (now example_runtime))
    by (unfold valid_date; cbn; lia).
  destruct (calculate_years_defined example_runtime 2020 1 Hnow ltac:(lia))
    as (Hok & _ & Hty).
  destruct (calculate_years_defined example_runtime 0 1 Hnow ltac:(lia))
    as (_ & Hbad & _).
  split; [apply Hok; lia|]. split.
  - rewrite Hbad by lia. reflexivity.
  - apply Hty; discriminate.
Defined.

(** *** The columns of a row *)

(** X5: the ad number of a row is the record's [orderId] when it has one
    and its [token] otherwise; the default ['unknown'] of line 73 never
    reaches a row, since a record without a token gives none. *)
Theorem ad_number_of_row (rt : runtime) (listing_type : pystr)
    (item : gmap pystr json) (row : Row.t) :
  row_of rt listing_type item = Some row ->
  exists token,
    item !! lit "token" = Some token
    /\ Row.adNumber row = default token (item !! lit "orderId").
Proof.
  unfold row_of. rewrite get_ad_number_dict.
  destruct (convert _ _ _ _) as [[r|]|e] eqn:E; try discriminate.
  destruct (writerow rt r); [|discriminate].
  intros H; injection H as ->.
  apply convert_built in E as [v B].
  exists (l_token v). split; [exact (b_token _ _ _ _ _ _ B)|].
  rewrite (b_ad_number _ _ _ _ _ _ B), (b_token _ _ _ _ _ _ B). reflexivity.
Qed.

(** The theorem at a record with an [orderId]. *)
Lemma ad_number_of_row_witness :
  exists row token,
    row_of example_runtime (lit "commercial")
      (<[lit "orderId" := JInt 77]> good_listing) = Some row
    /\ (<[lit "orderId" := JInt 77]> good_listing) !! lit "token" = Some token
    /\ Row.adNumber row = JInt 77.
Proof.
  destruct (row_of example_runtime (lit "commercial")
              (<[lit "orderId" := JInt 77]> good_listing)) as [row|] eqn:E;
    [|vm_compute in E; discriminate E].
  destruct (ad_number_of_row example_runtime (lit "commercial") _ row E)
    as (token & Ht & Ha).
  exists row, token. split; [reflexivity|]. split; [exact Ht|].
  rewrite Ha. reflexivity.
Defined.

Lemma description_of_dict (item : gmap pystr json) (description : json) :
  description_of (JObj item) = Ok description ->
  match item !! lit "metaData" with
  | Some (JObj meta) => description = default (JStr []) (meta !! lit "description")
  | Some (JStr _) | Some (JList _) | None => description = JStr []
  | Some _ => False
  end.
Proof.
  unfold description_of. rewrite py_in_dict. cbn [bind py_getitem].
  destruct (item !! lit "metaData") as [meta|] eqn:Em.
  2:{ rewrite bool_decide_eq_false_2 by (intros [x Hx]; discriminate).
      intros H; injection H as <-. reflexivity. }
  rewrite bool_decide_eq_true_2 by eauto. cbn [bind].
  destruct meta as [ | b | z | f | s | l | meta]; cbn [py_in bind];
    try discriminate.
  - destruct (str_contains (lit "description") s); cbn [py_getitem bind];
      [discriminate|].
    intros H; injection H as <-. reflexivity.
  - match goal with
    | |- context [existsb ?f l] =>
      destruct (existsb f l); cbn [py_getitem bind]; [discriminate|]
    end.
    intros H; injection H as <-. reflexivity.
  - cbn [py_getitem].
    destruct (meta !! lit "description") as [d|] eqn:Ed.
    + rewrite bool_decide_eq_true_2 by eauto. cbn [bind].
      intros H; injection H as <-. reflexivity.
    + rewrite bool_decide_eq_false_2 by (intros [x Hx]; discriminate).
      intros H; injection H as <-. reflexivity.
Qed.

(** X6: the description of a row is [metaData.description] when
    [metaData] is a mapping that has one, and the empty string when the
    record has no [metaData], when [metaData] is a mapping without a
    description, and when it is a string or a list; with a [metaData] of any
    other type no row is built. *)
Theorem description_by_member (rt : runtime) (listing_type : pystr)
    (item : gmap pystr json) (ad_number : json) (row : Row.t) :
  convert rt listing_type (JObj item) ad_number = Ok (Some row) ->
  match item !! lit "metaData" with
  | Some (JObj meta) =>
    Row.description row = default (JStr []) (meta !! lit "description")
  | Some (JStr _) | Some (JList _) | None => Row.description row = JStr []
  | Some _ => False
  end.
Proof.
  intros H. apply convert_built in H as [v B].
  apply description_of_dict. exact (b_description _ _ _ _ _ _ B).
Qed.

(** The theorem at a record with a description. *)
Lemma description_by_member_witness :
  exists row,
    convert example_runtime (lit "commercial")
      (JObj (<[lit "metaData" := member "description" (JStr (lit "one owner"))]>
               good_listing))
      (JStr (lit "abc123")) = Ok (Some row)
    /\ Row.description row = JStr (lit "one owner").
Proof.
  destruct (convert example_runtime (lit "commercial")
              (JObj (<[lit "metaData" := member "description"
                                          (JStr (lit "one owner"))]>
                       good_listing))
              (JStr (lit "abc123"))) as [[row|]|e] eqn:E;
    [|vm_compute in E; discriminate E..].
  exists row. split; [reflexivity|].
  pose proof (description_by_member _ _ _ _ _ E) as H.
  vm_compute in H. exact H.
Defined.

(** X7: a row copies from its record: [price], which is not zero;
    [adType], the empty string when the record has none; and the texts of
    [model], of [manufacturer] (the column [make]) and of [subModel], the
    last of which is a [str]. *)
Theorem copied_columns (rt : runtime) (listing_type : pystr)
    (item : gmap pystr json) (ad_number : json) (row : Row.t) :
  convert rt listing_type (JObj item) ad_number = Ok (Some row) ->
  item !! lit "price" = Some (Row.price row)
  /\ py_eq_zero (Row.price row) = false
  /\ Row.adType row = default (JStr []) (item !! lit "adType")
  /\ lookup_path [lit "model"; lit "text"] (JObj item) = Some (Row.model row)
  /\ lookup_path [lit "manufacturer"; lit "text"] (JObj item)
     = Some (Row.make row)
  /\ lookup_path [lit "subModel"; lit "text"] (JObj item)
     = Some (Row.subModel row)
  /\ exists text, Row.subModel row = JStr text.
Proof.
  intros H. apply convert_built in H as [v B].
  split; [exact (b_price _ _ _ _ _ _ B)|].
  split; [exact (b_price_nonzero _ _ _ _ _ _ B)|].
  split; [exact (b_ad_type _ _ _ _ _ _ B)|].
  assert (Hpath : forall k x t,
             item !! k = Some x -> py_getitem x (lit "text") = Ok t ->
             lookup_path [k; lit "text"] (JObj item) = Some t).
  { intros k x t Hk Ht. cbn [lookup_path]. rewrite Hk.
    apply py_getitem_Ok in Ht as (m & -> & Hm). rewrite Hm. reflexivity. }
  split; [exact (Hpath _ _ _ (b_model _ _ _ _ _ _ B) (b_model_text _ _ _ _ _ _ B))|].
  split; [exact (Hpath _ _ _ (b_manufacturer _ _ _ _ _ _ B)
                   (b_make _ _ _ _ _ _ B))|].
  split; [exact (Hpath _ _ _ (b_sub_model _ _ _ _ _ _ B)
                   (b_sub_model_text _ _ _ _ _ _ B))|].
  destruct (extract_hp_Ok _ _ (b_hp _ _ _ _ _ _ B)) as (text & Et & _).
  eauto.
Qed.

(** The theorem at the listing of the first scenario. *)
Lemma copied_columns_witness :
  exists row,
    convert example_runtime (lit "commercial") (JObj good_listing)
      (JStr (lit "abc123")) = Ok (Some row)
    /\ Row.price row = JInt 50000
    /\ Row.adType row = JStr []
    /\ Row.model row = JStr (lit "Corolla")
    /\ Row.make row = JStr (lit "Toyota")
    /\ Row.subModel row = JStr (lit "1.8 132 כ״ס").
Proof.
  destruct (convert example_runtime (lit "commercial") (JObj good_listing)
              (JStr (lit "abc123"))) as [[row|]|e] eqn:E;
    [|vm_compute in E; discriminate E..].
  exists row. split; [reflexivity|].
  destruct (copied_columns _ _ _ _ _ E) as (Hp & _ & Ht & Hm & Hk & Hs & _).
  assert (Ep : Some (Row.price row) = Some (JInt 50000))
    by (rewrite <- Hp; vm_compute; reflexivity).
  assert (Em : Some (Row.model row) = Some (JStr (lit "Corolla")))
    by (rewrite <- Hm; vm_compute; reflexivity).
  assert (Ek : Some (Row.make row) = Some (JStr (lit "Toyota")))
    by (rewrite <- Hk; vm_compute; reflexivity).
  assert (Es : Some (Row.subModel row) = Some (JStr (lit "1.8 132 כ״ס")))
    by (rewrite <- Hs; vm_compute; reflexivity).
  injection Ep as ->. injection Em as ->. injection Ek as ->.
  injection Es as ->. rewrite Ht.
  repeat split.
Defined.

(** X8: [listingType] is the category the list is processed under, and
    [createdAt], [updatedAt] and [rebouncedAt] are the day of the run,
    whatever the record holds. *)
Theorem placeholder_columns (rt : runtime) (listing_type : pystr)
    (item : gmap pystr json) (ad_number : json) (row : Row.t) :
  convert rt listing_type (JObj item) ad_number = Ok (Some row) ->
  Row.listingType row = listing_type
  /\ Row.createdAt row = strftime_Y_m_d (now rt)
  /\ Row.updatedAt row = strftime_Y_m_d (now rt)
  /\ Row.rebouncedAt row = strftime_Y_m_d (now rt).
Proof.
  intros H. apply convert_built in H as [v B].
  split; [exact (b_listing_type _ _ _ _ _ _ B)|].
  split; [exact (b_created_at _ _ _ _ _ _ B)|].
  split; [exact (b_updated_at _ _ _ _ _ _ B)|].
  exact (b_rebounced_at _ _ _ _ _ _ B).
Qed.

(** The theorem at a record that has a [createdAt] of its own. *)
Lemma placeholder_columns_witness :
  exists row,
    convert example_runtime (lit "solo")
      (JObj (<[lit "createdAt" := JStr (lit "2019-05-01")]> good_listing))
      (JStr (lit "abc123")) = Ok (Some row)
    /\ Row.listingType row = lit "solo"
    /\ Row.createdAt row = lit "2026-11-03".
Proof.
  destruct (convert example_runtime (lit "solo")
              (JObj (<[lit "createdAt" := JStr (lit "2019-05-01")]> good_listing))
              (JStr (lit "abc123"))) as [[row|]|e] eqn:E;
    [|vm_compute in E; discriminate E..].
  exists row. split; [reflexivity|].
  destruct (placeholder_columns _ _ _ _ _ E) as (Hl & Hc & _).
  split; [exact Hl|]. rewrite Hc. reflexivity.
Defined.

(** *** The table of [get_month_number] *)

Lemma month_mapping_pairs (name : pystr) (m : Z) :
  month_mapping !! name = Some m ->
  In (name, m)
    [(lit "ינואר", 1); (lit "פברואר", 2); (lit "מרץ", 3); (lit "אפריל", 4);
     (lit "מאי", 5); (lit "יוני", 6); (lit "יולי", 7); (lit "אוגוסט", 8);
     (lit "ספטמבר", 9); (lit "אוקטובר", 10); (lit "נובמבר", 11);
     (lit "דצמבר", 12)].
Proof.
  intros H. apply list_elem_of_In.
  exact (elem_of_list_to_map_2 _ _ _ H).
Qed.

(** X9: [get_month_number] maps the twelve Hebrew names one to one onto
    1..12: every month has a name, two names never share a number, the
    result always lies in 1..12, and a result other than 1 is given for the
    name of that month only. *)
Theorem month_names_one_to_one :
  (forall m, 1 <= m <= 12 ->
     exists name, get_month_number (JStr name) = Ok m)
  /\ (forall name name' m,
        month_mapping !! name = Some m -> month_mapping !! name' = Some m ->
        name = name')
  /\ (forall text m,
        get_month_number text = Ok m ->
        1 <= m <= 12
        /\ (m <> 1 ->
            exists name, text = JStr name /\ month_mapping !! name = Some m)).
Proof.
  split; [|split].
  - intros m Hm.
    assert (Hc : m = 1 \/ m = 2 \/ m = 3 \/ m = 4 \/ m = 5 \/ m = 6 \/ m = 7
                 \/ m = 8 \/ m = 9 \/ m = 10 \/ m = 11 \/ m = 12) by lia.
    repeat (destruct Hc as [->|Hc]);
      [ exists (lit "ינואר") | exists (lit "פברואר") | exists (lit "מרץ")
      | exists (lit "אפריל") | exists (lit "מאי") | exists (lit "יוני")
      | exists (lit "יולי") | exists (lit "אוגוסט") | exists (lit "ספטמבר")
      | exists (lit "אוקטובר") | exists (lit "נובמבר")
      | subst m; exists (lit "דצמבר") ];
      vm_compute; reflexivity.
  - intros name name' m H H'.
    apply month_mapping_pairs in H, H'. cbn [In] in H, H'.
    repeat (destruct H as [H|H]; [injection H as <- <-|]); [..|destruct H];
      repeat (destruct H' as [H'|H']; [congruence|]); destruct H'.
  - intros text m H. split; [exact (get_month_number_range _ _ H)|].
    intros Hm. destruct text; cbn [get_month_number] in H; try discriminate H;
      try (injection H as <-; congruence).
    exists s. split; [reflexivity|].
    unfold get_month_number in H. injection H as H.
    destruct (month_mapping !! s) as [z|]; cbn [default from_option id] in H;
      congruence.
Qed.

(** *** The horsepower read back from its text *)

Lemma decimal_value_ascii (d : N) :
  (d < 10)%N -> decimal_value (0x30 + d) = Some d.
Proof.
  intros Hd.
  assert (Hc : (d = 0 \/ d = 1 \/ d = 2 \/ d = 3 \/ d = 4 \/ d = 5 \/ d = 6
                \/ d = 7 \/ d = 8 \/ d = 9)%N) by lia.
  repeat (destruct Hc as [->|Hc]; [reflexivity|]). subst d. reflexivity.
Qed.

Lemma ascii_digit (d : N) : (d < 10)%N -> is_digit (0x30 + d) = true.
Proof.
  intros Hd. unfold is_digit. rewrite (decimal_value_ascii d Hd).
  apply bool_decide_eq_true. eauto.
Qed.

(** The digits [dec_digits] writes before [acc] read back as [n]. *)
Lemma dec_digits_value (fuel : nat) :
  forall (n : N) (acc : pystr),
    (n < 2 ^ N.of_nat fuel)%N ->
    fold_left (fun a c => 10 * a + Z.of_N (default 0%N (decimal_value c)))
      (dec_digits fuel n acc) 0
    = fold_left (fun a c => 10 * a + Z.of_N (default 0%N (decimal_value c)))
        acc (Z.of_N n).
Proof.
  induction fuel as [|fuel IH]; intros n acc Hn.
  - cbn in Hn. assert (n = 0%N) as -> by lia. reflexivity.
  - cbn [dec_digits].
    assert (Hmod : (n mod 10 < 10)%N) by (apply N.mod_upper_bound; lia).
    destruct (n <? 10)%N eqn:E.
    + apply N.ltb_lt in E. rewrite N.mod_small by exact E.
      cbn [fold_left]. rewrite (decimal_value_ascii n E).
      cbn [default from_option id]. f_equal.
    + apply N.ltb_ge in E. rewrite IH.
      * cbn [fold_left]. rewrite (decimal_value_ascii _ Hmod).
        cbn [default from_option id]. f_equal.
        rewrite (N.div_mod n 10) at 3 by lia.
        rewrite N2Z.inj_add, N2Z.inj_mul. reflexivity.
      * rewrite Nat2N.inj_succ, N.pow_succ_r' in Hn.
        apply N.Div0.div_lt_upper_bound. lia.
Qed.

Lemma dec_digits_digits (fuel : nat) :
  forall (n : N) (acc : pystr),
    Forall (fun c => is_digit c = true) acc ->
    Forall (fun c => is_digit c = true) (dec_digits fuel n acc).
Proof.
  induction fuel as [|fuel IH]; intros n acc Hacc; cbn [dec_digits];
    [exact Hacc|].
  assert (Hmod : (n mod 10 < 10)%N) by (apply N.mod_upper_bound; lia).
  assert (Forall (fun c => is_digit c = true) ((0x30 + n mod 10)%N :: acc))
    by (constructor; [apply ascii_digit; exact Hmod|exact Hacc]).
  destruct (n <? 10)%N; [assumption|]. now apply IH.
Qed.

Lemma dec_digits_not_empty (fuel : nat) :
  forall (n : N) (acc : pystr), acc <> [] -> dec_digits fuel n acc <> [].
Proof.
  induction fuel as [|fuel IH]; intros n acc Hacc; cbn [dec_digits];
    [exact Hacc|].
  destruct (n <? 10)%N; [discriminate|]. apply IH. discriminate.
Qed.

(** [int(str(n)) == n] for a natural number [n]: the text [str] gives is a
    non-empty run of digits that writes [n]. *)
Lemma str_of_int_digits (n : Z) :
  0 <= n ->
  str_of_int n <> []
  /\ Forall (fun c => is_digit c = true) (str_of_int n)
  /\ digits_value (str_of_int n) = n.
Proof.
  intros Hn. unfold str_of_int.
  rewrite (proj2 (Z.ltb_ge n 0)) by exact Hn.
  rewrite Z.abs_eq by exact Hn.
  set (m := Z.to_N n). split; [|split].
  - cbn [dec_digits]. destruct (m <? 10)%N; [discriminate|].
    apply dec_digits_not_empty. discriminate.
  - apply dec_digits_digits. constructor.
  - unfold digits_value. rewrite dec_digits_value.
    + cbn [fold_left]. subst m. apply Z2N.id. exact Hn.
    + rewrite Nat2N.inj_succ, N2Nat.id.
      destruct (N.eq_dec m 0%N) as [->|Hm]; [reflexivity|].
      apply N.log2_spec. lia.
Qed.

Lemma digit_not_space (c : N) : is_digit c = true -> is_space c = false.
Proof.
  intros Hd. destruct (is_space c) eqn:E; [|reflexivity].
  rewrite (space_not_digit _ E) in Hd. discriminate Hd.
Qed.

Lemma marker_no_digit : Forall (fun c => is_digit c = false) hp_marker.
Proof. apply (bool_decide_unpack _). vm_compute. exact I. Qed.

(** A digit after [u] does not help a literal without digits to match. *)
Lemma starts_with_before_digit (p u r : pystr) (d : N) :
  Forall (fun c => is_digit c = false) p -> is_digit d = true ->
  starts_with p (u ++ d :: r) = starts_with p u.
Proof.
  intros Hp Hd. revert u. induction Hp as [|a p Ha _ IH]; intros u;
    [destruct u; reflexivity|].
  destruct u as [|x u]; cbn [app starts_with].
  - destruct (N.eqb_spec a d) as [->|_]; [congruence|reflexivity].
  - rewrite IH. reflexivity.
Qed.

Lemma match_spaces_marker_before_digit (t r : pystr) (d : N) :
  is_digit d = true ->
  match_spaces_marker (t ++ d :: r) = match_spaces_marker t.
Proof.
  intros Hd. induction t as [|c t IH].
  - pose proof (starts_with_before_digit _ [] r d marker_no_digit Hd) as E.
    cbn [app] in E. cbn [app match_spaces_marker].
    rewrite (digit_not_space _ Hd), E. reflexivity.
  - pose proof (starts_with_before_digit _ (c :: t) r d marker_no_digit Hd)
      as E.
    cbn [app] in E. cbn [app match_spaces_marker]. rewrite IH, E.
    reflexivity.
Qed.

(** A run of digits that ends before the end of [s] matches the same
    whatever digit follows [s]. *)
Lemma match_hp_here_before_digit (s r : pystr) (d : N) :
  is_digit d = true ->
  (forall p c, s = p ++ [c] -> is_digit c = false) ->
  s <> [] ->
  match_hp_here (s ++ d :: r) = match_hp_here s.
Proof.
  intros Hd. induction s as [|c s IH]; intros Hlast Hne; [congruence|].
  cbn [app match_hp_here]. destruct (is_digit c) eqn:Hc; [|reflexivity].
  destruct s as [|c' s].
  - rewrite (Hlast [] c eq_refl) in Hc. discriminate Hc.
  - rewrite IH; [|intros p x E; apply (Hlast (c :: p) x); rewrite E; reflexivity
                 |discriminate].
    rewrite (match_spaces_marker_before_digit (c' :: s) r d Hd). reflexivity.
Qed.

(** The search passes over a text that holds no token and does not end in
    a digit. *)
Lemma re_search_hp_skip (pre r : pystr) (d : N) :
  is_digit d = true ->
  (forall p ds w q, ~ hp_token pre p ds w q) ->
  (forall p c, pre = p ++ [c] -> is_digit c = false) ->
  re_search_hp (pre ++ d :: r) = re_search_hp (d :: r).
Proof.
  intros Hd. induction pre as [|c pre IH]; intros Hno Hlast; [reflexivity|].
  cbn [app]. cbn [re_search_hp].
  change (c :: pre ++ d :: r) with ((c :: pre) ++ d :: r).
  rewrite (match_hp_here_before_digit (c :: pre) r d Hd Hlast) by discriminate.
  destruct (match_hp_here (c :: pre)) as [ds|] eqn:E.
  - exfalso. apply match_hp_here_spec in E as (w & q & T).
    exact (Hno _ _ _ _ T).
  - apply IH.
    + intros p ds w q T. exact (Hno _ _ _ _ (hp_token_cons c _ _ _ _ _ T)).
    + intros p x E'. apply (Hlast (c :: p) x). rewrite E'. reflexivity.
Qed.

Lemma re_search_hp_here (ds ws post : pystr) :
  ds <> [] ->
  Forall (fun c => is_digit c = true) ds ->
  Forall (fun c => is_space c = true) ws ->
  re_search_hp (ds ++ ws ++ hp_marker ++ post) = Some ds.
Proof.
  intros Hne Hds Hws.
  assert (T : match_hp_here (ds ++ ws ++ hp_marker ++ post) = Some ds).
  { apply match_hp_here_spec. exists ws, post. repeat split; assumption. }
  destruct (ds ++ ws ++ hp_marker ++ post) as [|c s] eqn:E.
  - destruct ds; [congruence|discriminate E].
  - cbn [re_search_hp]. rewrite T. reflexivity.
Qed.

(** X10: the horsepower is read back from its decimal text: when the
    sub-model text is [str(n)] for a natural number [n], whitespace (or
    none) and the marker, after a text that holds no integer-marker token
    and does not end in a digit, [hp] is [n]. *)
Theorem hp_round_trip (n : Z) (pre ws post : pystr) :
  0 <= n ->
  (length (str_of_int n) <= int_max_str_digits)%nat ->
  (forall p ds w q, ~ hp_token pre p ds w q) ->
  (forall p c, pre = p ++ [c] -> is_digit c = false) ->
  Forall (fun c => is_space c = true) ws ->
  extract_hp (JStr (pre ++ str_of_int n ++ ws ++ hp_marker ++ post)) = Ok n.
Proof.
  intros Hn Hlen Hno Hlast Hws.
  destruct (str_of_int_digits n Hn) as (Hne & Hds & Hval).
  cbn [extract_hp].
  assert (Hsearch : re_search_hp (pre ++ str_of_int n ++ ws ++ hp_marker ++ post)
                    = Some (str_of_int n)).
  { rewrite <- (re_search_hp_here _ ws post Hne Hds Hws).
    destruct (str_of_int n) as [|d ds] eqn:E; [congruence|].
    cbn [app]. apply re_search_hp_skip; [|exact Hno|exact Hlast].
    now apply Forall_cons in Hds as [Hd _]. }
  rewrite Hsearch.
  unfold int_of_digits. rewrite bool_decide_eq_false_2 by lia.
  rewrite Hval. reflexivity.
Qed.

(** The theorem at the sub-model text of the first scenario. *)
Lemma hp_round_trip_witness :
  extract_hp (JStr (lit "1.8 " ++ str_of_int 132 ++ lit " " ++ hp_marker ++ []))
  = Ok 132.
Proof.
  apply (hp_round_trip 132 (lit "1.8 ") (lit " ") []).
  - lia.
  - change (length (str_of_int 132)) with 3%nat. unfold int_max_str_digits. lia.
  - apply re_search_hp_None. vm_compute. reflexivity.
  - intros p c E.
    assert (L : last (p ++ [c]) = Some c) by apply last_snoc.
    rewrite <- E in L. vm_compute in L. injection L as <-.
    vm_compute. reflexivity.
  - apply (bool_decide_unpack _). vm_compute. exact I.
Defined.

Lemma digits_value_nonneg (ds : pystr) : 0 <= digits_value ds.
Proof.
  unfold digits_value.
  assert (H : forall acc, 0 <= acc ->
            0 <= fold_left
                   (fun a c => 10 * a + Z.of_N (default 0%N (decimal_value c)))
                   ds acc).
  { induction ds as [|c ds IH]; intros acc Hacc; cbn [fold_left]; [exact Hacc|].
    apply IH. lia. }
  apply H. lia.
Qed.

(** X11: the [hp] of a row is never negative. *)
Theorem hp_not_negative (rt : runtime) (listing_type : pystr)
    (item : gmap pystr json) (ad_number : json) (row : Row.t) :
  convert rt listing_type (JObj item) ad_number = Ok (Some row) ->
  0 <= Row.hp row.
Proof.
  intros H. apply convert_built in H as [v B].
  destruct (extract_hp_Ok _ _ (b_hp _ _ _ _ _ _ B))
    as (text & _ & [[_ ->] | (ds & _ & ->)]); [lia|].
  apply digits_value_nonneg.
Qed.

(** The theorem at the listing of the first scenario. *)
Lemma hp_not_negative_witness :
  exists row,
    convert example_runtime (lit "commercial") (JObj good_listing)
      (JStr (lit "abc123")) = Ok (Some row)
    /\ 0 <= Row.hp row.
Proof.
  destruct (convert example_runtime (lit "commercial") (JObj good_listing)
              (JStr (lit "abc123"))) as [[row|]|e] eqn:E;
    [|vm_compute in E; discriminate E..].
  exists row. split; [reflexivity|].
  exact (hp_not_negative _ _ _ _ _ E).
Defined.

(** *** Lists that hold more than records *)

Lemma rows_of_records_cons (rt : runtime) (listing_type : pystr) (item : json)
    (items : list json) :
  rows_of rt listing_type (records_of (item :: items))
  = rows_of rt listing_type (records_of [item])
    ++ rows_of rt listing_type (records_of items).
Proof.
  destruct item; try reflexivity.
  unfold rows_of, records_of. cbn [omap list_omap].
  destruct (row_of rt listing_type m); reflexivity.
Qed.

Lemma get_ad_number_not_dict (item : json) :
  (forall m, item <> JObj m) -> get_ad_number item = Raise AttributeError.
Proof.
  intros H. destruct item; try reflexivity. exfalso. exact (H _ eq_refl).
Qed.

Lemma handle_ad_number (debug : bool) (e : exn) (st : loop_state) :
  ad_number (fst (handle debug e st)) = ad_number st.
Proof.
  unfold handle. destruct debug; [|reflexivity].
  destruct (ad_number st) eqn:E; [reflexivity|exact E].
Qed.

(** Once an item has bound [ad_number], it stays bound. *)
Lemma loop_body_bound (rt : runtime) (listing_type output_file : pystr)
    (debug : bool) (item : json) (st : loop_state) :
  ad_number st <> None \/ (exists m, item = JObj m) ->
  ad_number (fst (loop_body rt listing_type output_file debug item st)) <> None.
Proof.
  intros H. unfold loop_body.
  destruct (get_ad_number item) as [a|e] eqn:Ea.
  - destruct (convert rt listing_type item a) as [[row|]|e];
      [destruct (writerow rt row) as [[]|e]| |];
      rewrite ?handle_ad_number; cbn; discriminate.
  - rewrite handle_ad_number. destruct H as [H|[m ->]]; [exact H|].
    rewrite get_ad_number_dict in Ea. discriminate Ea.
Qed.

(** One turn of the loop on any item: an item that is not a record gives no
    row; the turn ends well unless a handler has to print an [ad_number]
    that no item has bound. *)
Lemma loop_body_item (rt : runtime) (listing_type output_file : pystr)
    (debug : bool) (item : json) (st : loop_state) (written : list csv_line) :
  files (loop_world st) !! output_file = Some written ->
  debug = false \/ ad_number st <> None \/ (exists m, item = JObj m) ->
  exists st' msgs,
    loop_body rt listing_type output_file debug item st = (st', Ok tt)
    /\ files (loop_world st')
       = <[output_file :=
             written
             ++ (DataLine <$> rows_of rt listing_type (records_of [item]))]>
           (files (loop_world st))
    /\ opens (loop_world st') = opens (loop_world st)
    /\ processed_count st'
       = processed_count st
         + Z.of_nat (length (rows_of rt listing_type (records_of [item])))
    /\ stdout (loop_world st') = stdout (loop_world st) ++ msgs
    /\ (debug = false -> msgs = [])
    /\ Forall (fun m => is_processed m = false) msgs.
Proof.
  intros Hw Hc.
  assert (Hcase : (exists m, item = JObj m) \/ forall m, item <> JObj m)
    by (destruct item; eauto; right; discriminate).
  destruct Hcase as [[m ->]|Hn].
  - destruct (loop_body_dict rt listing_type output_file debug m st written Hw)
      as (st' & msgs & H). exists st', msgs.
    replace (rows_of rt listing_type (records_of [JObj m]))
      with (option_list (row_of rt listing_type m)); [exact H|].
    unfold rows_of, records_of. cbn [omap list_omap].
    destruct (row_of rt listing_type m); reflexivity.
  - unfold loop_body. rewrite (get_ad_number_not_dict _ Hn).
    replace (rows_of rt listing_type (records_of [item])) with (@nil Row.t)
      by (destruct item; try reflexivity; exfalso; exact (Hn _ eq_refl)).
    cbn [fmap list_fmap length]. rewrite app_nil_r, insert_id by exact Hw.
    rewrite Z.add_0_r.
    destruct Hc as [-> | [Hb | [m Hd]]]; [| |exfalso; exact (Hn _ Hd)].
    + exists st, []. rewrite app_nil_r. cbn. repeat split; auto.
    + destruct (ad_number st) as [a|] eqn:Ea; [|congruence].
      destruct (handle_prints debug AttributeError st a Ea)
        as (st' & msgs & H1 & H2 & H3 & H4 & _ & H5 & H6 & H7).
      exists st', msgs. repeat split; auto.
Qed.

(** The loop over any items. *)
Lemma for_items_any (rt : runtime) (listing_type output_file : pystr)
    (debug : bool) (items : list json) :
  forall (st : loop_state) (written : list csv_line),
    files (loop_world st) !! output_file = Some written ->
    debug = false \/ ad_number st <> None
    \/ items = [] \/ (exists m rest, items = JObj m :: rest) ->
    exists st' msgs,
      for_items rt listing_type output_file debug items st = (st', Ok tt)
      /\ files (loop_world st')
         = <[output_file :=
               written
               ++ (DataLine <$> rows_of rt listing_type (records_of items))]>
             (files (loop_world st))
      /\ opens (loop_world st') = opens (loop_world st)
      /\ processed_count st'
         = processed_count st
           + Z.of_nat (length (rows_of rt listing_type (records_of items)))
      /\ stdout (loop_world st') = stdout (loop_world st) ++ msgs
      /\ (debug = false -> msgs = [])
      /\ Forall (fun m => is_processed m = false) msgs.
Proof.
  induction items as [|item items IH]; intros st written Hw Hc.
  - exists st, []. cbn. rewrite !app_nil_r. rewrite insert_id by exact Hw.
    repeat split; auto; lia.
  - assert (Hitem : debug = false \/ ad_number st <> None
                    \/ exists m, item = JObj m).
    { destruct Hc as [H|[H|[H|(m & rest & H)]]].
      - now left.
      - right. now left.
      - discriminate H.
      - injection H as -> _. right. right. eauto. }
    destruct (loop_body_item rt listing_type output_file debug item st written
                Hw Hitem)
      as (st1 & msgs1 & Hbody & Hf1 & Ho1 & Hc1 & Hs1 & Hd1 & Hp1).
    assert (Hw1 : files (loop_world st1) !! output_file
                  = Some (written
                          ++ (DataLine
                                <$> rows_of rt listing_type (records_of [item])))).
    { rewrite Hf1. apply lookup_insert_eq. }
    assert (Hnext : debug = false \/ ad_number st1 <> None
                    \/ items = [] \/ exists m rest, items = JObj m :: rest).
    { destruct debug; [right; left|now left].
      replace st1
        with (fst (loop_body rt listing_type output_file true item st))
        by (rewrite Hbody; reflexivity).
      apply loop_body_bound.
      destruct Hitem as [H|[H|H]]; [discriminate H|now left|now right]. }
    destruct (IH st1 _ Hw1 Hnext)
      as (st2 & msgs2 & Hloop & Hf2 & Ho2 & Hc2 & Hs2 & Hd2 & Hp2).
    exists st2, (msgs1 ++ msgs2).
    cbn [for_items]. rewrite Hbody. split; [exact Hloop|].
    rewrite rows_of_records_cons, fmap_app, length_app.
    split. { rewrite Hf2, Hf1, insert_insert_eq, app_assoc. reflexivity. }
    split. { congruence. }
    split. { rewrite Hc2, Hc1. lia. }
    split. { rewrite Hs2, Hs1, app_assoc. reflexivity. }
    split. { intros Hd. rewrite (Hd1 Hd), (Hd2 Hd). reflexivity. }
    apply Forall_app. auto.
Qed.

(** A value that counts as false has nothing to iterate. *)
Lemma falsy_iter_empty (json_list : json) (items : list json) :
  py_truthy json_list = false -> py_iter json_list = Ok items -> items = [].
Proof.
  destruct json_list as [ | b | z | f | s | l | m]; cbn [py_truthy py_iter];
    intros Hf Hi; try discriminate Hi; injection Hi as <-.
  - apply negb_false_iff, bool_decide_eq_true in Hf. subst s. reflexivity.
  - destruct l; [reflexivity|discriminate Hf].
  - apply negb_false_iff, bool_decide_eq_true in Hf. subst m.
    rewrite map_to_list_empty. reflexivity.
Qed.

(** [process_vehicle_data] on anything that can be iterated, when the
    debugging block is not entered or finds a record first. *)
Lemma process_vehicle_data_items (rt : runtime) (json_list : json)
    (items : list json) (listing_type output_file : pystr) (mode : open_mode)
    (debug : bool) (w : world) :
  py_iter json_list = Ok items ->
  debug && py_truthy json_list = false
  \/ (exists m rest, json_list = JList (JObj m :: rest)) ->
  exists w' msgs,
    process_vehicle_data rt json_list listing_type output_file mode debug w
    = (w', Ok tt)
    /\ files w'
       = <[output_file :=
             match mode with
             | ModeW => [HeaderLine headers]
             | ModeA => default [] (files w !! output_file)
             end
             ++ (DataLine <$> rows_of rt listing_type (records_of items))]>
           (files w)
    /\ opens w' = opens w ++ [(output_file, mode)]
    /\ stdout w'
       = stdout w ++ msgs
         ++ match rows_of rt listing_type (records_of items) with
            | [] => []
            | rows => [Processed (Z.of_nat (length rows))]
            end
    /\ (debug = false -> msgs = [])
    /\ Forall (fun m => is_processed m = false) msgs.
Proof.
  intros Hiter Hc. unfold process_vehicle_data.
  set (inspected :=
         if debug && py_truthy json_list
         then debug_inspect json_list listing_type w else (w, Ok tt)).
  assert (Hin : exists w0 msgs0,
             inspected = (w0, Ok tt)
             /\ files w0 = files w /\ opens w0 = opens w
             /\ stdout w0 = stdout w ++ msgs0
             /\ (debug = false -> msgs0 = [])
             /\ Forall (fun m => is_processed m = false) msgs0).
  { subst inspected. destruct Hc as [-> | (m & rest & ->)].
    - exists w, []. rewrite app_nil_r. repeat split; auto.
    - destruct debug; cbn [andb py_truthy].
      + eexists. exists [DebugBanner listing_type; DebugItem (JObj m)].
        split; [reflexivity|]. cbn. rewrite <- app_assoc.
        repeat split; auto; try discriminate; repeat constructor.
      + exists w, []. rewrite app_nil_r. repeat split; auto. }
  destruct Hin as (w0 & msgs0 & -> & Hf0 & Ho0 & Hs0 & Hd0 & Hp0).
  destruct (open_and_header output_file mode w0) as (Hf & Ho & Hs).
  cbv zeta in Hf, Ho, Hs.
  set (w2 := match mode with
             | ModeW => write_line output_file (HeaderLine headers)
                          (open_file output_file mode w0)
             | ModeA => open_file output_file mode w0
             end) in *.
  rewrite Hiter.
  set (base := match mode with
               | ModeW => [HeaderLine headers]
               | ModeA => default [] (files w0 !! output_file)
               end) in *.
  destruct (for_items_any rt listing_type output_file debug items
              {| loop_world := w2; processed_count := 0; ad_number := None |}
              base)
    as (st & msgs & Hloop & Hf1 & Ho1 & Hc1 & Hs1 & Hd1 & Hp1).
  { cbn [loop_world]. rewrite Hf. apply lookup_insert_eq. }
  { destruct Hc as [H | (m & rest & ->)].
    - apply andb_false_iff in H as [H|H]; [now left|].
      right. right. left. exact (falsy_iter_empty _ _ H Hiter).
    - injection Hiter as <-. right. right. right. eauto. }
  rewrite Hloop. cbn [loop_world processed_count] in *.
  eexists. exists (msgs0 ++ msgs). split; [reflexivity|].
  assert (Hfiles : files (loop_world st)
                   = <[output_file :=
                         base
                         ++ (DataLine
                               <$> rows_of rt listing_type (records_of items))]>
                       (files w)).
  { rewrite Hf1, Hf, insert_insert_eq, Hf0. reflexivity. }
  assert (Hbase : base = match mode with
                         | ModeW => [HeaderLine headers]
                         | ModeA => default [] (files w !! output_file)
                         end).
  { subst base. rewrite Hf0. reflexivity. }
  rewrite <- Hbase.
  assert (Hopens : opens (loop_world st) = opens w ++ [(output_file, mode)])
    by congruence.
  assert (Hout : stdout (loop_world st) = stdout w ++ msgs0 ++ msgs).
  { rewrite Hs1, Hs, Hs0, app_assoc. reflexivity. }
  rewrite Hc1.
  destruct (rows_of rt listing_type (records_of items)) as [|row rows] eqn:Erows.
  - change (0 <? 0 + Z.of_nat (length (@nil Row.t))) with false.
    cbv iota. rewrite Hfiles, Hopens, Hout, !app_nil_r.
    repeat split; auto.
    + intros Hd. rewrite (Hd0 Hd), (Hd1 Hd). reflexivity.
    + apply Forall_app. auto.
  - replace (0 <? 0 + Z.of_nat (length (row :: rows))) with true
      by (symmetry; apply Z.ltb_lt; cbn [length]; lia).
    cbn [print files opens stdout]. rewrite Hfiles, Hopens, Hout.
    rewrite <- !app_assoc.
    replace (0 + Z.of_nat (length (row :: rows)))
      with (Z.of_nat (length (row :: rows))) by lia.
    repeat split; auto.
    + intros Hd. rewrite (Hd0 Hd), (Hd1 Hd). reflexivity.
    + apply Forall_app. auto.
Qed.

Lemma world_eq (w1 w2 : world) :
  files w1 = files w2 -> stdout w1 = stdout w2 -> opens w1 = opens w2 ->
  w1 = w2.
Proof. destruct w1, w2. cbn. intros -> -> ->. reflexivity. Qed.

Lemma py_iter_dicts (items : list (gmap pystr json)) :
  py_iter (dicts items) = Ok (JObj <$> items).
Proof. reflexivity. Qed.

Lemma records_of_dicts (items : list (gmap pystr json)) :
  records_of (JObj <$> items) = items.
Proof.
  induction items as [|m items IH]; [reflexivity|].
  unfold records_of in *. cbn. rewrite IH. reflexivity.
Qed.

(** X12: without debugging, the items that are not records ([dict]s) are
    passed over like records that fail: a call on anything that can be
    iterated returns normally, and does what the call on the list of the
    records among the items does. *)
Theorem non_records_ignored (rt : runtime) (json_list : json)
    (items : list json) (listing_type output_file : pystr) (mode : open_mode)
    (w : world) :
  py_iter json_list = Ok items ->
  process_vehicle_data rt json_list listing_type output_file mode false w
  = process_vehicle_data rt (dicts (records_of items)) listing_type
      output_file mode false w
  /\ exists w',
      process_vehicle_data rt json_list listing_type output_file mode false w
      = (w', Ok tt)
      /\ files w' !! output_file
         = Some (match mode with
                 | ModeW => [HeaderLine headers]
                 | ModeA => default [] (files w !! output_file)
                 end
                 ++ (DataLine <$> rows_of rt listing_type (records_of items))).
Proof.
  intros Hiter.
  destruct (process_vehicle_data_items rt json_list items listing_type
              output_file mode false w Hiter (or_introl eq_refl))
    as (w1 & msgs1 & H1 & Hf1 & Ho1 & Hs1 & Hd1 & _).
  destruct (process_vehicle_data_items rt (dicts (records_of items))
              (JObj <$> records_of items) listing_type output_file mode false w
              (py_iter_dicts _) (or_introl eq_refl))
    as (w2 & msgs2 & H2 & Hf2 & Ho2 & Hs2 & Hd2 & _).
  rewrite records_of_dicts in Hf2, Hs2.
  rewrite (Hd1 eq_refl) in Hs1. rewrite (Hd2 eq_refl) in Hs2.
  split.
  - rewrite H1, H2. f_equal. apply world_eq; congruence.
  - exists w1. split; [exact H1|]. rewrite Hf1. apply lookup_insert_eq.
Qed.

(** The theorem at a list that holds a number, a record, a string and
    [None]. *)
Lemma non_records_ignored_witness :
  process_vehicle_data example_runtime
    (JList [JInt 5; JObj good_listing; JStr (lit "x"); JNull])
    (lit "private") (lit "out.csv") ModeW false empty_world
  = process_vehicle_data example_runtime (dicts [good_listing])
      (lit "private") (lit "out.csv") ModeW false empty_world.
Proof.
  exact (proj1 (non_records_ignored example_runtime
                  (JList [JInt 5; JObj good_listing; JStr (lit "x"); JNull])
                  [JInt 5; JObj good_listing; JStr (lit "x"); JNull]
                  (lit "private") (lit "out.csv") ModeW empty_world eq_refl)).
Defined.

(** X13: debugging changes what a call on a list does to the files only
    when the first item is not a record: then the debugging block raises
    [AttributeError] after its banner, before the file is opened.  When the
    list is empty or starts with a record, the call returns normally and
    leaves the files and the record of [open]s as the call without debugging
    does. *)
Theorem debug_mode_effect (rt : runtime) (items : list json)
    (listing_type output_file : pystr) (mode : open_mode) (w : world) :
  (forall x rest,
     items = x :: rest -> (forall m, x <> JObj m) ->
     process_vehicle_data rt (JList items) listing_type output_file mode true w
     = (print (DebugBanner listing_type) w, Raise AttributeError))
  /\ (items = [] \/ (exists m rest, items = JObj m :: rest) ->
      exists loud quiet,
        process_vehicle_data rt (JList items) listing_type output_file mode
          true w = (loud, Ok tt)
        /\ process_vehicle_data rt (JList items) listing_type output_file mode
             false w = (quiet, Ok tt)
        /\ files loud = files quiet
        /\ opens loud = opens quiet).
Proof.
  split.
  - intros x rest -> Hx. unfold process_vehicle_data.
    cbn [andb py_truthy]. unfold debug_inspect. cbn [py_getitem0].
    destruct x; try reflexivity. exfalso. exact (Hx _ eq_refl).
  - intros Hc.
    assert (Hc' : true && py_truthy (JList items) = false
                  \/ exists m rest, JList items = JList (JObj m :: rest)).
    { destruct Hc as [-> | (m & rest & ->)]; [now left|right; eauto]. }
    destruct (process_vehicle_data_items rt (JList items) items listing_type
                output_file mode true w eq_refl Hc')
      as (loud & msgs1 & H1 & Hf1 & Ho1 & _).
    destruct (process_vehicle_data_items rt (JList items) items listing_type
                output_file mode false w eq_refl (or_introl eq_refl))
      as (quiet & msgs2 & H2 & Hf2 & Ho2 & _).
    exists loud, quiet. repeat split; congruence.
Qed.

(** X14: writing a list of records in one call leaves the files as
    writing a first part of it in the same mode and the rest in mode ['a']
    does: this is how [process_directory] accumulates categories and
    files. *)
Theorem batches_compose (rt : runtime) (first second : list (gmap pystr json))
    (listing_type output_file : pystr) (mode : open_mode) (debug : bool)
    (w : world) :
  exists whole w1 w2,
    process_vehicle_data rt (dicts (first ++ second)) listing_type output_file
      mode debug w = (whole, Ok tt)
    /\ process_vehicle_data rt (dicts first) listing_type output_file mode
         debug w = (w1, Ok tt)
    /\ process_vehicle_data rt (dicts second) listing_type output_file ModeA
         debug w1 = (w2, Ok tt)
    /\ files w2 = files whole.
Proof.
  destruct (process_vehicle_data_dicts rt (first ++ second) listing_type
              output_file mode debug w) as (whole & m0 & H0 & Hf0 & _).
  destruct (process_vehicle_data_dicts rt first listing_type output_file mode
              debug w) as (w1 & m1 & H1 & Hf1 & _).
  destruct (process_vehicle_data_dicts rt second listing_type output_file ModeA
              debug w1) as (w2 & m2 & H2 & Hf2 & _).
  exists whole, w1, w2. repeat split; try assumption.
  rewrite Hf2, Hf0, Hf1, lookup_insert_eq, insert_insert_eq.
  cbn [default from_option id]. rewrite rows_of_app, fmap_app, app_assoc.
  reflexivity.
Qed.

(** X15: a value that cannot be iterated raises where it is first used:
    in the debugging block, after the banner and before the file is opened,
    when the block is entered; else in the loop, after the file has been
    opened and, in mode ['w'], emptied and given its header. *)
Theorem not_iterable_after_open (rt : runtime) (json_list : json)
    (listing_type output_file : pystr) (mode : open_mode) (debug : bool)
    (w : world) (e : exn) :
  py_iter json_list = Raise e ->
  (debug && py_truthy json_list = true ->
   process_vehicle_data rt json_list listing_type output_file mode debug w
   = (print (DebugBanner listing_type) w, Raise TypeError))
  /\ (debug && py_truthy json_list = false ->
      exists w',
        process_vehicle_data rt json_list listing_type output_file mode debug w
        = (w', Raise e)
        /\ files w'
           = <[output_file :=
                 match mode with
                 | ModeW => [HeaderLine headers]
                 | ModeA => default [] (files w !! output_file)
                 end]> (files w)
        /\ opens w' = opens w ++ [(output_file, mode)]
        /\ stdout w' = stdout w).
Proof.
  intros Hiter. unfold process_vehicle_data. split; intros ->.
  - unfold debug_inspect.
    destruct json_list; try discriminate Hiter; reflexivity.
  - rewrite Hiter.
    destruct (open_and_header output_file mode w) as (Hf & Ho & Hs).
    cbv zeta in Hf, Ho, Hs. eexists. split; [reflexivity|]. auto.
Qed.

(** The theorem at the number 5, without debugging. *)
Lemma not_iterable_after_open_witness :
  exists w',
    process_vehicle_data example_runtime (JInt 5) (lit "private")
      (lit "out.csv") ModeW false empty_world = (w', Raise TypeError)
    /\ files w' = <[lit "out.csv" := [HeaderLine headers]]> (files empty_world)
    /\ opens w' = opens empty_world ++ [(lit "out.csv", ModeW)]
    /\ stdout w' = stdout empty_world.
Proof.
  exact (proj2 (not_iterable_after_open example_runtime (JInt 5) (lit "private")
                  (lit "out.csv") ModeW false empty_world TypeError eq_refl)
           eq_refl).
Defined.

(** X16: the exceptions that leave [process_vehicle_data] are those of the
    debugging block, when it is entered and the list does not start with a
    record ([AttributeError], [KeyError], [TypeError]), and else the
    [TypeError] of a value that cannot be iterated.  No exception of a
    record leaves the call, nor does the handlers' reading of an
    [ad_number] that no item has bound. *)
Theorem exceptions_that_escape (rt : runtime) (json_list : json)
    (listing_type output_file : pystr) (mode : open_mode) (debug : bool)
    (w : world) (e : exn) :
  snd (process_vehicle_data rt json_list listing_type output_file mode debug w)
  = Raise e ->
  debug && py_truthy json_list = true
  /\ (forall m rest, json_list <> JList (JObj m :: rest))
  /\ (e = AttributeError \/ e = KeyError \/ e = TypeError)
  \/ debug && py_truthy json_list = false
     /\ py_iter json_list = Raise e
     /\ e = TypeError.
Proof.
  intros H.
  destruct (debug && py_truthy json_list) eqn:Ed.
  - left. split; [reflexivity|].
    assert (Hfirst : forall m rest, json_list <> JList (JObj m :: rest)).
    { intros m rest ->.
      destruct (process_vehicle_data_items rt (JList (JObj m :: rest))
                  (JObj m :: rest) listing_type output_file mode debug w
                  eq_refl (or_intror (ex_intro _ m (ex_intro _ rest eq_refl))))
        as (w' & msgs & Hok & _).
      rewrite Hok in H. discriminate H. }
    split; [exact Hfirst|].
    unfold process_vehicle_data in H. rewrite Ed in H.
    unfold debug_inspect in H.
    apply andb_prop in Ed as [_ Ht].
    destruct json_list as [ | b | z | f | s | l | m];
      cbn [py_getitem0 snd] in H; try (injection H as <-; auto).
    + destruct s; [discriminate Ht|]. cbn [snd] in H. injection H as <-. auto.
    + destruct l as [|x l]; [discriminate Ht|].
      destruct x; cbn [snd] in H; try (injection H as <-; auto).
      exfalso. exact (Hfirst _ _ eq_refl).
  - right. split; [reflexivity|].
    destruct (py_iter json_list) as [items|e'] eqn:Hiter.
    + destruct (process_vehicle_data_items rt json_list items listing_type
                  output_file mode debug w Hiter (or_introl Ed))
        as (w' & msgs & Hok & _).
      rewrite Hok in H. discriminate H.
    + unfold process_vehicle_data in H. rewrite Ed, Hiter in H.
      cbn [snd] in H. injection H as <-. split; [reflexivity|].
      destruct json_list; try discriminate Hiter; cbn in Hiter; congruence.
Qed.

(** The theorem at a list that starts with a number, with debugging. *)
Lemma exceptions_that_escape_witness :
  snd (process_vehicle_data example_runtime (JList [JInt 5])
         (lit "commercial") (lit "out.csv") ModeW true empty_world)
  = Raise AttributeError
  /\ forall m rest, JList [JInt 5] <> JList (JObj m :: rest).
Proof.
  split; [reflexivity|].
  destruct (exceptions_that_escape example_runtime (JList [JInt 5])
              (lit "commercial") (lit "out.csv") ModeW true empty_world
              AttributeError eq_refl) as [(_ & H & _)|(H & _)];
    [exact H|discriminate H].
Defined.

(** *** The files a run reads *)

Lemma for_files_selected (rt : runtime) (path : pystr)
    (entries : list dir_entry) :
  forall s,
    for_files rt path entries s
    = for_files rt path
        (List.filter (fun e => selected rt (entry_name e)) entries) s.
Proof.
  induction entries as [|e entries IH]; intros s; [reflexivity|].
  cbn [for_files List.filter]. unfold selected at 1.
  destruct (ends_with (lit ".html") (entry_name e)
            && str_contains (today rt) (entry_name e)) eqn:E.
  - cbn [for_files]. rewrite E. apply IH.
  - apply IH.
Qed.

(** X17: the files of the listing whose name does not pass the filter of
    line 166 play no part: the run is the run on the selected files
    alone. *)
Theorem unselected_files_ignored (rt : runtime) (directory_path : pystr)
    (debug : bool) (entries : list dir_entry) (w : world) :
  process_directory rt directory_path debug entries w
  = process_directory rt directory_path debug
      (List.filter (fun e => selected rt (entry_name e)) entries) w.
Proof. unfold process_directory. rewrite for_files_selected. reflexivity. Qed.

Lemma str_contains_spec (sub s : pystr) :
  str_contains sub s = true <-> exists a b, s = a ++ sub ++ b.
Proof.
  split.
  - induction s as [|c s IH]; cbn [str_contains]; intros H.
    + rewrite orb_false_r in H. apply starts_with_spec in H as [b ->].
      exists [], b. reflexivity.
    + apply orb_prop in H as [H|H].
      * apply starts_with_spec in H as [b ->]. exists [], b. reflexivity.
      * destruct (IH H) as (a & b & ->). exists (c :: a), b. reflexivity.
  - intros (a & b & ->). induction a as [|c a IH].
    + cbn [app]. assert (H : starts_with sub (sub ++ b) = true)
        by (apply starts_with_spec; eauto).
      destruct (sub ++ b); cbn [str_contains]; rewrite H; reflexivity.
    + cbn [app str_contains]. rewrite IH. apply orb_true_r.
Qed.

Lemma ends_with_spec (suffix s : pystr) :
  ends_with suffix s = true <-> exists a, s = a ++ suffix.
Proof.
  unfold ends_with. rewrite starts_with_spec. split.
  - intros [post H]. exists (rev post).
    apply (f_equal (@rev N)) in H.
    rewrite rev_involutive, rev_app_distr, rev_involutive in H. exact H.
  - intros [a ->]. exists (rev a). apply rev_app_distr.
Qed.

Lemma summary_not_selected (rt : runtime) (name : pystr) :
  selected rt (name ++ lit "_summary.csv") = false.
Proof.
  unfold selected, ends_with. rewrite rev_app_distr.
  change (rev (lit "_summary.csv"))
    with (0x76%N :: rev (lit "_summary.cs")).
  reflexivity.
Qed.

(** X19: the summary file is never read as an input: an entry of the
    listing that bears its name is passed over, whatever it holds. *)
Theorem own_output_not_read (rt : runtime) (directory_path : pystr)
    (debug : bool) (before after : list dir_entry) (content : file_content)
    (w : world) :
  process_directory rt directory_path debug
    (before
     ++ {| entry_name := path_name directory_path ++ lit "_summary.csv";
           entry_content := content |} :: after) w
  = process_directory rt directory_path debug (before ++ after) w.
Proof.
  unfold process_directory.
  rewrite (for_files_selected rt _ (before ++ _ :: after)).
  rewrite (for_files_selected rt _ (before ++ after)).
  rewrite !List.filter_app. cbn [List.filter entry_name].
  rewrite summary_not_selected. reflexivity.
Qed.

(** *** The path of the summary file *)

Lemma split_on_no_sep (sep : N) (s : pystr) :
  sep ∉ s -> forall cur, split_on sep s cur = [rev cur ++ s].
Proof.
  induction s as [|c s IH]; intros Hs cur; cbn [split_on].
  - rewrite app_nil_r. reflexivity.
  - apply not_elem_of_cons in Hs as [Hc Hs].
    rewrite (proj2 (N.eqb_neq c sep)) by congruence.
    rewrite (IH Hs). cbn [rev]. rewrite <- app_assoc. reflexivity.
Qed.

Lemma split_on_last (sep : N) (name s : pystr) :
  sep ∉ name ->
  forall cur, exists l, split_on sep (s ++ sep :: name) cur = l ++ [name].
Proof.
  intros Hname. induction s as [|c s IH]; intros cur; cbn [app split_on].
  - rewrite N.eqb_refl. rewrite (split_on_no_sep _ _ Hname []).
    exists [rev cur]. reflexivity.
  - destruct (c =? sep)%N.
    + destruct (IH []) as [l ->]. exists (rev cur :: l). reflexivity.
    + apply IH.
Qed.

Lemma path_name_last (prefix name : pystr) :
  prefix = [] \/ (exists p, prefix = p ++ lit "/") ->
  name <> [] -> name <> lit "." -> 0x2F%N ∉ name ->
  path_name (prefix ++ name) = name.
Proof.
  intros Hprefix Hne Hdot Hslash. unfold path_name.
  assert (Hparts : exists l, split_on 0x2F (prefix ++ name) [] = l ++ [name]).
  { destruct Hprefix as [-> | [p ->]].
    - exists []. cbn [app]. exact (split_on_no_sep _ _ Hslash []).
    - rewrite <- app_assoc. exact (split_on_last _ _ p Hslash []). }
  destruct Hparts as [l ->]. rewrite List.filter_app. cbn [List.filter].
  rewrite !bool_decide_eq_false_2 by assumption. cbn [orb negb].
  rewrite last_snoc. reflexivity.
Qed.

(** X20: for a directory path whose last component [name] is not empty,
    not [.] and is not followed by a slash, the summary file is
    [name_summary.csv] inside that directory. *)
Theorem output_path_in_directory (prefix name : pystr) :
  prefix = [] \/ (exists p, prefix = p ++ lit "/") ->
  name <> [] -> name <> lit "." -> 0x2F%N ∉ name ->
  output_path_of (prefix ++ name)
  = prefix ++ name ++ lit "/" ++ name ++ lit "_summary.csv".
Proof.
  intros Hprefix Hne Hdot Hslash. unfold output_path_of.
  rewrite (path_name_last _ _ Hprefix Hne Hdot Hslash). unfold os_path_join.
  assert (Hhead : starts_with (lit "/") (name ++ lit "_summary.csv") = false).
  { destruct name as [|c name]; [congruence|].
    apply not_elem_of_cons in Hslash as [Hc _].
    change (lit "/") with [0x2F%N]. cbn [app starts_with].
    rewrite (proj2 (N.eqb_neq _ _)) by congruence. reflexivity. }
  assert (Htail : ends_with (lit "/") (prefix ++ name) = false).
  { unfold ends_with. rewrite rev_app_distr.
    destruct (rev name) as [|c r] eqn:E.
    - apply (f_equal (@rev N)) in E. rewrite rev_involutive in E.
      cbn [rev] in E. congruence.
    - assert (Hc : c ∈ name).
      { apply list_elem_of_In, in_rev. rewrite E. now left. }
      change (rev (lit "/")) with [0x2F%N]. cbn [app starts_with].
      rewrite (proj2 (N.eqb_neq _ _)); [reflexivity|].
      intros <-. exact (Hslash Hc). }
  rewrite Hhead, Htail.
  rewrite bool_decide_eq_false_2 by (destruct prefix, name; cbn; congruence).
  cbn [orb]. rewrite <- app_assoc. reflexivity.
Qed.

(** The theorem at [data/scraped_vehicles]. *)
Lemma output_path_in_directory_witness :
  output_path_of (lit "data/" ++ lit "scraped_vehicles")
  = lit "data/" ++ lit "scraped_vehicles" ++ lit "/" ++ lit "scraped_vehicles"
    ++ lit "_summary.csv".
Proof.
  apply (output_path_in_directory (lit "data/") (lit "scraped_vehicles")).
  - right. exists (lit "data"). reflexivity.
  - discriminate.
  - discriminate.
  - apply (bool_decide_unpack _). vm_compute. exact I.
Defined.

(** *** A run that finds the summary file *)

(** X21: when the summary file exists before the run, nothing of it is
    lost and no header is written: the rows of the selected files are
    appended to what it held, so a second run on the same day repeats the
    rows of the first. *)
Theorem rerun_appends (rt : runtime) (directory_path : pystr) (debug : bool)
    (pages : list (pystr * page)) (w : world) (old : list csv_line) :
  files w !! output_path_of directory_path = Some old ->
  files (process_directory rt directory_path debug (page_entry <$> pages) w)
    !! output_path_of directory_path
  = Some (old
          ++ (DataLine <$> concat (page_rows rt <$> selected_pages rt pages))).
Proof.
  intros Hold. unfold process_directory. cbn [print files].
  rewrite for_files_pages. cbn [fst]. rewrite Hold.
  destruct (batches_of_pages rt (selected_pages rt pages)) as (H1 & H2 & H3).
  rewrite (accumulate_all _ H1), <- H3.
  destruct (existsb fst _) eqn:E; [reflexivity|].
  rewrite (unwritten_no_rows _ H1 E). cbn. rewrite app_nil_r. reflexivity.
Qed.

(** The theorem at a summary file that exists and is empty. *)
Lemma rerun_appends_witness :
  files (process_directory example_runtime (lit "scraped_vehicles") true
           (page_entry <$> three_pages)
           {| files := {[ output_path_of (lit "scraped_vehicles") := [] ]};
              stdout := []; opens := [] |})
    !! output_path_of (lit "scraped_vehicles")
  = Some ([]
          ++ (DataLine
                <$> concat (page_rows example_runtime
                              <$> selected_pages example_runtime three_pages))).
Proof.
  apply (rerun_appends example_runtime (lit "scraped_vehicles") true
           three_pages _ []).
  apply lookup_singleton_eq.
Defined.

(** *** Properties a run keeps *)

Lemma preserves_and_then {A B : Type} (J : dir_state -> Prop) (m : action A)
    (k : A -> action B) :
  preserves J m -> (forall a, preserves J (k a)) -> preserves J (and_then m k).
Proof.
  intros Hm Hk s Hs. unfold and_then.
  specialize (Hm s Hs).
  destruct (m s) as [s' [a|e]]; cbn [fst] in *; [|exact Hm].
  exact (Hk a s' Hm).
Qed.

Lemma preserves_eval {A : Type} (J : dir_state -> Prop) (r : result A) :
  preserves J (eval r).
Proof. intros s Hs. exact Hs. Qed.

Section Preserved.

Variable rt : runtime.
Variable path : pystr.
Variable J : dir_state -> Prop.

(** What a property has to stand to be kept by a run: a line of progress
    printed, a list written without debugging, the commercial list written
    with the value of [debug], and [debug] switched off. *)
Hypothesis J_print :
  forall m s, is_progress m = true -> J s -> J (print m (fst s), snd s).
Hypothesis J_write :
  forall json_list listing_type mode debug s,
    debug = false \/ debug = snd s /\ listing_type = lit "commercial" ->
    J s ->
    J (fst (process_vehicle_data rt json_list listing_type path mode debug
              (fst s)), snd s).
Hypothesis J_debug_off : forall s, J s -> J (fst s, false).

Lemma preserves_commercial (json_list : json) :
  preserves J
    (and_then (choose_mode path) (fun mode =>
     and_then get_debug (fun debug =>
     and_then (on_world (process_vehicle_data rt json_list (lit "commercial")
                           path mode debug)) (fun _ =>
     set_debug false)))).
Proof.
  intros [w debug] Hs.
  unfold and_then, choose_mode, get_debug, on_world, set_debug. cbn [fst snd].
  pose proof (J_write json_list (lit "commercial")
                (if path_exists path w then ModeA else ModeW) debug (w, debug)
                (or_intror (conj eq_refl eq_refl)) Hs) as H.
  cbn [fst snd] in H.
  destruct (process_vehicle_data _ _ _ _ _ _ _) as [w' [[]|e]]; cbn [fst] in *.
  - exact (J_debug_off _ H).
  - exact H.
Qed.

Lemma preserves_other (json_list : json) (listing_type : pystr) :
  preserves J
    (and_then (choose_mode path) (fun mode =>
     on_world (process_vehicle_data rt json_list listing_type path mode false))).
Proof.
  intros [w debug] Hs.
  unfold and_then, choose_mode, on_world. cbn [fst snd].
  pose proof (J_write json_list listing_type
                (if path_exists path w then ModeA else ModeW) false (w, debug)
                (or_introl eq_refl) Hs) as H.
  cbn [fst snd] in H.
  destruct (process_vehicle_data _ _ _ _ _ _ _) as [w' [[]|e]]; exact H.
Qed.

Lemma preserves_process_file (e : dir_entry) :
  preserves J (process_file rt path e).
Proof.
  unfold process_file. destruct (entry_content e); [apply preserves_eval|].
  apply preserves_and_then.
  { intros s Hs. unfold on_world. cbn [fst].
    apply J_print; [reflexivity|exact Hs]. }
  intros _.
  repeat first
    [ apply preserves_eval
    | apply preserves_commercial
    | apply preserves_other
    | apply preserves_and_then
    | match goal with
      | |- forall _, preserves _ _ => intros ?
      | |- preserves _ (if ?c then _ else _) => destruct c
      end ].
Qed.

Lemma for_files_preserves (entries : list dir_entry) :
  forall s, J s -> J (for_files rt path entries s).
Proof.
  induction entries as [|e entries IH]; intros s Hs; [exact Hs|].
  cbn [for_files]. apply IH.
  destruct (ends_with _ _ && str_contains _ _); [|exact Hs].
  pose proof (preserves_process_file e s Hs) as H.
  destruct (process_file rt path e s) as [s' [[]|err]]; cbn [fst] in *.
  - exact H.
  - apply J_print; [reflexivity|exact H].
Qed.

End Preserved.

(** X22: a run writes to no file but the summary: every other file is as
    before, and every [open] for writing is of the summary's path. *)
Theorem only_summary_written (rt : runtime) (directory_path : pystr)
    (debug : bool) (entries : list dir_entry) (w : world) :
  let output_path := output_path_of directory_path in
  let w' := process_directory rt directory_path debug entries w in
  (forall path, path <> output_path -> files w' !! path = files w !! path)
  /\ exists new_opens,
      opens w' = opens w ++ new_opens
      /\ Forall (fun o => fst o = output_path) new_opens.
Proof.
  cbv zeta. unfold process_directory. cbn [print files opens].
  set (output_path := output_path_of directory_path).
  set (J := fun s : dir_state =>
              (forall path, path <> output_path ->
                            files (fst s) !! path = files w !! path)
              /\ exists new_opens,
                  opens (fst s) = opens w ++ new_opens
                  /\ Forall (fun o => fst o = output_path) new_opens).
  apply (for_files_preserves rt output_path J).
  - intros m s _ Hs. exact Hs.
  - intros json_list listing_type mode dbg s _ [Hf (new_opens & Ho & Hall)].
    destruct (process_vehicle_data_files rt json_list listing_type output_path
                mode dbg (fst s)) as [[Hf' Ho'] | (rows & Hf' & Ho')];
      cbv zeta in Hf', Ho'; subst J; cbn [fst snd].
    + rewrite Hf', Ho'. eauto.
    + split.
      * intros p Hp. rewrite Hf', lookup_insert_ne by congruence. auto.
      * exists (new_opens ++ [(output_path, mode)]).
        rewrite Ho', Ho, app_assoc. split; [reflexivity|].
        apply Forall_app. split; [exact Hall|]. repeat constructor.
  - intros s Hs. exact Hs.
  - split; [reflexivity|]. exists []. rewrite app_nil_r. split; [reflexivity|].
    constructor.
Qed.

(** *** What a run prints *)

Lemma process_vehicle_data_quiet (rt : runtime) (json_list : json)
    (listing_type output_file : pystr) (mode : open_mode) (w : world) :
  exists msgs,
    stdout (fst (process_vehicle_data rt json_list listing_type output_file
                   mode false w)) = stdout w ++ msgs
    /\ Forall (fun m => is_processed m = true) msgs.
Proof.
  destruct (py_iter json_list) as [items|e] eqn:Hiter.
  - destruct (process_vehicle_data_items rt json_list items listing_type
                output_file mode false w Hiter (or_introl eq_refl))
      as (w' & msgs & -> & _ & _ & Hs & Hd & _).
    rewrite (Hd eq_refl) in Hs. cbn [app] in Hs. cbn [fst].
    eexists. split; [exact Hs|].
    destruct (rows_of _ _ _); repeat constructor.
  - unfold process_vehicle_data. cbn [andb]. rewrite Hiter. cbn [fst].
    destruct (open_and_header output_file mode w) as (_ & _ & Hs).
    cbv zeta in Hs. exists []. rewrite app_nil_r. split; [exact Hs|constructor].
Qed.

(** X23: a run without debugging prints progress only (the names of the
    files, the counts of the batches, the failures of files) and, last, the
    path of the summary; it prints nothing about a record. *)
Theorem quiet_run (rt : runtime) (directory_path : pystr)
    (entries : list dir_entry) (w : world) :
  exists msgs,
    stdout (process_directory rt directory_path false entries w)
    = stdout w ++ msgs
    /\ Forall (fun m => is_progress m = true) msgs
    /\ last msgs = Some (OutputSaved (output_path_of directory_path)).
Proof.
  unfold process_directory. cbn [print stdout].
  set (output_path := output_path_of directory_path).
  set (J := fun s : dir_state =>
              snd s = false
              /\ exists msgs,
                  stdout (fst s) = stdout w ++ msgs
                  /\ Forall (fun m => is_progress m = true) msgs).
  assert (H : J (for_files rt output_path entries (w, false))).
  { apply (for_files_preserves rt output_path J).
    - intros m s Hm [Hd (msgs & Hs & Hall)]. split; [exact Hd|].
      cbn [fst print stdout]. exists (msgs ++ [m]).
      rewrite Hs, app_assoc. split; [reflexivity|].
      apply Forall_app. split; [exact Hall|]. repeat constructor. exact Hm.
    - intros json_list listing_type mode dbg s Hdbg [Hd (msgs & Hs & Hall)].
      assert (dbg = false) as -> by (destruct Hdbg as [H|[H _]]; congruence).
      split; [exact Hd|]. cbn [fst].
      destruct (process_vehicle_data_quiet rt json_list listing_type
                  output_path mode (fst s)) as (msgs' & Hs' & Hall').
      exists (msgs ++ msgs'). rewrite Hs', Hs, app_assoc.
      split; [reflexivity|]. apply Forall_app. split; [exact Hall|].
      eapply Forall_impl; [exact Hall'|].
      intros m Hm. destruct m; try discriminate Hm. reflexivity.
    - intros s [_ H]. split; [reflexivity|exact H].
    - split; [reflexivity|]. exists []. rewrite app_nil_r.
      split; [reflexivity|constructor]. }
  destruct H as [_ (msgs & Hs & Hall)].
  exists (msgs ++ [OutputSaved output_path]).
  rewrite Hs, app_assoc. split; [reflexivity|].
  split; [|apply last_snoc].
  apply Forall_app. split; [exact Hall|]. repeat constructor.
Qed.

(** *** What the debugging block prints *)

Lemma handle_stdout (debug : bool) (e : exn) (st : loop_state) :
  exists msgs,
    stdout (loop_world (fst (handle debug e st)))
    = stdout (loop_world st) ++ msgs
    /\ Forall (fun m => is_detail m = true) msgs.
Proof.
  unfold handle. destruct debug; [|exists []; rewrite app_nil_r; auto].
  destruct (ad_number st) as [a|]; [|exists []; rewrite app_nil_r; auto].
  eexists [_]. split; [reflexivity|]. repeat constructor.
  destruct e; reflexivity.
Qed.

Lemma loop_body_stdout (rt : runtime) (listing_type output_file : pystr)
    (debug : bool) (item : json) (st : loop_state) :
  exists msgs,
    stdout (loop_world
              (fst (loop_body rt listing_type output_file debug item st)))
    = stdout (loop_world st) ++ msgs
    /\ Forall (fun m => is_detail m = true) msgs.
Proof.
  unfold loop_body.
  destruct (get_ad_number item) as [a|e]; [|apply handle_stdout].
  destruct (convert rt listing_type item a) as [[row|]|e];
    [destruct (writerow rt row) as [[]|e]| |];
    try apply (handle_stdout debug _
                 {| loop_world := loop_world st;
                    processed_count := processed_count st;
                    ad_number := Some a |});
    exists []; rewrite app_nil_r; auto.
Qed.

Lemma for_items_stdout (rt : runtime) (listing_type output_file : pystr)
    (debug : bool) (items : list json) :
  forall st,
    exists msgs,
      stdout (loop_world
                (fst (for_items rt listing_type output_file debug items st)))
      = stdout (loop_world st) ++ msgs
      /\ Forall (fun m => is_detail m = true) msgs.
Proof.
  induction items as [|item items IH]; intros st.
  - exists []. rewrite app_nil_r. auto.
  - cbn [for_items].
    destruct (loop_body_stdout rt listing_type output_file debug item st)
      as (msgs1 & Hs1 & Hb1).
    destruct (loop_body rt listing_type output_file debug item st)
      as [st1 [[]|e]]; cbn [fst] in *; [|eauto].
    destruct (IH st1) as (msgs2 & Hs2 & Hb2).
    exists (msgs1 ++ msgs2). rewrite Hs2, Hs1, app_assoc.
    split; [reflexivity|]. apply Forall_app. auto.
Qed.

(** What a call prints: the banner of the debugging block when the block is
    entered, then details. *)
Lemma process_vehicle_data_stdout (rt : runtime) (json_list : json)
    (listing_type output_file : pystr) (mode : open_mode) (debug : bool)
    (w : world) :
  exists msgs,
    stdout (fst (process_vehicle_data rt json_list listing_type output_file
                   mode debug w))
    = stdout w
      ++ (if debug && py_truthy json_list
          then [DebugBanner listing_type] else [])
      ++ msgs
    /\ Forall (fun m => is_detail m = true) msgs.
Proof.
  unfold process_vehicle_data.
  set (banner := if debug && py_truthy json_list
                 then [DebugBanner listing_type] else []).
  set (inspected :=
         if debug && py_truthy json_list
         then debug_inspect json_list listing_type w else (w, Ok tt)).
  assert (Hin : exists msgs0,
             stdout (fst inspected) = stdout w ++ banner ++ msgs0
             /\ Forall (fun m => is_detail m = true) msgs0).
  { subst inspected banner.
    destruct (debug && py_truthy json_list);
      [|exists []; rewrite !app_nil_r; auto].
    unfold debug_inspect.
    destruct (py_getitem0 json_list) as [[ | | | | | |obj]|];
      cbn [fst print stdout];
      try (exists []; rewrite app_nil_r; split; [reflexivity|constructor]).
    exists [DebugItem (JObj obj)].
    split; [symmetry; apply (app_assoc _ [_] [_])|]. repeat constructor. }
  destruct Hin as (msgs0 & Hs0 & Hb0).
  destruct inspected as [w0 [[]|e]]; cbn [fst] in *; [|eauto].
  destruct (open_and_header output_file mode w0) as (_ & _ & Hs).
  cbv zeta in Hs.
  set (w2 := match mode with
             | ModeW => write_line output_file (HeaderLine headers)
                          (open_file output_file mode w0)
             | ModeA => open_file output_file mode w0
             end) in *.
  destruct (py_iter json_list) as [items|e]; cbn [fst];
    [|rewrite Hs; eauto].
  destruct (for_items_stdout rt listing_type output_file debug items
              {| loop_world := w2; processed_count := 0; ad_number := None |})
    as (msgs1 & Hs1 & Hb1).
  cbn [loop_world] in Hs1.
  destruct (for_items _ _ _ _ _ _) as [st [[]|e]]; cbn [fst] in *.
  - destruct (0 <? processed_count st); cbn [print stdout].
    + exists (msgs0 ++ msgs1 ++ [Processed (processed_count st)]).
      rewrite Hs1, Hs, Hs0, <- !app_assoc. split; [reflexivity|].
      apply Forall_app. split; [exact Hb0|]. apply Forall_app.
      split; [exact Hb1|]. repeat constructor.
    + exists (msgs0 ++ msgs1). rewrite Hs1, Hs, Hs0, <- !app_assoc.
      split; [reflexivity|]. apply Forall_app. auto.
  - exists (msgs0 ++ msgs1). rewrite Hs1, Hs, Hs0, <- !app_assoc.
    split; [reflexivity|]. apply Forall_app. auto.
Qed.

(** A file that can be opened is announced before anything else is printed
    for it. *)
Lemma process_file_announced (rt : runtime) (path : pystr) (e : dir_entry)
    (extracted : result json) (s : dir_state) :
  entry_content e = Readable extracted ->
  exists msgs,
    stdout (fst (fst (process_file rt path e s)))
    = stdout (fst s) ++ ProcessingFile (entry_name e) :: msgs.
Proof.
  intros Hc. unfold process_file. rewrite Hc.
  set (s0 := (print (ProcessingFile (entry_name e)) (fst s), snd s)).
  rewrite (and_then_Ok _ _ s s0 tt) by reflexivity.
  set (J := fun s' : dir_state =>
              exists msgs,
                stdout (fst s')
                = stdout (fst s) ++ ProcessingFile (entry_name e) :: msgs).
  assert (HJw : forall json_list listing_type mode debug (s' : world * bool),
             debug = false \/ debug = snd s' /\ listing_type = lit "commercial" ->
             J s' ->
             J (fst (process_vehicle_data rt json_list listing_type path mode
                       debug (fst s')), snd s')).
  { intros json_list listing_type mode dbg s' _ [msgs Hs].
    destruct (process_vehicle_data_stdout rt json_list listing_type path mode
                dbg (fst s')) as (msgs' & Hs' & _).
    eexists. cbn [fst]. rewrite Hs', Hs, <- app_assoc. cbn [app]. reflexivity. }
  assert (HJd : forall s' : dir_state, J s' -> J (fst s', false))
    by (intros s' H; exact H).
  match goal with
  | |- exists msgs, stdout (fst (fst (?k s0))) = _ =>
    assert (Hk : preserves J k)
  end.
  { repeat first
      [ apply preserves_eval
      | apply (preserves_commercial rt path J HJw HJd)
      | apply (preserves_other rt path J HJw)
      | apply preserves_and_then
      | match goal with
        | |- forall _, preserves _ _ => intros ?
        | |- preserves _ (if ?c then _ else _) => destruct c
        end ]. }
  apply (Hk s0). exists []. reflexivity.
Qed.

(** X18: a file of the listing is read exactly when its name ends in
    [.html] and [today] occurs in it: in a run on a directory that holds
    this file alone, the first line printed is then the file's, its name
    when it can be opened and its failure when it cannot; otherwise the run
    prints its last line only. *)
Theorem file_read_iff (rt : runtime) (directory_path : pystr) (debug : bool)
    (e : dir_entry) (w : world) :
  (exists m msgs,
     stdout (process_directory rt directory_path debug [e] w)
     = stdout w ++ m :: msgs ++ [OutputSaved (output_path_of directory_path)]
     /\ (m = ProcessingFile (entry_name e)
         \/ exists err, m = ErrorFile (entry_name e) err))
  <-> (exists stem, entry_name e = stem ++ lit ".html")
      /\ (exists a b, entry_name e = a ++ today rt ++ b).
Proof.
  rewrite <- ends_with_spec, <- str_contains_spec, <- andb_true_iff.
  unfold process_directory. cbn [for_files print stdout].
  destruct (ends_with (lit ".html") (entry_name e)
            && str_contains (today rt) (entry_name e)); split.
  - reflexivity.
  - intros _.
    destruct (entry_content e) as [err|extracted] eqn:Hc.
    + unfold process_file. rewrite Hc. cbn [eval fst snd print stdout].
      exists (ErrorFile (entry_name e) err), [].
      rewrite <- app_assoc. split; [reflexivity|]. right. eauto.
    + destruct (process_file_announced rt (output_path_of directory_path) e
                  extracted (w, debug) Hc) as [msgs Hs].
      cbn [fst] in Hs.
      destruct (process_file rt (output_path_of directory_path) e (w, debug))
        as [s' [[]|err]]; cbn [fst snd print stdout] in *.
      * exists (ProcessingFile (entry_name e)), msgs.
        rewrite Hs, <- app_assoc. split; [reflexivity|]. left. reflexivity.
      * exists (ProcessingFile (entry_name e)),
          (msgs ++ [ErrorFile (entry_name e) err]).
        rewrite Hs, <- !app_assoc. split; [reflexivity|]. left. reflexivity.
  - intros (m & msgs & H & _). cbn [fst] in H.
    apply app_inv_head in H. apply (f_equal (@length message)) in H.
    cbn [length] in H. rewrite length_app in H. cbn [length] in H. lia.
  - discriminate.
Qed.

Lemma detail_not_banner (msgs : list message) :
  Forall (fun m => is_detail m = true) msgs ->
  Forall (fun m => is_banner m = false /\ is_file_error m = false) msgs.
Proof.
  intros H. eapply Forall_impl; [exact H|].
  intros m Hm. destruct m; try discriminate Hm; auto.
Qed.

(** X24: the debugging block runs for commercial lists only, and only in
    a run started with debugging: every banner printed names the commercial
    category. *)
Theorem debug_commercial_only (rt : runtime) (directory_path : pystr)
    (debug : bool) (entries : list dir_entry) (w : world) :
  exists msgs,
    stdout (process_directory rt directory_path debug entries w)
    = stdout w ++ msgs
    /\ Forall (fun m => forall banner, m = DebugBanner banner ->
                         banner = lit "commercial" /\ debug = true) msgs.
Proof.
  unfold process_directory. cbn [print stdout].
  set (output_path := output_path_of directory_path).
  set (ok := fun m : message =>
               forall banner, m = DebugBanner banner ->
                              banner = lit "commercial" /\ debug = true).
  set (J := fun s : dir_state =>
              (snd s = true -> debug = true)
              /\ exists msgs,
                  stdout (fst s) = stdout w ++ msgs /\ Forall ok msgs).
  assert (H : J (for_files rt output_path entries (w, debug))).
  { apply (for_files_preserves rt output_path J).
    - intros m s Hm [Hd (msgs & Hs & Hall)]. split; [exact Hd|].
      cbn [fst print stdout]. exists (msgs ++ [m]).
      rewrite Hs, app_assoc. split; [reflexivity|].
      apply Forall_app. split; [exact Hall|].
      constructor; [|constructor]. intros banner ->. discriminate Hm.
    - intros json_list listing_type mode dbg s Hdbg [Hd (msgs & Hs & Hall)].
      split; [exact Hd|]. cbn [fst].
      destruct (process_vehicle_data_stdout rt json_list listing_type
                  output_path mode dbg (fst s)) as (msgs' & Hs' & Hall').
      eexists. rewrite Hs', Hs, <- app_assoc. split; [reflexivity|].
      apply Forall_app. split; [exact Hall|]. apply Forall_app. split.
      + destruct dbg; cbn [andb]; [|constructor].
        destruct (py_truthy json_list); constructor; [|constructor].
        intros banner E. injection E as <-.
        destruct Hdbg as [H|[H ->]]; [discriminate H|].
        split; [reflexivity|]. apply Hd. symmetry. exact H.
      + eapply Forall_impl; [exact Hall'|].
        intros m Hm banner ->. discriminate Hm.
    - intros s [_ H]. split; [discriminate|exact H].
    - split; [auto|]. exists []. rewrite app_nil_r.
      split; [reflexivity|constructor]. }
  destruct H as [_ (msgs & Hs & Hall)].
  exists (msgs ++ [OutputSaved output_path]).
  rewrite Hs, app_assoc. split; [reflexivity|].
  apply Forall_app. split; [exact Hall|].
  constructor; [discriminate|constructor].
Qed.

(** *** How often the debugging block runs *)

Lemma count_app (kind : message -> bool) (a b : list message) :
  count kind (a ++ b) = (count kind a + count kind b)%nat.
Proof. unfold count. rewrite List.filter_app, length_app. reflexivity. Qed.

Lemma count_none (kind : message -> bool) (msgs : list message) :
  Forall (fun m => kind m = false) msgs -> count kind msgs = 0%nat.
Proof.
  unfold count. induction 1 as [|m msgs Hm _ IH]; [reflexivity|].
  cbn [List.filter]. rewrite Hm. exact IH.
Qed.

Lemma count_details (msgs : list message) :
  Forall (fun m => is_detail m = true) msgs ->
  count is_banner msgs = 0%nat /\ count is_file_error msgs = 0%nat.
Proof.
  intros H. apply detail_not_banner in H.
  split; apply count_none; (eapply Forall_impl; [exact H|]); intros m Hm;
    apply Hm.
Qed.

Lemma ensures_and_then {A B : Type} (J Jr : dir_state -> Prop) (m : action A)
    (k : A -> action B) :
  ensures J Jr m -> (forall a, ensures J Jr (k a)) ->
  ensures J Jr (and_then m k).
Proof.
  intros Hm Hk s Hs. unfold and_then. specialize (Hm s Hs).
  destruct (m s) as [s' [a|e]]; [exact (Hk a s' Hm)|exact Hm].
Qed.

Lemma ensures_eval {A : Type} (J Jr : dir_state -> Prop) (r : result A) :
  (forall s, J s -> Jr s) -> ensures J Jr (eval r).
Proof. intros Hweak s Hs. unfold eval. destruct r; auto. Qed.

Section Banners.

Variable rt : runtime.
Variable path : pystr.
Variable w0 : world.

(** So far the debugging block has run at most once more than files have
    failed, and not even that while [debug] is on. *)
Let J (s : dir_state) : Prop :=
  exists msgs,
    stdout (fst s) = stdout w0 ++ msgs
    /\ (count is_banner msgs
        <= count is_file_error msgs + (if snd s then 0 else 1))%nat.

Let Jr (s : dir_state) : Prop :=
  exists msgs,
    stdout (fst s) = stdout w0 ++ msgs
    /\ (count is_banner msgs <= count is_file_error msgs + 1)%nat.

Lemma banners_weaken (s : dir_state) : J s -> Jr s.
Proof.
  intros (msgs & Hs & Hc). exists msgs. split; [exact Hs|].
  destruct (snd s); lia.
Qed.

Lemma ensures_commercial (json_list : json) :
  ensures J Jr
    (and_then (choose_mode path) (fun mode =>
     and_then get_debug (fun debug =>
     and_then (on_world (process_vehicle_data rt json_list (lit "commercial")
                           path mode debug)) (fun _ =>
     set_debug false)))).
Proof.
  intros [w debug] (msgs & Hs & Hc). cbn [fst snd] in Hs, Hc.
  unfold and_then, choose_mode, get_debug, on_world, set_debug. cbn [fst snd].
  destruct (process_vehicle_data_stdout rt json_list (lit "commercial") path
              (if path_exists path w then ModeA else ModeW) debug w)
    as (msgs' & Hs' & Hd').
  destruct (count_details _ Hd') as [Hb Hr].
  assert (Hnew :
    exists all,
      stdout (fst (process_vehicle_data rt json_list (lit "commercial") path
                     (if path_exists path w then ModeA else ModeW) debug w))
      = stdout w0 ++ all
      /\ (count is_banner all <= count is_file_error all + 1)%nat).
  { eexists. rewrite Hs', Hs, <- app_assoc. split; [reflexivity|].
    rewrite !count_app, Hb, Hr.
    destruct debug; cbn [andb];
      [destruct (py_truthy json_list)|]; cbn; lia. }
  destruct (process_vehicle_data _ _ _ _ _ _ _) as [w' [[]|e]];
    cbn [fst] in *; exact Hnew.
Qed.

Lemma ensures_other (json_list : json) (listing_type : pystr) :
  ensures J Jr
    (and_then (choose_mode path) (fun mode =>
     on_world (process_vehicle_data rt json_list listing_type path mode false))).
Proof.
  intros [w debug] (msgs & Hs & Hc). cbn [fst snd] in Hs, Hc.
  unfold and_then, choose_mode, on_world. cbn [fst snd].
  destruct (process_vehicle_data_stdout rt json_list listing_type path
              (if path_exists path w then ModeA else ModeW) false w)
    as (msgs' & Hs' & Hd').
  destruct (count_details _ Hd') as [Hb Hr].
  assert (Hnew : J (fst (process_vehicle_data rt json_list listing_type path
                           (if path_exists path w then ModeA else ModeW)
                           false w), debug)).
  { cbn [andb app] in Hs'. exists (msgs ++ msgs'). cbn [fst snd].
    rewrite Hs', Hs, app_assoc. split; [reflexivity|].
    rewrite !count_app, Hb, Hr. lia. }
  destruct (process_vehicle_data _ _ _ _ _ _ _) as [w' [[]|e]];
    cbn [fst] in *; [exact Hnew|exact (banners_weaken _ Hnew)].
Qed.

Lemma ensures_process_file (e : dir_entry) :
  ensures J Jr (process_file rt path e).
Proof.
  unfold process_file.
  destruct (entry_content e); [apply ensures_eval, banners_weaken|].
  apply ensures_and_then.
  { intros [w d] (msgs & Hs & Hc). cbn [fst snd] in Hs, Hc.
    unfold on_world. cbn [fst snd].
    exists (msgs ++ [ProcessingFile (entry_name e)]).
    cbn [fst snd print stdout]. rewrite Hs, app_assoc. split; [reflexivity|].
    rewrite !count_app. cbn. lia. }
  intros _.
  repeat first
    [ apply ensures_eval, banners_weaken
    | apply ensures_commercial
    | apply ensures_other
    | apply ensures_and_then
    | match goal with
      | |- forall _, ensures _ _ _ => intros ?
      | |- ensures _ _ (if ?c then _ else _) => destruct c
      end ].
Qed.

Lemma for_files_banners (entries : list dir_entry) :
  forall s, J s -> J (for_files rt path entries s).
Proof.
  induction entries as [|e entries IH]; intros s Hs; [exact Hs|].
  cbn [for_files]. apply IH.
  destruct (ends_with _ _ && str_contains _ _); [|exact Hs].
  pose proof (ensures_process_file e s Hs) as H.
  destruct (process_file rt path e s) as [s' [[]|err]]; [exact H|].
  destruct H as (msgs & Hs' & Hc).
  exists (msgs ++ [ErrorFile (entry_name e) err]).
  cbn [fst snd print stdout]. rewrite Hs', app_assoc. split; [reflexivity|].
  rewrite !count_app. cbn. destruct (snd s'); lia.
Qed.

End Banners.

(** X25: the debugging block runs for the first batch only, unless the
    file of that batch fails: in any run the banners printed are at most
    one more than the files that failed. *)
Theorem debug_once_per_failure (rt : runtime) (directory_path : pystr)
    (debug : bool) (entries : list dir_entry) (w : world) :
  exists msgs,
    stdout (process_directory rt directory_path debug entries w)
    = stdout w ++ msgs
    /\ (count is_banner msgs <= count is_file_error msgs + 1)%nat.
Proof.
  unfold process_directory. cbn [print stdout].
  destruct (for_files_banners rt (output_path_of directory_path) w entries
              (w, debug)) as (msgs & Hs & Hc).
  { exists []. rewrite app_nil_r. split; [reflexivity|]. cbn. lia. }
  exists (msgs ++ [OutputSaved (output_path_of directory_path)]).
  rewrite Hs, app_assoc. split; [reflexivity|].
  rewrite !count_app. cbn. destruct (snd _); lia.
Qed.

(** *** A file that fails *)

Lemma same_files_refl (w : world) : same_files w w.
Proof. split; reflexivity. Qed.

Lemma handle_same (debug : bool) (e : exn) (st st' : loop_state) :
  same_loop st st' ->
  same_loop (fst (handle debug e st)) (fst (handle debug e st'))
  /\ snd (handle debug e st) = snd (handle debug e st').
Proof.
  intros (Hw & Hc & Ha). unfold handle.
  destruct debug; [|split; [exact (conj Hw (conj Hc Ha))|reflexivity]].
  rewrite Ha. destruct (ad_number st') as [a|] eqn:E; cbn [fst snd].
  - split; [|reflexivity]. split; [exact Hw|]. split; [exact Hc|reflexivity].
  - split; [|reflexivity]. split; [exact Hw|]. split; [exact Hc|congruence].
Qed.

Lemma loop_body_same (rt : runtime) (listing_type output_file : pystr)
    (debug : bool) (item : json) (st st' : loop_state) :
  same_loop st st' ->
  same_loop (fst (loop_body rt listing_type output_file debug item st))
    (fst (loop_body rt listing_type output_file debug item st'))
  /\ snd (loop_body rt listing_type output_file debug item st)
     = snd (loop_body rt listing_type output_file debug item st').
Proof.
  intros (Hw & Hc & Ha). unfold loop_body.
  destruct (get_ad_number item) as [a|e].
  2:{ apply handle_same. repeat split; auto; apply Hw. }
  assert (Hst : same_loop
                  {| loop_world := loop_world st;
                     processed_count := processed_count st;
                     ad_number := Some a |}
                  {| loop_world := loop_world st';
                     processed_count := processed_count st';
                     ad_number := Some a |})
    by (repeat split; auto; apply Hw).
  destruct (convert rt listing_type item a) as [[row|]|e];
    [destruct (writerow rt row) as [[]|e]| |];
    try (apply handle_same; exact Hst).
  - unfold same_loop, same_files, write_line.
    cbn [fst snd loop_world processed_count ad_number files opens].
    destruct Hw as [Hf Ho]. rewrite Hf, Ho, Hc. repeat split.
  - split; [exact Hst|reflexivity].
Qed.

Lemma for_items_same (rt : runtime) (listing_type output_file : pystr)
    (debug : bool) (items : list json) :
  forall st st',
    same_loop st st' ->
    same_loop (fst (for_items rt listing_type output_file debug items st))
      (fst (for_items rt listing_type output_file debug items st'))
    /\ snd (for_items rt listing_type output_file debug items st)
       = snd (for_items rt listing_type output_file debug items st').
Proof.
  induction items as [|item items IH]; intros st st' Hst; [auto|].
  cbn [for_items].
  destruct (loop_body_same rt listing_type output_file debug item st st' Hst)
    as [Hs Hr].
  destruct (loop_body rt listing_type output_file debug item st) as [st1 r1].
  destruct (loop_body rt listing_type output_file debug item st') as [st1' r1'].
  cbn [fst snd] in Hs, Hr. subst r1'.
  destruct r1 as [[]|e]; [apply IH; exact Hs|auto].
Qed.

(** [process_vehicle_data] does not read what was printed. *)
Lemma process_vehicle_data_same (rt : runtime) (json_list : json)
    (listing_type output_file : pystr) (mode : open_mode) (debug : bool)
    (w w' : world) :
  same_files w w' ->
  same_files
    (fst (process_vehicle_data rt json_list listing_type output_file mode
            debug w))
    (fst (process_vehicle_data rt json_list listing_type output_file mode
            debug w'))
  /\ snd (process_vehicle_data rt json_list listing_type output_file mode
            debug w)
     = snd (process_vehicle_data rt json_list listing_type output_file mode
              debug w').
Proof.
  intros Hw. unfold process_vehicle_data.
  assert (Hin :
    same_files
      (fst (if debug && py_truthy json_list
            then debug_inspect json_list listing_type w else (w, Ok tt)))
      (fst (if debug && py_truthy json_list
            then debug_inspect json_list listing_type w' else (w', Ok tt)))
    /\ snd (if debug && py_truthy json_list
            then debug_inspect json_list listing_type w else (w, Ok tt))
       = snd (if debug && py_truthy json_list
              then debug_inspect json_list listing_type w' else (w', Ok tt))).
  { destruct (debug && py_truthy json_list); [|auto].
    unfold debug_inspect.
    destruct (py_getitem0 json_list) as [[]|]; auto. }
  destruct (if debug && py_truthy json_list
            then debug_inspect json_list listing_type w else (w, Ok tt))
    as [w0 r0].
  destruct (if debug && py_truthy json_list
            then debug_inspect json_list listing_type w' else (w', Ok tt))
    as [w0' r0'].
  cbn [fst snd] in Hin. destruct Hin as [[Hf0 Ho0] <-].
  destruct r0 as [[]|e]; [|repeat split; auto].
  set (w2 := match mode with
             | ModeW => write_line output_file (HeaderLine headers)
                          (open_file output_file mode w0)
             | ModeA => open_file output_file mode w0
             end).
  set (w2' := match mode with
              | ModeW => write_line output_file (HeaderLine headers)
                           (open_file output_file mode w0')
              | ModeA => open_file output_file mode w0'
              end).
  assert (H2 : same_files w2 w2').
  { subst w2 w2'. unfold same_files, write_line, open_file.
    destruct mode; cbn [files opens]; rewrite ?Hf0, ?Ho0; split; reflexivity. }
  destruct (py_iter json_list) as [items|e]; [|auto].
  destruct (for_items_same rt listing_type output_file debug items
              {| loop_world := w2; processed_count := 0; ad_number := None |}
              {| loop_world := w2'; processed_count := 0; ad_number := None |})
    as [(Hw1 & Hc1 & _) Hr]; [repeat split; apply H2|].
  destruct (for_items _ _ _ _ _ {| loop_world := w2 |}) as [st r].
  destruct (for_items _ _ _ _ _ {| loop_world := w2' |}) as [st' r'].
  cbn [fst snd] in Hw1, Hc1, Hr. subst r'.
  destruct r as [[]|e]; cbn [fst snd]; [|auto].
  rewrite Hc1. destruct (0 <? processed_count st'); auto.
Qed.

Lemma respects_and_then {A B : Type} (m : action A) (k : A -> action B) :
  respects m -> (forall a, respects (k a)) -> respects (and_then m k).
Proof.
  intros Hm Hk s s' Hs. unfold and_then.
  destruct (Hm s s' Hs) as [Hs1 Hr].
  destruct (m s) as [s1 r1]. destruct (m s') as [s1' r1'].
  cbn [fst snd] in Hs1, Hr. subst r1'.
  destruct r1 as [a|e]; [exact (Hk a s1 s1' Hs1)|auto].
Qed.

Lemma respects_eval {A : Type} (r : result A) : respects (eval r).
Proof. intros s s' Hs. auto. Qed.

Lemma respects_set_debug (b : bool) : respects (set_debug b).
Proof. intros s s' [Hw _]. repeat split; apply Hw. Qed.

Lemma respects_get_debug : respects get_debug.
Proof. intros s s' Hs. split; [exact Hs|]. cbn. f_equal. apply Hs. Qed.

Lemma respects_choose_mode (path : pystr) : respects (choose_mode path).
Proof.
  intros s s' Hs. split; [exact Hs|]. cbn. unfold path_exists.
  destruct Hs as [[-> _] _]. reflexivity.
Qed.

Lemma respects_print (m : message) :
  respects (on_world (fun w => (print m w, Ok tt))).
Proof. intros s s' Hs. split; [exact Hs|reflexivity]. Qed.

Lemma respects_write (rt : runtime) (json_list : json)
    (listing_type path : pystr) (mode : open_mode) (debug : bool) :
  respects (on_world (process_vehicle_data rt json_list listing_type path
                        mode debug)).
Proof.
  intros s s' [Hw Hd]. unfold on_world.
  destruct (process_vehicle_data_same rt json_list listing_type path mode debug
              (fst s) (fst s') Hw) as [Hw1 Hr].
  destruct (process_vehicle_data _ _ _ _ _ _ (fst s)) as [w1 r1].
  destruct (process_vehicle_data _ _ _ _ _ _ (fst s')) as [w1' r1'].
  cbn [fst snd] in *. split; [split; assumption|exact Hr].
Qed.

Lemma respects_process_file (rt : runtime) (path : pystr) (e : dir_entry) :
  respects (process_file rt path e).
Proof.
  unfold process_file. destruct (entry_content e); [apply respects_eval|].
  repeat first
    [ apply respects_eval
    | apply respects_print
    | apply respects_set_debug
    | apply respects_get_debug
    | apply respects_choose_mode
    | apply respects_write
    | apply respects_and_then
    | match goal with
      | |- forall _, respects _ => intros ?
      | |- respects (if ?c then _ else _) => destruct c
      end ].
Qed.

Lemma for_files_same (rt : runtime) (path : pystr) (entries : list dir_entry) :
  forall s s',
    same_state s s' ->
    same_state (for_files rt path entries s) (for_files rt path entries s').
Proof.
  induction entries as [|e entries IH]; intros s s' Hs; [exact Hs|].
  cbn [for_files]. apply IH.
  destruct (ends_with _ _ && str_contains _ _); [|exact Hs].
  destruct (respects_process_file rt path e s s' Hs) as [Hs1 Hr].
  destruct (process_file rt path e s) as [s1 r1].
  destruct (process_file rt path e s') as [s1' r1'].
  cbn [fst snd] in Hs1, Hr. subst r1'.
  destruct r1 as [[]|err]; exact Hs1.
Qed.

Lemma for_files_app (rt : runtime) (path : pystr) (l1 l2 : list dir_entry) :
  forall s,
    for_files rt path (l1 ++ l2) s
    = for_files rt path l2 (for_files rt path l1 s).
Proof.
  induction l1 as [|e l1 IH]; intros s; [reflexivity|].
  cbn [app for_files]. apply IH.
Qed.

(** A file that fails before its first list is read changes nothing but
    what is printed. *)
Lemma process_file_fails (rt : runtime) (path : pystr) (e : dir_entry)
    (err : exn) (s : dir_state) :
  commercial_of (entry_content e) = Raise err ->
  same_state (fst (process_file rt path e s)) s
  /\ snd (process_file rt path e s) = Raise err.
Proof.
  unfold commercial_of, process_file.
  destruct (entry_content e) as [e0|extracted].
  - intros H. injection H as ->. split; [|reflexivity]. split; [|reflexivity].
    apply same_files_refl.
  - intros H. unfold and_then, on_world, eval. cbn [fst snd].
    assert (Hs : same_state (print (ProcessingFile (entry_name e)) (fst s), snd s) s)
      by (split; [split; reflexivity|reflexivity]).
    destruct extracted as [data|e1]; cbn [bind] in H;
      [|injection H as ->; auto].
    destruct (listings_of data) as [listings_data|e2]; cbn [bind] in H;
      [|injection H as ->; auto].
    rewrite H. auto.
Qed.

(** X26: a file that fails before its first category is read (it cannot
    be opened, read or parsed, or its data lack the path of line 173 or are
    no mapping there) costs that file only: the files and the record of
    [open]s at the end of the run are those of the run without it. *)
Theorem bad_file_isolated (rt : runtime) (directory_path : pystr)
    (debug : bool) (before after : list dir_entry) (bad : dir_entry)
    (err : exn) (w : world) :
  commercial_of (entry_content bad) = Raise err ->
  same_files
    (process_directory rt directory_path debug (before ++ bad :: after) w)
    (process_directory rt directory_path debug (before ++ after) w).
Proof.
  intros Hbad. unfold process_directory.
  set (path := output_path_of directory_path).
  rewrite !for_files_app.
  set (s := for_files rt path before (w, debug)).
  assert (Hs : same_state (for_files rt path (bad :: after) s)
                 (for_files rt path after s)).
  { cbn [for_files]. apply for_files_same.
    destruct (ends_with _ _ && str_contains _ _);
      [|split; [apply same_files_refl|reflexivity]].
    destruct (process_file_fails rt path bad err s Hbad) as [H Hr].
    destruct (process_file rt path bad s) as [s1 r1]. cbn [fst snd] in H, Hr.
    subst r1. exact H. }
  exact (proj1 Hs).
Qed.

(** The theorem at a file whose data are an empty mapping, between two
    files with a listing each. *)
Lemma bad_file_isolated_witness :
  same_files
    (process_directory example_runtime (lit "scraped_vehicles") true
       ([page_entry (lit "a_26_11_03.html",
                     {| commercial := [good_listing]; private := [];
                        solo := []; platinum := [] |})]
        ++ {| entry_name := lit "broken_26_11_03.html";
              entry_content := Readable (Ok (JObj ∅)) |}
           :: [page_entry (lit "c_26_11_03.html",
                           {| commercial := []; private := [good_listing];
                              solo := []; platinum := [] |})])
       empty_world)
    (process_directory example_runtime (lit "scraped_vehicles") true
       ([page_entry (lit "a_26_11_03.html",
                     {| commercial := [good_listing]; private := [];
                        solo := []; platinum := [] |})]
        ++ [page_entry (lit "c_26_11_03.html",
                        {| commercial := []; private := [good_listing];
                           solo := []; platinum := [] |})])
       empty_world).
Proof.
  apply (bad_file_isolated example_runtime (lit "scraped_vehicles") true
           _ _ {| entry_name := lit "broken_26_11_03.html";
                  entry_content := Readable (Ok (JObj ∅)) |} KeyError).
  reflexivity.
Defined.
